(** * bhive.comment: the reward and curation computations of [Comment]

    A shallow embedding of the economic methods of [bhive/comment.py]
    ([reward], [is_pending], [time_elapsed],
    [curation_penalty_compensation_HBD], [estimate_curation_HBD],
    [get_curation_penalty], [get_vote_with_curation],
    [get_beneficiaries_pct], [get_rewards], [get_author_rewards],
    [get_curation_rewards] and [refresh]).

    Conventions of the embedding.
    - Python [float] and [int] values are exact rationals ([Q]) and
      integers ([Z]); equality of computed numbers is [Qeq].  Rounding of
      binary floating point is not modelled.
    - A [datetime] is a number of microseconds since the epoch, a
      [timedelta] a number of microseconds; [total_seconds] divides by 10^6.
    - A raised exception is a [Raise] result.  Methods that only read the
      comment are functions of the comment; methods that write to it (or to
      an object it owns) return the comment they leave behind.  The reading
      methods of the reward engine are also given as transformers of the
      comment ([call_get_rewards] and the like), which makes leaving the
      comment unchanged a theorem about them.
    - One call observes one clock reading, [utcnow] of the [Hive] instance.
    - [Amount] and [Price] live in modules that are not part of this file's
      source; they are modelled from the specification (see below), as are
      the collaborators reached through the [Hive] instance. *)

From Stdlib Require Import ZArith QArith Qminmax String List Bool Lia Lqa.
Import ListNotations.

Local Open Scope Q_scope.

(** ** Exceptions and results *)

Inductive exception : Type :=
| KeyError (key : string)
| ValueError (msg : string)
| ZeroDivisionError
| TypeError
| ContentDoesNotExistsException
| SymbolMismatch
| InvalidPrice
| DivisionByZero
| InvalidInput.

Inductive result (A : Type) : Type :=
| Return (a : A)
| Raise (e : exception).

Arguments Return {A} a.
Arguments Raise {A} e.

Definition bind {A B : Type} (m : result A) (k : A -> result B) : result B :=
  match m with
  | Return a => k a
  | Raise e => Raise e
  end.

Notation "x <- m ;; k" := (bind m (fun x => k))
  (at level 61, m at next level, right associativity).
Notation "' pat <- m ;; k" := (bind m (fun x => match x with pat => k end))
  (at level 61, pat pattern, m at next level, right associativity).

Definition returns {A : Type} (m : result A) : Prop := exists a, m = Return a.

(** ** Numbers *)

Definition Qlt_bool (x y : Q) : bool := negb (Qle_bool y x).

(** Python's [x / y] on numbers. *)
Definition float_div (x y : Q) : result Q :=
  if Qeq_bool y 0 then Raise ZeroDivisionError else Return (x / y).

Definition datetime : Type := Z.
Definition timedelta : Type := Z.

Definition total_seconds (d : timedelta) : Q := Qmake d 1000000.

(** ** Amount

    Modelled from the spec: the class [bhive.amount.Amount] (the fixed-point
    currency value) is missing.  A value is a magnitude tagged with a
    symbol; addition, subtraction and comparison need equal symbols and
    fail with [SymbolMismatch] otherwise; multiplication and division by a
    scalar keep the symbol; division by a zero scalar fails with
    [DivisionByZero].  Arithmetic produces new values. *)

Record Amount : Type := mkAmount { amount : Q; symbol : string }.

Definition Amount_add (a b : Amount) : result Amount :=
  if String.eqb (symbol a) (symbol b)
  then Return (mkAmount (amount a + amount b) (symbol a))
  else Raise SymbolMismatch.

Definition Amount_sub (a b : Amount) : result Amount :=
  if String.eqb (symbol a) (symbol b)
  then Return (mkAmount (amount a - amount b) (symbol a))
  else Raise SymbolMismatch.

Definition Amount_mul (a : Amount) (x : Q) : Amount :=
  mkAmount (amount a * x) (symbol a).

Definition Amount_div (a : Amount) (x : Q) : result Amount :=
  if Qeq_bool x 0 then Raise DivisionByZero
  else Return (mkAmount (amount a / x) (symbol a)).

(** [float(a)]. *)
Definition Amount_float (a : Amount) : Q := amount a.

(** Equality of amounts up to the representation of the magnitude. *)
Definition Amount_eq (a b : Amount) : Prop :=
  amount a == amount b /\ symbol a = symbol b.

(** ** Price

    Modelled from the spec: the class [bhive.price.Price] is missing.  A
    price is a base/quote pair of amounts; construction fails with
    [InvalidPrice] when a magnitude is zero or the symbols are equal.  A
    value in the quote symbol is converted to the base symbol by
    multiplying with base/quote, a value in the base symbol is converted to
    the quote symbol by dividing.  [as_base s] is the price whose base
    symbol is [s]. *)

Record Price : Type := mkPrice { base : Amount; quote : Amount }.

Definition Price_new (b q : Amount) : result Price :=
  if Qeq_bool (amount b) 0 || Qeq_bool (amount q) 0
     || String.eqb (symbol b) (symbol q)
  then Raise InvalidPrice
  else Return (mkPrice b q).

Definition Price_as_base (p : Price) (s : string) : result Price :=
  if String.eqb (symbol (base p)) s then Return p
  else if String.eqb (symbol (quote p)) s then Return (mkPrice (quote p) (base p))
  else Raise InvalidPrice.

Definition Price_mul (p : Price) (a : Amount) : result Amount :=
  if String.eqb (symbol a) (symbol (quote p))
  then Return (mkAmount (amount a * (amount (base p) / amount (quote p)))
                        (symbol (base p)))
  else if String.eqb (symbol a) (symbol (base p))
  then Return (mkAmount (amount a / (amount (base p) / amount (quote p)))
                        (symbol (quote p)))
  else Raise SymbolMismatch.

(** ** The comment and the objects it owns *)

(** A value stored for a voter: an [Amount], or the integer written by
    [claim = 0] and [active_votes[...] = 0]. *)
Inductive claim : Type :=
| ClaimAmount (a : Amount)
| ClaimInt (z : Z).

Definition claim_float (c : claim) : Q :=
  match c with
  | ClaimAmount a => Amount_float a
  | ClaimInt z => inject_Z z
  end.

(** [claim > 0]. *)
Definition claim_gt0 (c : claim) : bool := Qlt_bool 0 (claim_float c).

Record Vote : Type := mkVote {
  voter : string;
  weight : Z;
  rshares : Z;
  percent : Z;
  time : datetime;
  reputation : Z;
  curation_reward : option claim;
  ROI : option Q
}.

Record Beneficiary : Type := mkBeneficiary {
  account : string;
  beneficiary_weight : Z
}.

(** The keys of the comment read by the reward methods.  [depth],
    [active_votes] and [total_vote_weight] are tested with [in self] by the
    code and are optional here. *)
Record Comment : Type := mkComment {
  author : string;
  permlink : string;
  created : datetime;
  depth : option Z;
  parent_author : string;
  total_payout_value : Amount;
  curator_payout_value : Amount;
  pending_payout_value : Amount;
  percent_hive_dollars : Z;
  allow_curation_rewards : bool;
  beneficiaries : list Beneficiary;
  active_votes : option (list Vote);
  total_vote_weight : option Z
}.

(** The [Hive] instance and what is reached through it: the chain
    properties, the clock, the node's answer to a content query (already
    parsed; [None] is an empty reply), the votes the node lists for the
    comment, and the account model's value of a vote. *)
Record Hive : Type := mkHive {
  hardfork : Z;
  hbd_symbol : string;
  hive_symbol : string;
  get_current_median_history : option (Amount * Amount);
  utcnow : datetime;
  is_connected : bool;
  rpc_get_content : string -> string -> option Comment;
  rpc_active_votes : string -> string -> list Vote;
  get_voting_value_HBD : string -> Q -> Q
}.

(** The value of a [dict] returned by [get_author_rewards]. *)
Inductive pyvalue : Type :=
| PyBool (b : bool)
| PyAmount (a : Amount).

(** A Python [dict] with string keys, in insertion order: assigning to a
    key that is present replaces its value in place, assigning to a new key
    appends it. *)
Definition dict (V : Type) : Type := list (string * V).

Fixpoint dict_set {V : Type} (k : string) (v : V) (d : dict V) : dict V :=
  match d with
  | [] => [(k, v)]
  | (k', v') :: d' =>
      if String.eqb k k' then (k', v) :: d' else (k', v') :: dict_set k v d'
  end.

Fixpoint dict_find {V : Type} (k : string) (d : dict V) : option V :=
  match d with
  | [] => None
  | (k', v') :: d' => if String.eqb k k' then Some v' else dict_find k d'
  end.

(** [d[k]]. *)
Definition getitem {V : Type} (d : dict V) (k : string) : result V :=
  match dict_find k d with
  | Some v => Return v
  | None => Raise (KeyError k)
  end.

Definition dict_values {V : Type} (d : dict V) : list V := map snd d.
Definition dict_keys {V : Type} (d : dict V) : list string := map fst d.

(** Arithmetic of an [Amount] with a value read from a [dict]; the values
    read by the code are always amounts. *)
Definition pyvalue_amount (v : pyvalue) : result Amount :=
  match v with
  | PyAmount a => Return a
  | PyBool _ => Raise TypeError
  end.

(** The result of [get_curation_rewards]. *)
Record curation_rewards : Type := mkCurationRewards {
  pending_rewards : bool;
  unclaimed_rewards : Amount;
  active_votes_rewards : dict claim
}.

(** The result of [get_rewards]. *)
Record rewards : Type := mkRewards {
  total_payout : Amount;
  author_payout : Amount;
  curator_payout : Amount
}.

(** The [vote_time] argument of [get_curation_penalty].  [created] is a
    timezone-aware [datetime] ([time_elapsed] subtracts it from a localized
    clock reading), so a [datetime] without timezone, and a [date] that is
    not a [datetime], pass the [isinstance] test but cannot be subtracted
    from. *)
Inductive vote_time_arg : Type :=
| vote_time_None
| vote_time_str (s : string)
| vote_time_datetime (t : datetime)
| vote_time_naive_datetime (t : datetime)
| vote_time_date (days : Z)
| vote_time_other.

(** The [pending_payout_value] argument of [get_curation_rewards]. *)
Inductive pending_payout_arg : Type :=
| pending_payout_None
| pending_payout_number (x : Q)
| pending_payout_str (s : string)
| pending_payout_Amount (a : Amount).

(** Replace the element at an index of a list (nothing out of range). *)
Fixpoint list_update {A : Type} (i : nat) (x : A) (l : list A) : list A :=
  match l, i with
  | [], _ => []
  | _ :: l', O => x :: l'
  | y :: l', S i' => y :: list_update i' x l'
  end.

(** The loop [for vote in votes: if name == vote["voter"]: specific_vote =
    vote]: the position of the last vote of that voter, counted from [i]. *)
Fixpoint find_specific_vote (name : string) (votes : list Vote) (i : nat)
    (specific_vote : option nat) : option nat :=
  match votes with
  | [] => specific_vote
  | vote :: votes' =>
      find_specific_vote name votes' (S i)
        (if String.eqb name (voter vote) then Some i else specific_vote)
  end.

Definition set_active_votes (self : Comment) (votes : option (list Vote)) : Comment :=
  mkComment (author self) (permlink self) (created self) (depth self)
    (parent_author self) (total_payout_value self) (curator_payout_value self)
    (pending_payout_value self) (percent_hive_dollars self)
    (allow_curation_rewards self) (beneficiaries self) votes
    (total_vote_weight self).

Definition set_curation_reward (v : Vote) (c : claim) : Vote :=
  mkVote (voter v) (weight v) (rshares v) (percent v) (time v) (reputation v)
    (Some c) (ROI v).

Definition set_ROI (v : Vote) (r : Q) : Vote :=
  mkVote (voter v) (weight v) (rshares v) (percent v) (time v) (reputation v)
    (curation_reward v) (Some r).

Section Engine.

(** The constants of [bhive.constants], the time parser of [bhive.utils],
    the parser of an amount written as a string, and the value of
    [math.sqrt] on its domain. *)
Variable HIVE_REVERSE_AUCTION_WINDOW_SECONDS_HF6 : Z.
Variable HIVE_REVERSE_AUCTION_WINDOW_SECONDS_HF20 : Z.
Variable HIVE_REVERSE_AUCTION_WINDOW_SECONDS_HF21 : Z.
Variable formatTimeString : string -> result datetime.
Variable Amount_of_string : string -> result Amount.
Variable sqrt_value : Q -> Q.

(** [self.hive]. *)
Variable hive : Hive.

Definition math_sqrt (x : Q) : result Q :=
  if Qlt_bool x 0 then Raise (ValueError "math domain error")
  else Return (sqrt_value x).

Definition identifier (self : Comment) : string :=
  ("@" ++ author self ++ "/" ++ permlink self)%string.

Definition refresh (self : Comment) : result Comment :=
  if String.eqb (identifier self) "" then Return self
  else if negb (is_connected hive) then Return self
  else
    match rpc_get_content hive (author self) (permlink self) with
    | None => Raise ContentDoesNotExistsException
    | Some content =>
        if String.eqb (author content) "" || String.eqb (permlink content) ""
        then Raise ContentDoesNotExistsException
        else Return content
    end.

Definition is_main_post (self : Comment) : bool :=
  match depth self with
  | Some d => (d =? 0)%Z
  | None => String.eqb (parent_author self) ""
  end.

Definition is_comment (self : Comment) : bool :=
  match depth self with
  | Some d => (0 <? d)%Z
  | None => negb (String.eqb (parent_author self) "")
  end.

Definition reward (self : Comment) : result Amount :=
  ac <- Amount_add (total_payout_value self) (curator_payout_value self) ;;
  Amount_add ac (pending_payout_value self).

Definition time_elapsed (self : Comment) : timedelta :=
  (utcnow hive - created self)%Z.

Definition is_pending (self : Comment) : bool :=
  let total := total_payout_value self in
  let post_age_days := total_seconds (time_elapsed self) / 60 / 60 / 24 in
  Qlt_bool post_age_days 7 && Qeq_bool (Amount_float total) 0.

Definition curation_penalty_compensation_HBD (self : Comment)
    : result Amount * Comment :=
  match refresh self with
  | Raise e => (Raise e, self)
  | Return self =>
      let reverse_auction_window_seconds :=
        if (21 <=? hardfork hive)%Z then HIVE_REVERSE_AUCTION_WINDOW_SECONDS_HF21
        else if (20 <=? hardfork hive)%Z then HIVE_REVERSE_AUCTION_WINDOW_SECONDS_HF20
        else HIVE_REVERSE_AUCTION_WINDOW_SECONDS_HF6 in
      (r <- reward self ;;
       Amount_div (Amount_mul r (inject_Z reverse_auction_window_seconds))
                  ((total_seconds (time_elapsed self) / 60) ^ 2),
       self)
  end.

(** The first step of [get_curation_penalty]: the elapsed seconds the
    argument stands for. *)
Definition elapsed_seconds_of (self : Comment) (vote_time : vote_time_arg)
    : result Q :=
  match vote_time with
  | vote_time_None => Return (total_seconds (time_elapsed self))
  | vote_time_str s =>
      t <- formatTimeString s ;; Return (total_seconds (t - created self)%Z)
  | vote_time_datetime t => Return (total_seconds (t - created self)%Z)
  | vote_time_naive_datetime _ => Raise TypeError
  | vote_time_date _ => Raise TypeError
  | vote_time_other =>
      Raise (ValueError "vote_time must be a string or a datetime")
  end.

Definition get_curation_penalty (self : Comment) (vote_time : vote_time_arg)
    : result Q :=
  elapsed_seconds <- elapsed_seconds_of self vote_time ;;
  reward <-
    (if (21 <=? hardfork hive)%Z
     then float_div elapsed_seconds (inject_Z HIVE_REVERSE_AUCTION_WINDOW_SECONDS_HF21)
     else if (20 <=? hardfork hive)%Z
     then float_div elapsed_seconds (inject_Z HIVE_REVERSE_AUCTION_WINDOW_SECONDS_HF20)
     else float_div elapsed_seconds (inject_Z HIVE_REVERSE_AUCTION_WINDOW_SECONDS_HF6)) ;;
  let reward := if Qlt_bool 1 reward then 1 else reward in
  Return (1 - reward).

Definition estimate_curation_HBD (self : Comment) (vote_value_HBD : Q)
    (estimated_value_HBD : option Q) : result Q * Comment :=
  match refresh self with
  | Raise e => (Raise e, self)
  | Return self =>
      (estimated_value_HBD <-
         match estimated_value_HBD with
         | None => r <- reward self ;; Return (Amount_float r)
         | Some x => Return x
         end ;;
       p <- get_curation_penalty self vote_time_None ;;
       let t := 1 - p in
       r <- reward self ;;
       k <- float_div vote_value_HBD (vote_value_HBD + Amount_float r) ;;
       s <- math_sqrt (1 - k) ;;
       K <- float_div ((1 - s) / 4) k ;;
       s' <- math_sqrt estimated_value_HBD ;;
       Return (K * vote_value_HBD * t * s'),
       self)
  end.

Definition get_beneficiaries_pct (self : Comment) : Q :=
  let beneficiaries := beneficiaries self in
  let weight :=
    fold_left (fun weight b => (weight + beneficiary_weight b)%Z) beneficiaries 0%Z in
  inject_Z weight / 100.

(** [self.get_votes()]: the votes the node lists for the comment. *)
Definition get_votes (self : Comment) : list Vote :=
  rpc_active_votes hive (author self) (permlink self).

(** [Price(median_hist)] when a median history is available. *)
Definition median_price_of (median_hist : option (Amount * Amount))
    : result (option Price) :=
  match median_hist with
  | Some (b, q) => p <- Price_new b q ;; Return (Some p)
  | None => Return None
  end.

(** The part of [get_curation_rewards] that resolves the vote list. *)
Definition active_votes_list_of (self : Comment) : list Vote :=
  match active_votes self with
  | Some votes => votes
  | None => get_votes self
  end.

(** The part of [get_curation_rewards] that resolves the total weight. *)
Definition total_vote_weight_of (self : Comment) (active_votes_list : list Vote) : Z :=
  match total_vote_weight self with
  | Some w => w
  | None =>
      fold_left (fun total_vote_weight vote => (total_vote_weight + weight vote)%Z)
        active_votes_list 0%Z
  end.

(** The part of [get_curation_rewards] before its loop: [max_rewards] and
    [pending_rewards]. *)
Definition max_rewards_of (self : Comment) (pending_payout_HBD : bool)
    (pending_payout_value_ : pending_payout_arg) : result (Amount * bool) :=
  let median_hist := get_current_median_history hive in
  median_price <- median_price_of median_hist ;;
  if negb (allow_curation_rewards self) || negb (is_pending self)
  then Return (mkAmount 0 (hive_symbol hive), false)
  else
    pending_payout_value <-
      match pending_payout_value_ with
      | pending_payout_None => Return (pending_payout_value self)
      | pending_payout_number x => Return (mkAmount x (hbd_symbol hive))
      | pending_payout_str s => Amount_of_string s
      | pending_payout_Amount a => Return a
      end ;;
    max_rewards <-
      match median_price with
      | Some median_price =>
          if pending_payout_HBD
          then Return (Amount_mul pending_payout_value (1 # 4))
          else
            p <- Price_as_base median_price (hive_symbol hive) ;;
            Price_mul p (Amount_mul pending_payout_value (1 # 4))
      | None => Return (Amount_mul pending_payout_value (1 # 4))
      end ;;
    Return (max_rewards, true).

(** The claim of one vote. *)
Definition claim_of (max_rewards : Amount) (total_vote_weight : Z) (vote : Vote)
    : result claim :=
  if (0 <? total_vote_weight)%Z
  then
    c <- Amount_div (Amount_mul max_rewards (inject_Z (weight vote)))
                    (inject_Z total_vote_weight) ;;
    Return (ClaimAmount c)
  else Return (ClaimInt 0).

(** One turn of the loop of [get_curation_rewards].  A claim that is
    greater than zero is an [Amount]; the integer case of the
    subtraction is never reached. *)
Definition curation_step (max_rewards : Amount) (pending_rewards : bool)
    (total_vote_weight : Z) (vote : Vote) (st : Amount * dict claim)
    : result (Amount * dict claim) :=
  let '(unclaimed_rewards, active_votes) := st in
  claim <- claim_of max_rewards total_vote_weight vote ;;
  unclaimed_rewards <-
    (if claim_gt0 claim && pending_rewards
     then
       match claim with
       | ClaimAmount c => Amount_sub unclaimed_rewards c
       | ClaimInt z => Return (mkAmount (amount unclaimed_rewards - inject_Z z)
                                        (symbol unclaimed_rewards))
       end
     else Return unclaimed_rewards) ;;
  Return (unclaimed_rewards,
          if claim_gt0 claim
          then dict_set (voter vote) claim active_votes
          else dict_set (voter vote) (ClaimInt 0) active_votes).

Fixpoint curation_loop (max_rewards : Amount) (pending_rewards : bool)
    (total_vote_weight : Z) (active_votes_list : list Vote)
    (st : Amount * dict claim) : result (Amount * dict claim) :=
  match active_votes_list with
  | [] => Return st
  | vote :: rest =>
      st' <- curation_step max_rewards pending_rewards total_vote_weight vote st ;;
      curation_loop max_rewards pending_rewards total_vote_weight rest st'
  end.

Definition get_curation_rewards (self : Comment) (pending_payout_HBD : bool)
    (pending_payout_value_ : pending_payout_arg) : result curation_rewards :=
  let active_votes_list := active_votes_list_of self in
  let total_vote_weight := total_vote_weight_of self active_votes_list in
  '(max_rewards, pending_rewards) <-
     max_rewards_of self pending_payout_HBD pending_payout_value_ ;;
  '(unclaimed_rewards, active_votes) <-
     curation_loop max_rewards pending_rewards total_vote_weight
       active_votes_list (max_rewards, []) ;;
  Return (mkCurationRewards pending_rewards unclaimed_rewards active_votes).

Definition get_author_rewards (self : Comment) : result (dict pyvalue) :=
  if negb (is_pending self)
  then Return [("pending_rewards", PyBool false);
               ("payout_HP", PyAmount (mkAmount 0 (hive_symbol hive)));
               ("payout_HBD", PyAmount (mkAmount 0 (hbd_symbol hive)));
               ("total_payout_HBD", PyAmount (total_payout_value self))]%string
  else
    let median_hist := get_current_median_history hive in
    median_price <- median_price_of median_hist ;;
    let beneficiaries_pct := get_beneficiaries_pct self in
    r <- reward self ;;
    let curation_tokens := Amount_mul r (1 # 4) in
    r <- reward self ;;
    author_tokens <- Amount_sub r curation_tokens ;;
    curation_rewards <- get_curation_rewards self false pending_payout_None ;;
    author_tokens <-
      match median_price with
      | Some median_price =>
          if (20 <=? hardfork hive)%Z
          then
            u <- Price_mul median_price (unclaimed_rewards curation_rewards) ;;
            Amount_add author_tokens u
          else Return author_tokens
      | None => Return author_tokens
      end ;;
    benefactor_tokens <- Amount_div (Amount_mul author_tokens beneficiaries_pct) 100 ;;
    author_tokens <- Amount_sub author_tokens benefactor_tokens ;;
    match median_price with
    | Some median_price =>
        hbd_hive <-
          Amount_div (Amount_mul author_tokens (inject_Z (percent_hive_dollars self)))
                     20000 ;;
        p <- Price_as_base median_price (hive_symbol hive) ;;
        rest <- Amount_sub author_tokens hbd_hive ;;
        vesting_hive <- Price_mul p rest ;;
        Return [("pending_rewards", PyBool true);
                ("payout_HP", PyAmount vesting_hive);
                ("payout_HBD", PyAmount hbd_hive);
                ("total_payout_HBD", PyAmount author_tokens)]%string
    | None =>
        Return [("pending_rewards", PyBool true);
                ("total_payout", PyAmount author_tokens)]%string
    end.

Definition get_rewards (self : Comment) : result rewards :=
  if is_pending self
  then
    let total_payout := pending_payout_value self in
    d <- get_author_rewards self ;;
    v <- getitem d "total_payout_HBD"%string ;;
    author_payout <- pyvalue_amount v ;;
    curator_payout <- Amount_sub total_payout author_payout ;;
    Return (mkRewards total_payout author_payout curator_payout)
  else
    let author_payout := total_payout_value self in
    let curator_payout := curator_payout_value self in
    total_payout <- Amount_add author_payout curator_payout ;;
    Return (mkRewards total_payout author_payout curator_payout).

(** [specific_vote[key] = value]: the vote is the object stored at its
    position in [self["active_votes"]] when the comment has that key, and
    an object of the fetched list otherwise. *)
Definition store_vote (self : Comment) (i : nat) (v : Vote) : Comment :=
  match active_votes self with
  | Some votes => set_active_votes self (Some (list_update i v votes))
  | None => self
  end.

Definition get_vote_with_curation (self : Comment) (voter_ : option string)
    (raw_data : bool) (pending_payout_value_ : pending_payout_arg)
    : result (option Vote) * Comment :=
  let name :=
    match voter_ with
    | None => author self
    | Some name => name
    end in
  let votes := active_votes_list_of self in
  match find_specific_vote name votes 0 None with
  | None => (Return None, self)
  | Some i =>
      match nth_error votes i with
      | None => (Return None, self)
      | Some specific_vote =>
          if raw_data || negb (is_pending self)
          then (Return (Some specific_vote), self)
          else
            match
              (curation_reward <- get_curation_rewards self true pending_payout_value_ ;;
               getitem (active_votes_rewards curation_reward) name)
            with
            | Raise e => (Raise e, self)
            | Return c =>
                let specific_vote := set_curation_reward specific_vote c in
                let self := store_vote self i specific_vote in
                match
                  (q <- float_div (claim_float c)
                          (get_voting_value_HBD hive name
                             (inject_Z (percent specific_vote) / 100)) ;;
                   Return (q * 100))
                with
                | Raise e => (Raise e, self)
                | Return roi =>
                    let specific_vote := set_ROI specific_vote roi in
                    (Return (Some specific_vote), store_vote self i specific_vote)
                end
            end
      end
  end.

End Engine.

(** ** The reverse auction window *)

(** The window both [get_curation_penalty] and
    [curation_penalty_compensation_HBD] select by the hardfork. *)
Definition window_seconds (HF6 HF20 HF21 hf : Z) : Z :=
  if (21 <=? hf)%Z then HF21 else if (20 <=? hf)%Z then HF20 else HF6.

(** The sum of the weight fields of all entries, as the specification
    words it. *)
Fixpoint sum_of_weights (bs : list Beneficiary) : Z :=
  match bs with
  | [] => 0
  | b :: bs' => beneficiary_weight b + sum_of_weights bs'
  end.

(** ** The distribution of curation rewards, as the specification words it *)

(** The claim of a vote: [max_rewards * vote.weight / total_vote_weight]
    when the total weight is positive, and 0 otherwise. *)
Definition raw_claim (max_rewards : Amount) (total_vote_weight : Z) (vote : Vote)
    : claim :=
  if (0 <? total_vote_weight)%Z
  then ClaimAmount
         (mkAmount (amount max_rewards * inject_Z (weight vote)
                    / inject_Z total_vote_weight)
                   (symbol max_rewards))
  else ClaimInt 0.

(** The value recorded for a vote: its claim when positive, zero otherwise. *)
Definition recorded_claim (max_rewards : Amount) (total_vote_weight : Z)
    (vote : Vote) : claim :=
  if claim_gt0 (raw_claim max_rewards total_vote_weight vote)
  then raw_claim max_rewards total_vote_weight vote
  else ClaimInt 0.

(** The unclaimed rewards after a vote: decremented by a positive claim
    while rewards are pending. *)
Definition unclaimed_after (max_rewards : Amount) (pending_rewards : bool)
    (total_vote_weight : Z) (unclaimed : Amount) (vote : Vote) : Amount :=
  if claim_gt0 (raw_claim max_rewards total_vote_weight vote) && pending_rewards
  then mkAmount (amount unclaimed
                 - claim_float (raw_claim max_rewards total_vote_weight vote))
                (symbol unclaimed)
  else unclaimed.

Definition record_vote (max_rewards : Amount) (total_vote_weight : Z)
    (d : dict claim) (vote : Vote) : dict claim :=
  dict_set (voter vote) (recorded_claim max_rewards total_vote_weight vote) d.

(** The sum of the values claimed. *)
Definition sum_claims (l : list claim) : Q :=
  fold_right (fun c s => claim_float c + s) 0 l.

(** The payout amounts of a comment are amounts of one symbol (the parser
    of the comment builds them as HBD amounts). *)
Definition payouts_in (s : string) (self : Comment) : Prop :=
  symbol (total_payout_value self) = s /\
  symbol (curator_payout_value self) = s /\
  symbol (pending_payout_value self) = s.

(** ** What a method leaves of the comment *)

(** Two vote entries agree on the fields read from the chain. *)
Definition same_vote_data (v v' : Vote) : Prop :=
  voter v' = voter v /\ weight v' = weight v /\ rshares v' = rshares v /\
  percent v' = percent v /\ time v' = time v /\ reputation v' = reputation v.

(** Two comments agree on every key but [active_votes]. *)
Definition same_but_votes (self self' : Comment) : Prop :=
  author self' = author self /\ permlink self' = permlink self /\
  created self' = created self /\ depth self' = depth self /\
  parent_author self' = parent_author self /\
  total_payout_value self' = total_payout_value self /\
  curator_payout_value self' = curator_payout_value self /\
  pending_payout_value self' = pending_payout_value self /\
  percent_hive_dollars self' = percent_hive_dollars self /\
  allow_curation_rewards self' = allow_curation_rewards self /\
  beneficiaries self' = beneficiaries self /\
  total_vote_weight self' = total_vote_weight self.

(** The name [get_vote_with_curation] looks for. *)
Definition voter_name (self : Comment) (voter_ : option string) : string :=
  match voter_ with
  | None => author self
  | Some name => name
  end.

(** ** Votes of a voter, and the weight that earns a claim *)

(** The last vote of a voter in a vote list. *)
Fixpoint last_vote_of (name : string) (votes : list Vote) : option Vote :=
  match votes with
  | [] => None
  | vote :: votes' =>
      match last_vote_of name votes' with
      | Some v => Some v
      | None => if String.eqb name (voter vote) then Some vote else None
      end
  end.

(** The sum of the weights of the votes. *)
Fixpoint weight_sum (votes : list Vote) : Z :=
  match votes with
  | [] => 0
  | vote :: votes' => weight vote + weight_sum votes'
  end.

(** The sum of the positive weights of the votes. *)
Fixpoint positive_weight_sum (votes : list Vote) : Z :=
  match votes with
  | [] => 0
  | vote :: votes' => Z.max (weight vote) 0 + positive_weight_sum votes'
  end.

(** ** Voting, editing, parents and recent replies *)

(** The further keys read by the methods that vote, edit and walk the
    thread; [last_payout] is read with [self.get] and may be missing. *)
Record Post : Type := mkPost {
  comment : Comment;
  parent_permlink : string;
  title : string;
  body : string;
  json_metadata : dict string;
  last_payout : option datetime
}.

(** What a method hands to the [Hive] instance as its last step
    ([self.hive.vote] and [self.hive.post], whose result it returns). *)
Inductive request : Type :=
| VoteRequest (weight : Q) (identifier : string) (account : option string)
| PostRequest (title body reply_identifier author permlink : string)
    (json_metadata : dict string).

Inductive posting_exception : Type :=
| PyException (e : exception)
| VotingInvalidOnArchivedPost.

(** The end of a call: the request handed over, a plain [return] without
    one, or an exception. *)
Inductive outcome : Type :=
| Sent (r : request)
| NotSent
| Raised (e : posting_exception).

Definition set_json_metadata (self : Post) (meta : dict string) : Post :=
  mkPost (comment self) (parent_permlink self) (title self) (body self) meta
    (last_payout self).

(** [for key in meta: new_meta[key] = meta[key]]. *)
Definition update_from (meta new_meta : dict string) : dict string :=
  fold_left
    (fun new_meta key =>
       match dict_find key meta with
       | Some v => dict_set key v new_meta
       | None => new_meta
       end)
    (dict_keys meta) new_meta.

(** The part of the node's state read by [RecentReplies]. *)
Record account_state : Type := mkAccountState {
  recent_replies : option (list string)
}.

Record node_state : Type := mkNodeState {
  state_accounts : dict account_state;
  state_content : dict Comment
}.

Section Posting.

(** [construct_authorperm] and [formatToTimeStamp] of [bhive.utils],
    [make_patch] of the same module, and the construction of a comment from
    its identifier, which reads it from the node. *)
Variable construct_authorperm : string -> string -> string.
Variable formatToTimeStamp : datetime -> Z.
Variable make_patch : string -> string -> string.
Variable Comment_of_identifier : string -> result Post.

Definition vote (self : Post) (weight : Q) (account : option string)
    (identifier_ : option string) : outcome :=
  let identifier :=
    match identifier_ with
    | Some s =>
        if String.eqb s "" then
          construct_authorperm (author (comment self)) (permlink (comment self))
        else s
    | None => construct_authorperm (author (comment self)) (permlink (comment self))
    end in
  Sent (VoteRequest weight identifier account).

Definition upvote (self : Post) (weight : Q) (voter_ : option string) : outcome :=
  if Qlt_bool weight 0
  then Raised (PyException (ValueError "Weight must be >= 0."))
  else
    match last_payout self with
    | Some last_payout =>
        if (0 <? formatToTimeStamp last_payout)%Z
        then Raised VotingInvalidOnArchivedPost
        else vote self weight voter_ None
    | None => vote self weight voter_ None
    end.

Definition downvote (self : Post) (weight : Q) (voter_ : option string) : outcome :=
  if Qlt_bool weight 0
  then Raised (PyException (ValueError "Weight must be >= 0."))
  else
    match last_payout self with
    | Some last_payout =>
        if (0 <? formatToTimeStamp last_payout)%Z
        then Raised VotingInvalidOnArchivedPost
        else vote self (- weight) voter_ None
    | None => vote self (- weight) voter_ None
    end.

(** [edit]: the outcome and the comment it leaves ([new_meta] is the
    metadata dictionary of the comment itself when that is not empty, so
    the loop writes into the comment). *)
Definition edit (self : Post) (body_ : string) (meta : option (dict string))
    (replace : bool) : outcome * Post :=
  let meta :=
    match meta with
    | Some ((_ :: _) as m) => m
    | _ => []
    end in
  let original_post := self in
  let newbody :=
    if replace then Some body_
    else
      let newbody := make_patch (body original_post) body_ in
      if String.eqb newbody "" then None else Some newbody in
  match newbody with
  | None => (NotSent, self)
  | Some newbody =>
      let reply_identifier :=
        construct_authorperm (parent_author (comment original_post))
          (parent_permlink original_post) in
      let '(new_meta, self) :=
        match json_metadata original_post with
        | _ :: _ =>
            let new_meta := update_from meta (json_metadata original_post) in
            (new_meta, set_json_metadata self new_meta)
        | [] => (meta, self)
        end in
      (Sent (PostRequest (title original_post) newbody reply_identifier
               (author (comment original_post)) (permlink (comment original_post))
               new_meta),
       self)
  end.

(** [get_parent]: the loop runs while the depth is positive; [fuel] bounds
    the number of comments read from the node, and [None] is a loop that
    has not ended yet. *)
Fixpoint get_parent (fuel : nat) (children : Post) : option (result Post) :=
  match depth (comment children) with
  | None => Some (Raise (KeyError "depth"))
  | Some d =>
      if (0 <? d)%Z
      then
        match fuel with
        | O => None
        | S fuel' =>
            match
              Comment_of_identifier
                (construct_authorperm (parent_author (comment children))
                   (parent_permlink children))
            with
            | Raise e => Some (Raise e)
            | Return parent => get_parent fuel' parent
            end
        end
      else Some (Return children)
  end.

(** A thread with consistent depths: [n] parent links lead from a comment
    to [root], each comment read having a depth one less than its reply. *)
Inductive thread_up : Post -> nat -> Post -> Prop :=
| thread_root (c : Post) :
    depth (comment c) = Some 0%Z -> thread_up c 0 c
| thread_reply (c parent root : Post) (d : Z) (n : nat) :
    depth (comment c) = Some d -> (0 < d)%Z ->
    Comment_of_identifier
      (construct_authorperm (parent_author (comment c)) (parent_permlink c))
    = Return parent ->
    depth (comment parent) = Some (d - 1)%Z ->
    thread_up parent n root ->
    thread_up c (S n) root.

End Posting.

(** The loop of [RecentReplies]. *)
Fixpoint recent_replies_loop (author_ : string) (skip_own : bool)
    (content : dict Comment) (replies : list string) (comments : list Comment)
    : result (list Comment) :=
  match replies with
  | [] => Return comments
  | reply :: replies' =>
      post <- getitem content reply ;;
      if skip_own && String.eqb (author post) author_
      then recent_replies_loop author_ skip_own content replies' comments
      else recent_replies_loop author_ skip_own content replies' (comments ++ [post])
  end.

(** [RecentReplies(author, skip_own)]: the list it is initialised with;
    [get_state] is the node's answer to the state query. *)
Definition RecentReplies (hive : Hive) (get_state : string -> node_state)
    (author_ : string) (skip_own : bool) : result (list Comment) :=
  if negb (is_connected hive) then Return []
  else
    let state := get_state ("/@" ++ author_ ++ "/recent-replies")%string in
    a <- getitem (state_accounts state) author_ ;;
    let replies :=
      match recent_replies a with
      | Some replies => replies
      | None => []
      end in
    recent_replies_loop author_ skip_own (state_content state) replies [].

(** ** The reading methods as transformers of the comment

    The methods that the embedding above gives as functions of the comment,
    written once more statement by statement on the stored comment: every
    [self[key]] is a step that reads the store, every call of another method
    runs that method on the store, and a step could as well write to it
    (as [get_vote_with_curation] does). *)

Definition method (A : Type) : Type := Comment -> result A * Comment.

Definition method_return {A : Type} (a : A) : method A :=
  fun self => (Return a, self).

Definition method_bind {A B : Type} (m : method A) (k : A -> method B) : method B :=
  fun self =>
    match m self with
    | (Return a, self') => k a self'
    | (Raise e, self') => (Raise e, self')
    end.

(** [self[key]]. *)
Definition getkey {A : Type} (key : Comment -> A) : method A :=
  fun self => (Return (key self), self).

(** A computation on values already read. *)
Definition compute {A : Type} (r : result A) : method A :=
  fun self => (r, self).

Notation "x <~ m ;; k" := (method_bind m (fun x => k))
  (at level 61, m at next level, right associativity).

Section Calls.

Variable HIVE_REVERSE_AUCTION_WINDOW_SECONDS_HF6 : Z.
Variable HIVE_REVERSE_AUCTION_WINDOW_SECONDS_HF20 : Z.
Variable HIVE_REVERSE_AUCTION_WINDOW_SECONDS_HF21 : Z.
Variable formatTimeString : string -> result datetime.
Variable Amount_of_string : string -> result Amount.
Variable hive : Hive.

Definition call_time_elapsed : method timedelta :=
  created <~ getkey created ;;
  method_return (utcnow hive - created)%Z.

Definition call_is_pending : method bool :=
  total <~ getkey total_payout_value ;;
  elapsed <~ call_time_elapsed ;;
  let post_age_days := total_seconds elapsed / 60 / 60 / 24 in
  method_return (Qlt_bool post_age_days 7 && Qeq_bool (Amount_float total) 0).

Definition call_reward : method Amount :=
  author <~ getkey total_payout_value ;;
  curator <~ getkey curator_payout_value ;;
  pending <~ getkey pending_payout_value ;;
  compute (ac <- Amount_add author curator ;; Amount_add ac pending).

Definition call_get_curation_penalty (vote_time : vote_time_arg) : method Q :=
  elapsed_seconds <~
    match vote_time with
    | vote_time_None =>
        elapsed <~ call_time_elapsed ;; method_return (total_seconds elapsed)
    | vote_time_str s =>
        t <~ compute (formatTimeString s) ;;
        created <~ getkey created ;;
        method_return (total_seconds (t - created)%Z)
    | vote_time_datetime t =>
        created <~ getkey created ;;
        method_return (total_seconds (t - created)%Z)
    | vote_time_naive_datetime _ =>
        created <~ getkey created ;; compute (Raise TypeError)
    | vote_time_date _ =>
        created <~ getkey created ;; compute (Raise TypeError)
    | vote_time_other =>
        compute (Raise (ValueError "vote_time must be a string or a datetime"))
    end ;;
  compute
    (reward <-
       (if (21 <=? hardfork hive)%Z
        then float_div elapsed_seconds
               (inject_Z HIVE_REVERSE_AUCTION_WINDOW_SECONDS_HF21)
        else if (20 <=? hardfork hive)%Z
        then float_div elapsed_seconds
               (inject_Z HIVE_REVERSE_AUCTION_WINDOW_SECONDS_HF20)
        else float_div elapsed_seconds
               (inject_Z HIVE_REVERSE_AUCTION_WINDOW_SECONDS_HF6)) ;;
     let reward := if Qlt_bool 1 reward then 1 else reward in
     Return (1 - reward)).

Definition call_get_beneficiaries_pct : method Q :=
  beneficiaries <~ getkey beneficiaries ;;
  let weight :=
    fold_left (fun weight b => (weight + beneficiary_weight b)%Z) beneficiaries 0%Z in
  method_return (inject_Z weight / 100).

Definition call_get_votes : method (list Vote) :=
  post_author <~ getkey author ;;
  post_permlink <~ getkey permlink ;;
  method_return (rpc_active_votes hive post_author post_permlink).

Definition call_get_curation_rewards (pending_payout_HBD : bool)
    (pending_payout_value_ : pending_payout_arg) : method curation_rewards :=
  median_price <~ compute (median_price_of (get_current_median_history hive)) ;;
  own_votes <~ getkey active_votes ;;
  active_votes_list <~
    match own_votes with
    | Some votes => method_return votes
    | None => call_get_votes
    end ;;
  own_weight <~ getkey total_vote_weight ;;
  let total_vote_weight :=
    match own_weight with
    | Some w => w
    | None =>
        fold_left (fun total_vote_weight vote => (total_vote_weight + weight vote)%Z)
          active_votes_list 0%Z
    end in
  allow <~ getkey allow_curation_rewards ;;
  pending <~ (if allow then call_is_pending else method_return false) ;;
  rewards <~
    (if negb allow || negb pending
     then method_return (mkAmount 0 (hive_symbol hive), false)
     else
       pending_payout_value <~
         match pending_payout_value_ with
         | pending_payout_None => getkey pending_payout_value
         | pending_payout_number x => method_return (mkAmount x (hbd_symbol hive))
         | pending_payout_str s => compute (Amount_of_string s)
         | pending_payout_Amount a => method_return a
         end ;;
       max_rewards <~
         compute
           match median_price with
           | Some median_price =>
               if pending_payout_HBD
               then Return (Amount_mul pending_payout_value (1 # 4))
               else
                 p <- Price_as_base median_price (hive_symbol hive) ;;
                 Price_mul p (Amount_mul pending_payout_value (1 # 4))
           | None => Return (Amount_mul pending_payout_value (1 # 4))
           end ;;
       method_return (max_rewards, true)) ;;
  distributed <~
    compute
      (curation_loop (fst rewards) (snd rewards) total_vote_weight
         active_votes_list (fst rewards, [])) ;;
  method_return
    (mkCurationRewards (snd rewards) (fst distributed) (snd distributed)).

Definition call_get_author_rewards : method (dict pyvalue) :=
  pending <~ call_is_pending ;;
  if negb pending
  then
    total <~ getkey total_payout_value ;;
    method_return
      [("pending_rewards", PyBool false);
       ("payout_HP", PyAmount (mkAmount 0 (hive_symbol hive)));
       ("payout_HBD", PyAmount (mkAmount 0 (hbd_symbol hive)));
       ("total_payout_HBD", PyAmount total)]%string
  else
    median_price <~ compute (median_price_of (get_current_median_history hive)) ;;
    beneficiaries_pct <~ call_get_beneficiaries_pct ;;
    r <~ call_reward ;;
    let curation_tokens := Amount_mul r (1 # 4) in
    r <~ call_reward ;;
    author_tokens <~ compute (Amount_sub r curation_tokens) ;;
    curation_rewards <~ call_get_curation_rewards false pending_payout_None ;;
    author_tokens <~
      compute
        match median_price with
        | Some median_price =>
            if (20 <=? hardfork hive)%Z
            then
              u <- Price_mul median_price (unclaimed_rewards curation_rewards) ;;
              Amount_add author_tokens u
            else Return author_tokens
        | None => Return author_tokens
        end ;;
    benefactor_tokens <~
      compute (Amount_div (Amount_mul author_tokens beneficiaries_pct) 100) ;;
    author_tokens <~ compute (Amount_sub author_tokens benefactor_tokens) ;;
    match median_price with
    | Some median_price =>
        percent_hive_dollars <~ getkey percent_hive_dollars ;;
        compute
          (hbd_hive <-
             Amount_div (Amount_mul author_tokens (inject_Z percent_hive_dollars))
               20000 ;;
           p <- Price_as_base median_price (hive_symbol hive) ;;
           rest <- Amount_sub author_tokens hbd_hive ;;
           vesting_hive <- Price_mul p rest ;;
           Return [("pending_rewards", PyBool true);
                   ("payout_HP", PyAmount vesting_hive);
                   ("payout_HBD", PyAmount hbd_hive);
                   ("total_payout_HBD", PyAmount author_tokens)]%string)
    | None =>
        method_return
          [("pending_rewards", PyBool true);
           ("total_payout", PyAmount author_tokens)]%string
    end.

Definition call_get_rewards : method rewards :=
  pending <~ call_is_pending ;;
  if pending
  then
    total_payout <~ getkey pending_payout_value ;;
    d <~ call_get_author_rewards ;;
    compute
      (v <- getitem d "total_payout_HBD"%string ;;
       author_payout <- pyvalue_amount v ;;
       curator_payout <- Amount_sub total_payout author_payout ;;
       Return (mkRewards total_payout author_payout curator_payout))
  else
    author_payout <~ getkey total_payout_value ;;
    curator_payout <~ getkey curator_payout_value ;;
    compute
      (total_payout <- Amount_add author_payout curator_payout ;;
       Return (mkRewards total_payout author_payout curator_payout)).

End Calls.

(** ** Concrete instances

    Sample values for the constants and collaborators, and sample comments,
    on which the statements below are exercised. *)

Module Sample.

Definition HF6 : Z := 1800.
Definition HF20 : Z := 900.
Definition HF21 : Z := 300.

Definition parse_time (s : string) : result datetime :=
  Raise (ValueError "unparsed").
Definition parse_amount (s : string) : result Amount :=
  Raise (ValueError "unparsed").

(** A time parser that reads every string as the epoch. *)
Definition parse_epoch (s : string) : result datetime := Return 0%Z.

(** A rational stand-in for the square root: exact at 0 and 1. *)
Definition sqrt_stub (x : Q) : Q := x.

Definition HBD (x : Q) : Amount := mkAmount x "HBD".
Definition HIVE (x : Q) : Amount := mkAmount x "HIVE".

Definition seconds (n : Z) : timedelta := (n * 1000000)%Z.
Definition day : Z := 86400.

Definition hive_at (hf : Z) (median : option (Amount * Amount)) (now : datetime)
    : Hive :=
  mkHive hf "HBD" "HIVE" median now false
    (fun _ _ => None) (fun _ _ => []) (fun _ _ => 1).

(** A node at hardfork 21, one HIVE quoted at a quarter HBD, one day
    after the epoch. *)
Definition hive21 : Hive :=
  hive_at 21%Z (Some (HBD (1 # 4), HIVE 1)) (seconds day).

(** The same node without a median price history. *)
Definition hive21_no_median : Hive := hive_at 21%Z None (seconds day).

Definition vote_of (name : string) (w : Z) : Vote :=
  mkVote name w 0%Z 10000%Z 0%Z 25%Z None None.

Definition comment_with (c : datetime) (total curator pending : Amount)
    (allow : bool) (bs : list Beneficiary) (votes : list Vote) : Comment :=
  mkComment "alice" "a-post" c (Some 0%Z) "" total curator pending 10000%Z
    allow bs (Some votes) None.

(** A pending post, ten minutes old at [seconds day], worth 4 HBD, with
    two voters of weights 300 and 700. *)
Definition pending_post : Comment :=
  comment_with (seconds (day - 600)) (HBD 0) (HBD 0) (HBD 4) true
    [mkBeneficiary "carol" 500%Z]
    [vote_of "bob" 300%Z; vote_of "dave" 700%Z].

(** The same post with curation rewards switched off. *)
Definition no_curation_post : Comment :=
  comment_with (seconds (day - 600)) (HBD 0) (HBD 0) (HBD 4) false
    [mkBeneficiary "carol" 500%Z]
    [vote_of "bob" 300%Z; vote_of "dave" 700%Z].

(** A post whose payout is final. *)
Definition paid_post : Comment :=
  comment_with 0%Z (HBD 10) (HBD 3) (HBD 0) true []
    [vote_of "bob" 300%Z; vote_of "dave" 700%Z].

(** A pending post whose vote list names one voter twice. *)
Definition twice_voted_post : Comment :=
  comment_with (seconds (day - 600)) (HBD 0) (HBD 0) (HBD 4) true []
    [vote_of "bob" 300%Z; vote_of "bob" 700%Z].

(** A pending post with a vote of negative weight. *)
Definition downvoted_post : Comment :=
  comment_with (seconds (day - 600)) (HBD 0) (HBD 0) (HBD 4) true []
    [vote_of "bob" (-300)%Z; vote_of "dave" 1300%Z].

(** A post created at the instant of the clock reading. *)
Definition new_post : Comment :=
  comment_with (seconds day) (HBD 0) (HBD 0) (HBD 4) true [] [].

(** The sample node with an account model that values every vote at 0. *)
Definition hive21_no_value : Hive :=
  mkHive 21%Z "HBD" "HIVE" (Some (HBD (1 # 4), HIVE 1)) (seconds day) false
    (fun _ _ => None) (fun _ _ => []) (fun _ _ => 0).

(** A post created one minute after the clock reading. *)
Definition future_post : Comment :=
  comment_with (seconds (day + 60)) (HBD 0) (HBD 0) (HBD 4) true [] [].

(** Stand-ins for the functions of [bhive.utils]. *)
Definition authorperm (a p : string) : string := ("@" ++ a ++ "/" ++ p)%string.
Definition timestamp (t : datetime) : Z := (t / 1000000)%Z.
Definition patch (old new : string) : string :=
  if String.eqb old new then ""%string else new.

(** The sample pending post with a title, a body and metadata. *)
Definition root_post : Post :=
  mkPost pending_post "" "A post" "old body"
    [("app", "bhive"); ("format", "markdown")]%string None.

(** A reply to it, and a reply of its author to that reply. *)
Definition reply_comment : Comment :=
  mkComment "bob" "re-a-post" (seconds (day - 60)) (Some 1%Z) "alice"
    (HBD 0) (HBD 0) (HBD 0) 10000%Z true [] (Some []) None.

Definition own_reply_comment : Comment :=
  mkComment "alice" "re-re-a-post" (seconds (day - 30)) (Some 2%Z) "bob"
    (HBD 0) (HBD 0) (HBD 0) 10000%Z true [] (Some []) None.

Definition reply_post : Post := mkPost reply_comment "a-post" "" "a reply" [] None.

(** A node that holds the sample post under its identifier. *)
Definition node_comment (identifier : string) : result Post :=
  if String.eqb identifier "@alice/a-post" then Return root_post
  else Raise ContentDoesNotExistsException.

(** The sample post whose payout is final, paid out one day after the
    epoch. *)
Definition archived_post : Post := mkPost paid_post "" "" "" [] (Some (seconds day)).

(** A connected node and the state it answers with. *)
Definition hive21_connected : Hive :=
  mkHive 21%Z "HBD" "HIVE" (Some (HBD (1 # 4), HIVE 1)) (seconds day) true
    (fun _ _ => None) (fun _ _ => []) (fun _ _ => 1).

Definition replies_state (path : string) : node_state :=
  mkNodeState
    [("bob", mkAccountState (Some ["alice/re-re-a-post"; "bob/re-a-post"]))]%string
    [("bob/re-a-post", reply_comment);
     ("alice/re-re-a-post", own_reply_comment)]%string.

End Sample.

(** Closed comparisons of rationals. *)
Ltac Qdecide := vm_compute; first [reflexivity | discriminate | congruence].

(** ** Basic facts about the numbers and the result monad *)

Lemma Qlt_bool_iff (x y : Q) : Qlt_bool x y = true <-> x < y.
Proof.
  unfold Qlt_bool. rewrite negb_true_iff. split.
  - intros H. apply Qnot_le_lt. intros Hle.
    apply Qle_bool_iff in Hle. congruence.
  - intros H. destruct (Qle_bool y x) eqn:E; [|reflexivity].
    apply Qle_bool_iff in E. exfalso. exact (Qlt_not_le _ _ H E).
Qed.

Lemma Qlt_bool_false_iff (x y : Q) : Qlt_bool x y = false <-> y <= x.
Proof.
  unfold Qlt_bool. rewrite negb_false_iff. apply Qle_bool_iff.
Qed.

Lemma Qeq_bool_false_iff (x y : Q) : Qeq_bool x y = false <-> ~ x == y.
Proof.
  split.
  - apply Qeq_bool_neq.
  - intros H. destruct (Qeq_bool x y) eqn:E; [|reflexivity].
    apply Qeq_bool_iff in E. contradiction.
Qed.

Lemma float_div_Return (x y : Q) : ~ y == 0 -> float_div x y = Return (x / y).
Proof.
  intros H. unfold float_div. apply Qeq_bool_false_iff in H. now rewrite H.
Qed.

Lemma float_div_Raise (x y : Q) : y == 0 -> float_div x y = Raise ZeroDivisionError.
Proof.
  intros H. unfold float_div. apply Qeq_bool_iff in H. now rewrite H.
Qed.

Lemma Amount_div_Return (a : Amount) (x : Q) :
  ~ x == 0 -> Amount_div a x = Return (mkAmount (amount a / x) (symbol a)).
Proof.
  intros H. unfold Amount_div. apply Qeq_bool_false_iff in H. now rewrite H.
Qed.

Lemma Amount_div_Raise (a : Amount) (x : Q) :
  x == 0 -> Amount_div a x = Raise DivisionByZero.
Proof.
  intros H. unfold Amount_div. apply Qeq_bool_iff in H. now rewrite H.
Qed.

Lemma bind_Return_inv {A B : Type} (m : result A) (k : A -> result B) (b : B) :
  bind m k = Return b -> exists a, m = Return a /\ k a = Return b.
Proof.
  destruct m as [a|e]; simpl; intros H; [eauto | discriminate].
Qed.

Lemma total_seconds_sign (d : timedelta) :
  (0 <= total_seconds d <-> (0 <= d)%Z) /\ (total_seconds d < 0 <-> (d < 0)%Z).
Proof.
  unfold total_seconds, Qle, Qlt; simpl. split; split; lia.
Qed.

Section Penalty.

Variables HF6 HF20 HF21 : Z.
Variable formatTimeString : string -> result datetime.
Variable hive : Hive.
Variable self : Comment.

Local Notation "'W'" := (inject_Z (window_seconds HF6 HF20 HF21 (hardfork hive))).
Local Notation "'penalty'" := (get_curation_penalty HF6 HF20 HF21 formatTimeString hive self).
Local Notation "'elapsed'" := (elapsed_seconds_of formatTimeString hive self).

Lemma get_curation_penalty_eq (vote_time : vote_time_arg) :
  penalty vote_time =
  (e <- elapsed vote_time ;;
   r <- float_div e W ;;
   Return (1 - (if Qlt_bool 1 r then 1 else r))).
Proof.
  unfold get_curation_penalty, window_seconds.
  destruct (elapsed_seconds_of _ _ _ _) as [e|x]; simpl; [|reflexivity].
  destruct (21 <=? hardfork hive)%Z; [reflexivity|].
  destruct (20 <=? hardfork hive)%Z; reflexivity.
Qed.

Lemma penalty_Return (vote_time : vote_time_arg) (e : Q) :
  0 < W -> elapsed vote_time = Return e ->
  penalty vote_time = Return (1 - (if Qlt_bool 1 (e / W) then 1 else e / W)).
Proof.
  intros HW He. rewrite get_curation_penalty_eq, He. simpl.
  rewrite float_div_Return; [reflexivity|]. intros H0. rewrite H0 in HW.
  exact (Qlt_irrefl _ HW).
Qed.

Lemma ratio_bounds (e : Q) :
  0 < W -> (0 <= e -> 0 <= e / W) /\ (e <= W -> e / W <= 1) /\
           (W < e -> 1 < e / W) /\ (e < 0 -> e / W < 0).
Proof.
  intros HW. repeat split; intros H.
  - apply Qle_shift_div_l; [exact HW|]. lra.
  - apply Qle_shift_div_r; [exact HW|]. lra.
  - apply Qlt_shift_div_l; [exact HW|]. lra.
  - apply Qlt_shift_div_r; [exact HW|]. lra.
Qed.

(** C1: when the selected window is positive and the elapsed seconds [e]
    of the vote time are not negative, [get_curation_penalty] returns a
    value [p] in [0, 1]; for [e] in [0, window] it is exactly
    [1 - e / window], so 1 at [e = 0] and 0 at [e = window]; and on that
    interval a later vote time never has a larger penalty. *)
Theorem get_curation_penalty_on_window :
  0 < inject_Z (window_seconds HF6 HF20 HF21 (hardfork hive)) ->
  (forall vote_time e,
      elapsed_seconds_of formatTimeString hive self vote_time = Return e ->
      0 <= e ->
      exists p,
        get_curation_penalty HF6 HF20 HF21 formatTimeString hive self vote_time
        = Return p /\
        0 <= p /\ p <= 1 /\
        (e <= inject_Z (window_seconds HF6 HF20 HF21 (hardfork hive)) ->
         p == 1 - e / inject_Z (window_seconds HF6 HF20 HF21 (hardfork hive))) /\
        (e == 0 -> p == 1) /\
        (e == inject_Z (window_seconds HF6 HF20 HF21 (hardfork hive)) -> p == 0)) /\
  (forall vt1 vt2 e1 e2 p1 p2,
      elapsed_seconds_of formatTimeString hive self vt1 = Return e1 ->
      elapsed_seconds_of formatTimeString hive self vt2 = Return e2 ->
      0 <= e1 -> e1 <= e2 ->
      e2 <= inject_Z (window_seconds HF6 HF20 HF21 (hardfork hive)) ->
      get_curation_penalty HF6 HF20 HF21 formatTimeString hive self vt1 = Return p1 ->
      get_curation_penalty HF6 HF20 HF21 formatTimeString hive self vt2 = Return p2 ->
      p2 <= p1).
Proof.
  intros HW. split.
  - intros vt e He Hpos.
    rewrite (penalty_Return vt e HW He). eexists; split; [reflexivity|].
    destruct (ratio_bounds e HW) as (B0 & B1 & B2 & _).
    specialize (B0 Hpos).
    assert (Z0 : e == 0 -> e / W == 0).
    { intros H0. rewrite H0. unfold Qdiv. apply Qmult_0_l. }
    assert (Z1 : e == W -> e / W == 1).
    { intros H1. rewrite H1. unfold Qdiv. apply Qmult_inv_r. lra. }
    destruct (Qlt_bool 1 (e / W)) eqn:E.
    + apply Qlt_bool_iff in E.
      split; [lra|]. split; [lra|]. split; [|split].
      * intros Hle. specialize (B1 Hle). lra.
      * intros H0. specialize (Z0 H0). lra.
      * intros H1. specialize (Z1 H1). lra.
    + apply Qlt_bool_false_iff in E.
      split; [lra|]. split; [lra|]. split; [|split].
      * intros _. reflexivity.
      * intros H0. specialize (Z0 H0). lra.
      * intros H1. specialize (Z1 H1). lra.
  - intros vt1 vt2 e1 e2 p1 p2 He1 He2 H0 H12 H2W Hp1 Hp2.
    rewrite (penalty_Return vt1 e1 HW He1) in Hp1.
    rewrite (penalty_Return vt2 e2 HW He2) in Hp2.
    injection Hp1 as <-. injection Hp2 as <-.
    destruct (ratio_bounds e1 HW) as (_ & B1 & _).
    destruct (ratio_bounds e2 HW) as (_ & B2 & _).
    assert (L1 : e1 / W <= 1) by (apply B1; lra).
    assert (L2 : e2 / W <= 1) by (apply B2; lra).
    assert (Hm : e1 / W <= e2 / W).
    { unfold Qdiv. apply Qmult_le_compat_r; [exact H12|].
      apply Qlt_le_weak, Qinv_lt_0_compat, HW. }
    destruct (Qlt_bool 1 (e1 / W)) eqn:E1;
      destruct (Qlt_bool 1 (e2 / W)) eqn:E2;
      try apply Qlt_bool_iff in E1; try apply Qlt_bool_iff in E2; lra.
Qed.

(** C10: when the selected window is positive, every vote time that lies
    strictly before [created] has negative elapsed seconds and a penalty
    strictly greater than 1, namely [1 - elapsed / window]: the ratio is cut
    at 1 from above only, never at 0 from below.  This holds for a
    [datetime], for a string the parser reads as such a time, and for the
    clock reading used when no vote time is given. *)
Theorem get_curation_penalty_before_created :
  0 < inject_Z (window_seconds HF6 HF20 HF21 (hardfork hive)) ->
  (forall vote_time e,
      elapsed_seconds_of formatTimeString hive self vote_time = Return e ->
      e < 0 ->
      exists p,
        get_curation_penalty HF6 HF20 HF21 formatTimeString hive self vote_time
        = Return p /\
        p == 1 - e / inject_Z (window_seconds HF6 HF20 HF21 (hardfork hive)) /\
        1 < p) /\
  (forall t : datetime,
      (t < created self)%Z ->
      exists p,
        get_curation_penalty HF6 HF20 HF21 formatTimeString hive self
          (vote_time_datetime t) = Return p /\
        p == 1 - total_seconds (t - created self)%Z
                 / inject_Z (window_seconds HF6 HF20 HF21 (hardfork hive)) /\
        1 < p) /\
  (forall (s : string) (t : datetime),
      formatTimeString s = Return t ->
      (t < created self)%Z ->
      exists p,
        get_curation_penalty HF6 HF20 HF21 formatTimeString hive self
          (vote_time_str s) = Return p /\
        p == 1 - total_seconds (t - created self)%Z
                 / inject_Z (window_seconds HF6 HF20 HF21 (hardfork hive)) /\
        1 < p) /\
  ((utcnow hive < created self)%Z ->
   exists p,
     get_curation_penalty HF6 HF20 HF21 formatTimeString hive self vote_time_None
     = Return p /\
     p == 1 - total_seconds (utcnow hive - created self)%Z
              / inject_Z (window_seconds HF6 HF20 HF21 (hardfork hive)) /\
     1 < p).
Proof.
  intros HW.
  assert (G : forall vote_time e,
             elapsed_seconds_of formatTimeString hive self vote_time = Return e ->
             e < 0 ->
             exists p,
               get_curation_penalty HF6 HF20 HF21 formatTimeString hive self vote_time
               = Return p /\
               p == 1 - e / inject_Z (window_seconds HF6 HF20 HF21 (hardfork hive)) /\
               1 < p).
  { intros vt e He Hneg. rewrite (penalty_Return vt e HW He).
    eexists. split; [reflexivity|].
    destruct (ratio_bounds e HW) as (_ & _ & _ & B). specialize (B Hneg).
    destruct (Qlt_bool 1 (e / W)) eqn:E.
    - apply Qlt_bool_iff in E. lra.
    - split; lra. }
  split; [exact G|]. split; [|split].
  - intros t Ht. apply G; [reflexivity|]. apply total_seconds_sign. lia.
  - intros s t Hs Ht. apply G.
    + cbn [elapsed_seconds_of]. rewrite Hs. reflexivity.
    + apply total_seconds_sign. lia.
  - intros Hnow. apply G; [reflexivity|]. apply total_seconds_sign.
    unfold time_elapsed. lia.
Qed.

End Penalty.

Lemma get_curation_penalty_on_window_witness :
  let W := inject_Z (window_seconds Sample.HF6 Sample.HF20 Sample.HF21
                       (hardfork Sample.hive21)) in
  let t := Sample.seconds (Sample.day - 600 + 100) in
  0 < W /\
  exists p,
    get_curation_penalty Sample.HF6 Sample.HF20 Sample.HF21 Sample.parse_time
      Sample.hive21 Sample.pending_post (vote_time_datetime t) = Return p /\
    0 <= p /\ p <= 1 /\ p == 1 - 100 / W.
Proof.
  intros W t.
  assert (HW : 0 < W) by Qdecide.
  split; [exact HW|].
  destruct (get_curation_penalty_on_window Sample.HF6 Sample.HF20 Sample.HF21
              Sample.parse_time Sample.hive21 Sample.pending_post HW) as [H _].
  destruct (H (vote_time_datetime t) (total_seconds (Sample.seconds 100)) eq_refl)
    as (p & Hp & H0 & H1 & HeW & _).
  - Qdecide.
  - exists p. repeat split; try assumption.
    rewrite HeW; [|Qdecide]. apply Qplus_comp; [reflexivity|].
    apply Qopp_comp. apply Qmult_comp; [Qdecide|reflexivity].
Defined.

Lemma get_curation_penalty_before_created_witness :
  let W := inject_Z (window_seconds Sample.HF6 Sample.HF20 Sample.HF21
                       (hardfork Sample.hive21)) in
  0 < W /\
  (exists p,
     get_curation_penalty Sample.HF6 Sample.HF20 Sample.HF21 Sample.parse_epoch
       Sample.hive21 Sample.pending_post (vote_time_datetime 0%Z) = Return p /\
     p == 1 - total_seconds (0 - created Sample.pending_post)%Z / W /\ 1 < p) /\
  (exists p,
     get_curation_penalty Sample.HF6 Sample.HF20 Sample.HF21 Sample.parse_epoch
       Sample.hive21 Sample.pending_post (vote_time_str "1970-01-01T00:00:00")
     = Return p /\
     p == 1 - total_seconds (0 - created Sample.pending_post)%Z / W /\ 1 < p) /\
  (exists p,
     get_curation_penalty Sample.HF6 Sample.HF20 Sample.HF21 Sample.parse_epoch
       Sample.hive21 Sample.future_post vote_time_None = Return p /\
     p == 1 - total_seconds (Sample.seconds (-60)) / W /\ 1 < p).
Proof.
  intros W.
  assert (HW : 0 < W) by Qdecide.
  split; [exact HW|].
  destruct (get_curation_penalty_before_created Sample.HF6 Sample.HF20 Sample.HF21
              Sample.parse_epoch Sample.hive21 Sample.pending_post HW)
    as (_ & Hdatetime & Hstr & _).
  destruct (get_curation_penalty_before_created Sample.HF6 Sample.HF20 Sample.HF21
              Sample.parse_epoch Sample.hive21 Sample.future_post HW)
    as (_ & _ & _ & Hnone).
  split; [|split].
  - apply (Hdatetime 0%Z). reflexivity.
  - apply (Hstr "1970-01-01T00:00:00"%string 0%Z); reflexivity.
  - apply Hnone. reflexivity.
Defined.

(** ** Beneficiaries *)

Lemma fold_weights_acc (bs : list Beneficiary) (acc : Z) :
  fold_left (fun weight b => (weight + beneficiary_weight b)%Z) bs acc
  = (acc + sum_of_weights bs)%Z.
Proof.
  revert acc. induction bs as [|b bs IH]; intros acc; simpl.
  - lia.
  - rewrite IH. lia.
Qed.

(** C8 (as amended): [get_beneficiaries_pct] returns the sum of the weights
    of all beneficiaries divided by 100, a percentage; divided by 100 once
    more, as [get_author_rewards] does, it is the sum divided by 10000. *)
Theorem get_beneficiaries_pct_is_percentage (self : Comment) :
  get_beneficiaries_pct self = inject_Z (sum_of_weights (beneficiaries self)) / 100 /\
  get_beneficiaries_pct self / 100
    == inject_Z (sum_of_weights (beneficiaries self)) / 10000.
Proof.
  assert (E : get_beneficiaries_pct self
              = inject_Z (sum_of_weights (beneficiaries self)) / 100).
  { unfold get_beneficiaries_pct. rewrite fold_weights_acc. reflexivity. }
  split; [exact E|]. rewrite E. field.
Qed.

(** C8 as stated fails: a single beneficiary of weight 500 gives 5, not
    500 / 10000. *)
Lemma get_beneficiaries_pct_not_fraction :
  get_beneficiaries_pct Sample.pending_post == 5 /\
  ~ get_beneficiaries_pct Sample.pending_post
    == inject_Z (sum_of_weights (beneficiaries Sample.pending_post)) / 10000.
Proof.
  split; Qdecide.
Qed.

(** ** Compensation and estimate *)

Section Estimates.

Variables HF6 HF20 HF21 : Z.
Variable formatTimeString : string -> result datetime.
Variable sqrt_value : Q -> Q.
Variable hive : Hive.

Lemma compensation_after_refresh (self self' : Comment) :
  refresh hive self = Return self' ->
  curation_penalty_compensation_HBD HF6 HF20 HF21 hive self =
  (r <- reward self' ;;
   Amount_div (Amount_mul r (inject_Z (window_seconds HF6 HF20 HF21 (hardfork hive))))
              ((total_seconds (time_elapsed hive self') / 60) ^ 2),
   self').
Proof.
  intros Hr. unfold curation_penalty_compensation_HBD, window_seconds.
  rewrite Hr. reflexivity.
Qed.

Lemma square_of_minutes_zero (e : Q) : (e / 60) ^ 2 == 0 <-> e == 0.
Proof.
  split; intros H.
  - assert (H2 : (e / 60) * (e / 60) == 0) by (rewrite <- H; simpl; ring).
    destruct (Qmult_integral _ _ H2) as [Hz|Hz];
      (setoid_replace e with ((e / 60) * 60) by field); rewrite Hz; ring.
  - rewrite H. reflexivity.
Qed.

(** C5: on the comment [self'] that [refresh] leaves (the comment itself
    when the node is not connected), with total reward [r]:
    when the elapsed time is strictly positive,
    [curation_penalty_compensation_HBD] returns
    [r * window_seconds / (elapsed_seconds / 60) ^ 2]; when the elapsed time
    is zero it fails with [DivisionByZero]. *)
Theorem curation_penalty_compensation_HBD_spec (self self' : Comment) (r : Amount) :
  refresh hive self = Return self' ->
  reward self' = Return r ->
  (0 < total_seconds (time_elapsed hive self') ->
   fst (curation_penalty_compensation_HBD HF6 HF20 HF21 hive self) =
   Return (mkAmount
             (amount r * inject_Z (window_seconds HF6 HF20 HF21 (hardfork hive))
              / (total_seconds (time_elapsed hive self') / 60) ^ 2)
             (symbol r))) /\
  (total_seconds (time_elapsed hive self') == 0 ->
   fst (curation_penalty_compensation_HBD HF6 HF20 HF21 hive self) =
   Raise DivisionByZero).
Proof.
  intros Href Hrew. rewrite (compensation_after_refresh self self' Href).
  rewrite Hrew. simpl fst. cbn [bind]. split.
  - intros Hpos. rewrite Amount_div_Return; [reflexivity|].
    intros Hz. apply (proj1 (square_of_minutes_zero _)) in Hz. lra.
  - intros H0. apply Amount_div_Raise.
    exact (proj2 (square_of_minutes_zero _) H0).
Qed.

Lemma estimate_after_refresh (self self' : Comment) (v : Q) (est : option Q) :
  refresh hive self = Return self' ->
  estimate_curation_HBD HF6 HF20 HF21 formatTimeString sqrt_value hive self v est =
  (estimated_value_HBD <-
     match est with
     | None => r <- reward self' ;; Return (Amount_float r)
     | Some x => Return x
     end ;;
   p <- get_curation_penalty HF6 HF20 HF21 formatTimeString hive self' vote_time_None ;;
   r <- reward self' ;;
   k <- float_div v (v + Amount_float r) ;;
   s <- math_sqrt sqrt_value (1 - k) ;;
   K <- float_div ((1 - s) / 4) k ;;
   s' <- math_sqrt sqrt_value estimated_value_HBD ;;
   Return (K * v * (1 - p) * s'),
   self').
Proof.
  intros Hr. unfold estimate_curation_HBD. rewrite Hr. reflexivity.
Qed.

(** C6 (as amended): on the comment [self'] that [refresh] leaves, with
    total reward [r] and a penalty that is computed, a call whose
    [k = vote_value / (vote_value + float(r))] equals 0 or cannot be formed
    (in particular every call with [vote_value == 0]) fails with Python's
    own [ZeroDivisionError]. *)
Theorem estimate_curation_HBD_degenerate (self self' : Comment) (r : Amount)
    (p vote_value : Q) (estimated_value : option Q) :
  refresh hive self = Return self' ->
  reward self' = Return r ->
  get_curation_penalty HF6 HF20 HF21 formatTimeString hive self' vote_time_None
  = Return p ->
  (vote_value + Amount_float r == 0 \/
   vote_value / (vote_value + Amount_float r) == 0 \/
   vote_value == 0) ->
  fst (estimate_curation_HBD HF6 HF20 HF21 formatTimeString sqrt_value hive self
         vote_value estimated_value)
  = Raise ZeroDivisionError.
Proof.
  intros Href Hrew Hpen Hk.
  rewrite (estimate_after_refresh self self' vote_value estimated_value Href).
  rewrite Hrew, Hpen. simpl fst.
  assert (E : (k <- float_div vote_value (vote_value + Amount_float r) ;;
               s <- math_sqrt sqrt_value (1 - k) ;;
               K <- float_div ((1 - s) / 4) k ;;
               s' <- math_sqrt sqrt_value
                       match estimated_value with
                       | Some x => x
                       | None => Amount_float r
                       end ;;
               Return (K * vote_value * (1 - p) * s'))
              = Raise ZeroDivisionError).
  { destruct (Qeq_bool (vote_value + Amount_float r) 0) eqn:D.
    - apply Qeq_bool_iff in D. now rewrite (float_div_Raise _ _ D).
    - apply Qeq_bool_false_iff in D. rewrite (float_div_Return _ _ D). cbn [bind].
      assert (K0 : vote_value / (vote_value + Amount_float r) == 0).
      { destruct Hk as [H|[H|H]]; [contradiction|exact H|].
        rewrite H. unfold Qdiv. apply Qmult_0_l. }
      unfold math_sqrt at 1.
      assert (S0 : Qlt_bool (1 - vote_value / (vote_value + Amount_float r)) 0 = false).
      { apply Qlt_bool_false_iff. rewrite K0. lra. }
      rewrite S0. cbn [bind]. now rewrite (float_div_Raise _ _ K0). }
  destruct estimated_value as [x|]; cbn [bind]; exact E.
Qed.

End Estimates.

Lemma curation_penalty_compensation_HBD_spec_witness :
  fst (curation_penalty_compensation_HBD Sample.HF6 Sample.HF20 Sample.HF21
         Sample.hive21 Sample.pending_post)
  = Return (mkAmount
              (4 * inject_Z Sample.HF21
               / (total_seconds (time_elapsed Sample.hive21 Sample.pending_post) / 60) ^ 2)
              "HBD") /\
  fst (curation_penalty_compensation_HBD Sample.HF6 Sample.HF20 Sample.HF21
         Sample.hive21 Sample.new_post)
  = Raise DivisionByZero.
Proof.
  split.
  - assert (Href : refresh Sample.hive21 Sample.pending_post
                   = Return Sample.pending_post) by reflexivity.
    assert (Hrew : reward Sample.pending_post = Return (Sample.HBD (0 + 0 + 4)))
      by reflexivity.
    destruct (curation_penalty_compensation_HBD_spec Sample.HF6 Sample.HF20
                Sample.HF21 Sample.hive21 Sample.pending_post Sample.pending_post
                _ Href Hrew) as [H _].
    rewrite H; [|Qdecide]. reflexivity.
  - assert (Href : refresh Sample.hive21 Sample.new_post = Return Sample.new_post)
      by reflexivity.
    assert (Hrew : reward Sample.new_post = Return (Sample.HBD (0 + 0 + 4)))
      by reflexivity.
    destruct (curation_penalty_compensation_HBD_spec Sample.HF6 Sample.HF20
                Sample.HF21 Sample.hive21 Sample.new_post Sample.new_post
                _ Href Hrew) as [_ H].
    apply H. Qdecide.
Defined.

Lemma estimate_curation_HBD_degenerate_witness :
  fst (estimate_curation_HBD Sample.HF6 Sample.HF20 Sample.HF21 Sample.parse_time
         Sample.sqrt_stub Sample.hive21 Sample.pending_post 0 None)
  = Raise ZeroDivisionError.
Proof.
  apply (estimate_curation_HBD_degenerate Sample.HF6 Sample.HF20 Sample.HF21
           Sample.parse_time Sample.sqrt_stub Sample.hive21 Sample.pending_post
           Sample.pending_post (Sample.HBD (0 + 0 + 4)) 0 0 None).
  - reflexivity.
  - reflexivity.
  - reflexivity.
  - right. right. reflexivity.
Defined.

(** C6 as stated fails: with [vote_value = 0] on a post worth 4 HBD, [k] is
    0 and the call ends in [ZeroDivisionError], not in [InvalidInput]. *)
Lemma estimate_curation_HBD_not_InvalidInput :
  float_div 0 (0 + 4) = Return (0 / (0 + 4)) /\
  0 / (0 + 4) == 0 /\
  fst (estimate_curation_HBD Sample.HF6 Sample.HF20 Sample.HF21 Sample.parse_time
         Sample.sqrt_stub Sample.hive21 Sample.pending_post 0 None)
  = Raise ZeroDivisionError /\
  fst (estimate_curation_HBD Sample.HF6 Sample.HF20 Sample.HF21 Sample.parse_time
         Sample.sqrt_stub Sample.hive21 Sample.pending_post 0 None)
  <> Raise InvalidInput.
Proof.
  repeat split; try reflexivity. discriminate.
Qed.

(** ** Curation rewards *)

Lemma dict_set_fresh {V : Type} (k : string) (v : V) (d : dict V) :
  ~ In k (dict_keys d) -> dict_set k v d = d ++ [(k, v)].
Proof.
  induction d as [|[k' v'] d IH]; simpl; intros Hk; [reflexivity|].
  destruct (String.eqb k k') eqn:E.
  - apply String.eqb_eq in E. subst. exfalso. apply Hk. now left.
  - rewrite IH; [reflexivity|]. intros Hin. apply Hk. now right.
Qed.

Lemma dict_find_app {V : Type} (k : string) (d1 d2 : dict V) :
  dict_find k (d1 ++ d2) =
  match dict_find k d1 with
  | Some v => Some v
  | None => dict_find k d2
  end.
Proof.
  induction d1 as [|[k' v'] d1 IH]; simpl; [reflexivity|].
  destruct (String.eqb k k'); [reflexivity|exact IH].
Qed.

Lemma dict_find_None {V : Type} (k : string) (d : dict V) :
  ~ In k (dict_keys d) -> dict_find k d = None.
Proof.
  induction d as [|[k' v'] d IH]; simpl; intros Hk; [reflexivity|].
  destruct (String.eqb k k') eqn:E.
  - apply String.eqb_eq in E. subst. exfalso. apply Hk. now left.
  - apply IH. intros Hin. apply Hk. now right.
Qed.

(** Every value of a dictionary after an assignment is the value assigned
    or a value it held before. *)
Lemma dict_set_values {V : Type} (k : string) (v x : V) (d : dict V) :
  In x (dict_values (dict_set k v d)) -> x = v \/ In x (dict_values d).
Proof.
  induction d as [|[k' v'] d IH]; simpl.
  - intros [H|[]]. now left.
  - destruct (String.eqb k k'); simpl.
    + intros [H|H]; [now left | right; now right].
    + intros [H|H]; [right; now left|].
      destruct (IH H) as [H'|H']; [now left | right; now right].
Qed.

Section Curation.

Variable max_rewards : Amount.
Variable pending_rewards : bool.
Variable total_vote_weight : Z.

Local Notation "'claimed'" := (recorded_claim max_rewards total_vote_weight).

Lemma claim_of_Return (vote : Vote) :
  claim_of max_rewards total_vote_weight vote
  = Return (raw_claim max_rewards total_vote_weight vote).
Proof.
  unfold claim_of, raw_claim. destruct (0 <? total_vote_weight)%Z eqn:E; [|reflexivity].
  apply Z.ltb_lt in E. rewrite Amount_div_Return; [reflexivity|].
  unfold Qeq; simpl. lia.
Qed.

Lemma raw_claim_symbol (vote : Vote) (c : Amount) :
  raw_claim max_rewards total_vote_weight vote = ClaimAmount c ->
  symbol c = symbol max_rewards.
Proof.
  unfold raw_claim. destruct (0 <? total_vote_weight)%Z; [|discriminate].
  intros H. injection H as <-. reflexivity.
Qed.

Lemma raw_claim_int (vote : Vote) (z : Z) :
  raw_claim max_rewards total_vote_weight vote = ClaimInt z -> z = 0%Z.
Proof.
  unfold raw_claim. destruct (0 <? total_vote_weight)%Z; [discriminate|].
  intros H. now injection H.
Qed.

Lemma curation_step_Return (vote : Vote) (unclaimed : Amount) (d : dict claim) :
  symbol unclaimed = symbol max_rewards ->
  curation_step max_rewards pending_rewards total_vote_weight vote (unclaimed, d)
  = Return (unclaimed_after max_rewards pending_rewards total_vote_weight unclaimed vote,
            record_vote max_rewards total_vote_weight d vote).
Proof.
  intros Hs. unfold curation_step, unclaimed_after, record_vote, recorded_claim.
  rewrite claim_of_Return. cbn [bind].
  destruct (raw_claim max_rewards total_vote_weight vote) as [c|z] eqn:Ec.
  - destruct (claim_gt0 (ClaimAmount c)) eqn:G; cbn [andb bind]; [|reflexivity].
    destruct pending_rewards; cbn [bind]; [|reflexivity].
    unfold Amount_sub. rewrite Hs, <- (raw_claim_symbol vote c Ec), String.eqb_refl.
    cbn [bind]. rewrite (raw_claim_symbol vote c Ec), <- Hs. reflexivity.
  - rewrite (raw_claim_int vote z Ec). reflexivity.
Qed.

Lemma unclaimed_after_symbol (unclaimed : Amount) (vote : Vote) :
  symbol (unclaimed_after max_rewards pending_rewards total_vote_weight unclaimed vote)
  = symbol unclaimed.
Proof.
  unfold unclaimed_after.
  destruct (claim_gt0 _ && pending_rewards); reflexivity.
Qed.

(** The loop never fails: it returns the fold of its two pure parts. *)
Lemma curation_loop_Return (votes : list Vote) (unclaimed : Amount) (d : dict claim) :
  symbol unclaimed = symbol max_rewards ->
  curation_loop max_rewards pending_rewards total_vote_weight votes (unclaimed, d)
  = Return (fold_left (unclaimed_after max_rewards pending_rewards total_vote_weight)
              votes unclaimed,
            fold_left (record_vote max_rewards total_vote_weight) votes d).
Proof.
  revert unclaimed d.
  induction votes as [|v votes IH]; intros u d Hs; cbn [curation_loop fold_left].
  - reflexivity.
  - rewrite (curation_step_Return v u d Hs). cbn [bind]. apply IH.
    now rewrite unclaimed_after_symbol.
Qed.

Lemma fold_unclaimed_symbol (votes : list Vote) (unclaimed : Amount) :
  symbol (fold_left (unclaimed_after max_rewards pending_rewards total_vote_weight)
            votes unclaimed) = symbol unclaimed.
Proof.
  revert unclaimed. induction votes as [|v votes IH]; intros u; simpl; [reflexivity|].
  rewrite IH. apply unclaimed_after_symbol.
Qed.

Lemma recorded_claim_nonneg (vote : Vote) : 0 <= claim_float (claimed vote).
Proof.
  unfold recorded_claim.
  destruct (claim_gt0 (raw_claim max_rewards total_vote_weight vote)) eqn:G.
  - apply Qlt_bool_iff in G. lra.
  - Qdecide.
Qed.

Lemma unclaimed_after_amount (unclaimed : Amount) (vote : Vote) :
  pending_rewards = true \/ amount max_rewards == 0 ->
  amount (unclaimed_after max_rewards pending_rewards total_vote_weight unclaimed vote)
  + claim_float (claimed vote) == amount unclaimed.
Proof.
  intros Hp. unfold unclaimed_after, recorded_claim.
  destruct (claim_gt0 (raw_claim max_rewards total_vote_weight vote)) eqn:G;
    cbn [andb].
  - destruct pending_rewards; cbn [amount].
    + ring.
    + destruct Hp as [Hp|Hp]; [discriminate|]. exfalso.
      apply Qlt_bool_iff in G. unfold raw_claim in G.
      destruct (0 <? total_vote_weight)%Z; cbn [claim_float Amount_float amount] in G.
      * rewrite Hp in G. unfold Qdiv in G. rewrite !Qmult_0_l in G.
        exact (Qlt_irrefl _ G).
      * revert G. Qdecide.
  - cbn [claim_float]. setoid_replace (inject_Z 0) with 0 by reflexivity. ring.
Qed.

(** What is taken from the unclaimed rewards is what is recorded, while
    rewards are pending or when there is nothing to distribute. *)
Lemma fold_unclaimed_amount (votes : list Vote) (unclaimed : Amount) :
  pending_rewards = true \/ amount max_rewards == 0 ->
  amount (fold_left (unclaimed_after max_rewards pending_rewards total_vote_weight)
            votes unclaimed)
  + sum_claims (map claimed votes) == amount unclaimed.
Proof.
  intros Hp. revert unclaimed.
  induction votes as [|v votes IH]; intros u; cbn [fold_left map sum_claims fold_right].
  - ring.
  - specialize (IH (unclaimed_after max_rewards pending_rewards total_vote_weight u v)).
    fold (sum_claims (map claimed votes)).
    pose proof (unclaimed_after_amount u v Hp) as Hstep.
    rewrite <- Hstep, <- IH. ring.
Qed.

Lemma fold_record_fresh (votes : list Vote) (d : dict claim) :
  NoDup (map voter votes) ->
  (forall v, In v votes -> ~ In (voter v) (dict_keys d)) ->
  fold_left (record_vote max_rewards total_vote_weight) votes d
  = d ++ map (fun v => (voter v, claimed v)) votes.
Proof.
  revert d. induction votes as [|v votes IH]; intros d Hnd Hfresh; simpl.
  - now rewrite app_nil_r.
  - inversion Hnd as [|x l Hnotin Hnd']; subst.
    unfold record_vote at 2. rewrite dict_set_fresh by (apply Hfresh; now left).
    rewrite IH; [now rewrite <- app_assoc|exact Hnd'|].
    intros v' Hin. unfold dict_keys. rewrite map_app, in_app_iff. simpl.
    intros [H|[H|[]]].
    + apply (Hfresh v'); [now right|exact H].
    + apply Hnotin. rewrite H. now apply in_map.
Qed.

Lemma fold_record_values (votes : list Vote) (d : dict claim) (c : claim) :
  In c (dict_values (fold_left (record_vote max_rewards total_vote_weight) votes d)) ->
  In c (dict_values d) \/ exists v, In v votes /\ c = claimed v.
Proof.
  revert d. induction votes as [|v votes IH]; intros d; simpl; [now left|].
  intros H. destruct (IH _ H) as [H'|(v' & Hin & Hc)].
  - unfold record_vote in H'. destruct (dict_set_values _ _ _ _ H') as [E|E].
    + right. exists v. split; [now left|exact E].
    + now left.
  - right. exists v'. split; [now right|exact Hc].
Qed.

Lemma dict_find_recorded (votes : list Vote) (v : Vote) :
  NoDup (map voter votes) -> In v votes ->
  dict_find (voter v) (map (fun v => (voter v, claimed v)) votes) = Some (claimed v).
Proof.
  induction votes as [|v' votes IH]; simpl; intros Hnd Hin; [contradiction|].
  inversion Hnd as [|x l Hnotin Hnd']; subst.
  destruct Hin as [->|Hin].
  - now rewrite String.eqb_refl.
  - destruct (String.eqb (voter v) (voter v')) eqn:E.
    + apply String.eqb_eq in E. exfalso. apply Hnotin. rewrite <- E.
      now apply in_map.
    + now apply IH.
Qed.

Lemma recorded_zero_of_weight (vote : Vote) :
  0 <= amount max_rewards -> (weight vote <= 0)%Z -> claimed vote = ClaimInt 0.
Proof.
  intros Hm Hw. unfold recorded_claim.
  destruct (claim_gt0 (raw_claim max_rewards total_vote_weight vote)) eqn:G;
    [|reflexivity].
  exfalso. apply Qlt_bool_iff in G. unfold raw_claim in G.
  destruct (0 <? total_vote_weight)%Z eqn:E;
    cbn [claim_float Amount_float amount] in G; [|revert G; Qdecide].
  apply Z.ltb_lt in E.
  assert (Ht : 0 < inject_Z total_vote_weight) by (unfold Qlt; simpl; lia).
  assert (Hw' : inject_Z (weight vote) <= 0) by (unfold Qle; simpl; lia).
  assert (Hn : amount max_rewards * inject_Z (weight vote) <= 0).
  { assert (Hp : 0 <= amount max_rewards * - inject_Z (weight vote))
      by (apply Qmult_le_0_compat; lra).
    setoid_replace (amount max_rewards * inject_Z (weight vote))
      with (- (amount max_rewards * - inject_Z (weight vote))) by ring.
    lra. }
  assert (Hd : amount max_rewards * inject_Z (weight vote) / inject_Z total_vote_weight <= 0).
  { apply Qle_shift_div_r; [exact Ht|]. lra. }
  lra.
Qed.

Lemma recorded_zero_of_total (vote : Vote) :
  (total_vote_weight <= 0)%Z -> claimed vote = ClaimInt 0.
Proof.
  intros Ht. unfold recorded_claim, raw_claim.
  assert (E : (0 <? total_vote_weight)%Z = false) by (apply Z.ltb_ge; lia).
  rewrite E. reflexivity.
Qed.

Lemma fold_unclaimed_of_total (votes : list Vote) (unclaimed : Amount) :
  (total_vote_weight <= 0)%Z ->
  fold_left (unclaimed_after max_rewards pending_rewards total_vote_weight)
    votes unclaimed = unclaimed.
Proof.
  intros Ht. induction votes as [|v votes IH]; simpl; [reflexivity|].
  unfold unclaimed_after at 2, raw_claim.
  assert (E : (0 <? total_vote_weight)%Z = false) by (apply Z.ltb_ge; lia).
  rewrite E. simpl. exact IH.
Qed.

End Curation.

Section CurationRewards.

Variable Amount_of_string : string -> result Amount.
Variable hive : Hive.

Lemma max_rewards_of_cases (self : Comment) (pending_payout_HBD : bool)
    (pending_payout_value_ : pending_payout_arg) (m : Amount) (pend : bool) :
  max_rewards_of Amount_of_string hive self pending_payout_HBD pending_payout_value_
  = Return (m, pend) ->
  (pend = true /\ allow_curation_rewards self = true /\ is_pending hive self = true) \/
  (pend = false /\ m = mkAmount 0 (hive_symbol hive) /\
   (allow_curation_rewards self = false \/ is_pending hive self = false)).
Proof.
  unfold max_rewards_of. intros H.
  apply bind_Return_inv in H. destruct H as (mp & _ & H).
  destruct (allow_curation_rewards self); destruct (is_pending hive self);
    cbn [negb orb] in H.
  2-4: injection H as <- <-; right; repeat split; auto.
  apply bind_Return_inv in H. destruct H as (ppv & _ & H).
  apply bind_Return_inv in H. destruct H as (mr & _ & H).
  injection H as <- <-. left. repeat split.
Qed.

Lemma get_curation_rewards_Return (self : Comment) (pending_payout_HBD : bool)
    (pending_payout_value_ : pending_payout_arg) (m : Amount) (pend : bool) :
  max_rewards_of Amount_of_string hive self pending_payout_HBD pending_payout_value_
  = Return (m, pend) ->
  get_curation_rewards Amount_of_string hive self pending_payout_HBD
    pending_payout_value_
  = Return (mkCurationRewards pend
              (fold_left
                 (unclaimed_after m pend
                    (total_vote_weight_of self (active_votes_list_of hive self)))
                 (active_votes_list_of hive self) m)
              (fold_left
                 (record_vote m
                    (total_vote_weight_of self (active_votes_list_of hive self)))
                 (active_votes_list_of hive self) [])).
Proof.
  intros H. unfold get_curation_rewards. rewrite H. cbn [bind].
  rewrite curation_loop_Return by reflexivity. reflexivity.
Qed.

(** C2 (as amended): once [max_rewards] is computed, [get_curation_rewards]
    returns; no recorded value is negative; when the total weight is not
    positive every entry is 0 and the unclaimed rewards are [max_rewards];
    and when the voters are pairwise distinct the entries follow the vote
    order, each is the vote's claim
    [max_rewards * weight / total_vote_weight] when that is positive and 0
    otherwise (so 0 for a non-positive weight when [max_rewards] is not
    negative), and the unclaimed rewards plus the sum of the entries is
    [max_rewards]. *)
Theorem get_curation_rewards_conserving (self : Comment) (pending_payout_HBD : bool)
    (pending_payout_value_ : pending_payout_arg) (m : Amount) (pend : bool) :
  max_rewards_of Amount_of_string hive self pending_payout_HBD pending_payout_value_
  = Return (m, pend) ->
  exists r,
    get_curation_rewards Amount_of_string hive self pending_payout_HBD
      pending_payout_value_ = Return r /\
    pending_rewards r = pend /\
    symbol (unclaimed_rewards r) = symbol m /\
    (forall c, In c (dict_values (active_votes_rewards r)) -> 0 <= claim_float c) /\
    ((total_vote_weight_of self (active_votes_list_of hive self) <= 0)%Z ->
     unclaimed_rewards r = m /\
     forall c, In c (dict_values (active_votes_rewards r)) -> c = ClaimInt 0) /\
    (NoDup (map voter (active_votes_list_of hive self)) ->
     dict_keys (active_votes_rewards r) = map voter (active_votes_list_of hive self) /\
     (forall v, In v (active_votes_list_of hive self) ->
        dict_find (voter v) (active_votes_rewards r)
        = Some (recorded_claim m
                  (total_vote_weight_of self (active_votes_list_of hive self)) v)) /\
     (0 <= amount m ->
      forall v, In v (active_votes_list_of hive self) -> (weight v <= 0)%Z ->
        dict_find (voter v) (active_votes_rewards r) = Some (ClaimInt 0)) /\
     amount (unclaimed_rewards r) + sum_claims (dict_values (active_votes_rewards r))
     == amount m).
Proof.
  intros Hm. rewrite (get_curation_rewards_Return _ _ _ _ _ Hm).
  set (votes := active_votes_list_of hive self).
  set (total := total_vote_weight_of self votes).
  eexists. split; [reflexivity|]. cbn [pending_rewards unclaimed_rewards active_votes_rewards].
  split; [reflexivity|]. split; [apply fold_unclaimed_symbol|].
  split; [|split].
  - intros c Hc. apply fold_record_values in Hc. destruct Hc as [[]|(v & _ & ->)].
    apply recorded_claim_nonneg.
  - intros Ht. split; [now apply fold_unclaimed_of_total|].
    intros c Hc. apply fold_record_values in Hc. destruct Hc as [[]|(v & _ & ->)].
    now apply recorded_zero_of_total.
  - intros Hnd.
    rewrite (fold_record_fresh m total votes [] Hnd) by (intros v _ []).
    cbn [app]. split; [|split; [|split]].
    + unfold dict_keys. rewrite map_map. reflexivity.
    + intros v Hin. now apply dict_find_recorded.
    + intros Hpos v Hin Hw. rewrite (dict_find_recorded m total votes v Hnd Hin).
      f_equal. now apply recorded_zero_of_weight.
    + unfold dict_values. rewrite map_map. cbn [snd].
      apply fold_unclaimed_amount.
      destruct (max_rewards_of_cases _ _ _ _ _ Hm) as [(-> & _)|(_ & -> & _)];
        [now left | right; reflexivity].
Qed.

(** With curation rewards switched off there is nothing to distribute:
    [max_rewards] is zero, the flag is [False] and every entry is 0. *)
Lemma get_curation_rewards_not_allowed (self : Comment) (pending_payout_HBD : bool)
    (pending_payout_value_ : pending_payout_arg) (mp : option Price) :
  median_price_of (get_current_median_history hive) = Return mp ->
  allow_curation_rewards self = false ->
  max_rewards_of Amount_of_string hive self pending_payout_HBD pending_payout_value_
  = Return (mkAmount 0 (hive_symbol hive), false) /\
  exists r,
    get_curation_rewards Amount_of_string hive self pending_payout_HBD
      pending_payout_value_ = Return r /\
    pending_rewards r = false /\
    unclaimed_rewards r = mkAmount 0 (hive_symbol hive) /\
    forall c, In c (dict_values (active_votes_rewards r)) -> c = ClaimInt 0.
Proof.
  intros Hmp Hallow.
  assert (Hm : max_rewards_of Amount_of_string hive self pending_payout_HBD
                 pending_payout_value_ = Return (mkAmount 0 (hive_symbol hive), false)).
  { unfold max_rewards_of. rewrite Hmp, Hallow. reflexivity. }
  split; [exact Hm|]. rewrite (get_curation_rewards_Return _ _ _ _ _ Hm).
  eexists. split; [reflexivity|].
  cbn [pending_rewards unclaimed_rewards active_votes_rewards].
  split; [reflexivity|].
  assert (Hz : forall t v, recorded_claim (mkAmount 0 (hive_symbol hive)) t v = ClaimInt 0).
  { intros t v. unfold recorded_claim.
    destruct (claim_gt0 _) eqn:G; [|reflexivity].
    exfalso. apply Qlt_bool_iff in G. unfold raw_claim in G.
    destruct (0 <? t)%Z; cbn [claim_float Amount_float amount] in G.
    - unfold Qdiv in G. rewrite !Qmult_0_l in G. exact (Qlt_irrefl _ G).
    - revert G. Qdecide. }
  split.
  - generalize (total_vote_weight_of self (active_votes_list_of hive self)) as t.
    intros t. generalize (active_votes_list_of hive self) as votes.
    induction votes as [|v votes IH]; cbn [fold_left]; [reflexivity|].
    unfold unclaimed_after at 2. rewrite andb_false_r. exact IH.
  - intros c Hc. apply fold_record_values in Hc. destruct Hc as [[]|(v & _ & ->)].
    apply Hz.
Qed.

End CurationRewards.

Lemma get_curation_rewards_conserving_witness :
  exists r,
    get_curation_rewards Sample.parse_amount Sample.hive21 Sample.pending_post true
      pending_payout_None = Return r /\
    dict_keys (active_votes_rewards r) = ["bob"; "dave"]%string /\
    amount (unclaimed_rewards r) + sum_claims (dict_values (active_votes_rewards r))
    == 1.
Proof.
  assert (Hm : max_rewards_of Sample.parse_amount Sample.hive21 Sample.pending_post
                 true pending_payout_None
               = Return (Amount_mul (Sample.HBD 4) (1 # 4), true)) by reflexivity.
  destruct (get_curation_rewards_conserving Sample.parse_amount Sample.hive21
              Sample.pending_post true pending_payout_None _ _ Hm)
    as (r & Hr & _ & _ & _ & _ & Hnd).
  exists r. split; [exact Hr|].
  destruct Hnd as (Hk & _ & _ & Hsum).
  - repeat constructor; simpl; intuition discriminate.
  - split; [exact Hk|]. rewrite Hsum. reflexivity.
Defined.

(** C2 as stated fails.  When one voter is named twice in the vote list,
    the second entry replaces the first: on a post with 1 HBD to distribute
    and a total weight of 1000 the entries sum to 0.7 and nothing is left
    unclaimed.  And when [max_rewards] is negative, a vote of negative
    weight has a positive claim, which is recorded. *)
Lemma get_curation_rewards_not_conserving :
  (exists r,
     max_rewards_of Sample.parse_amount Sample.hive21 Sample.twice_voted_post true
       pending_payout_None = Return (Sample.HBD (4 * (1 # 4)), true) /\
     total_vote_weight_of Sample.twice_voted_post
       (active_votes_list_of Sample.hive21 Sample.twice_voted_post) = 1000%Z /\
     get_curation_rewards Sample.parse_amount Sample.hive21 Sample.twice_voted_post
       true pending_payout_None = Return r /\
     amount (unclaimed_rewards r) == 0 /\
     sum_claims (dict_values (active_votes_rewards r)) == 7 # 10 /\
     ~ amount (unclaimed_rewards r) + sum_claims (dict_values (active_votes_rewards r))
       == amount (Sample.HBD (4 * (1 # 4)))) /\
  (exists r c,
     max_rewards_of Sample.parse_amount Sample.hive21 Sample.downvoted_post true
       (pending_payout_number (-4)) = Return (Sample.HBD (-4 * (1 # 4)), true) /\
     total_vote_weight_of Sample.downvoted_post
       (active_votes_list_of Sample.hive21 Sample.downvoted_post) = 1000%Z /\
     get_curation_rewards Sample.parse_amount Sample.hive21 Sample.downvoted_post
       true (pending_payout_number (-4)) = Return r /\
     dict_find "bob" (active_votes_rewards r) = Some c /\
     claim_float c == 3 # 10).
Proof.
  split.
  - eexists. split; [reflexivity|]. split; [reflexivity|].
    split; [vm_compute; reflexivity|]. repeat split; Qdecide.
  - eexists. eexists. split; [reflexivity|]. split; [reflexivity|].
    split; [vm_compute; reflexivity|]. split; [vm_compute; reflexivity|]. Qdecide.
Qed.

(** C4 fails on a pending post whose curation rewards are switched off:
    the post is pending, nothing is distributed and every entry is 0, but
    the flag returned is [False]. *)
Theorem get_curation_rewards_pending_flag_lost :
  allow_curation_rewards Sample.no_curation_post = false /\
  is_pending Sample.hive21 Sample.no_curation_post = true /\
  max_rewards_of Sample.parse_amount Sample.hive21 Sample.no_curation_post false
    pending_payout_None = Return (Sample.HIVE 0, false) /\
  get_curation_rewards Sample.parse_amount Sample.hive21 Sample.no_curation_post
    false pending_payout_None
  = Return (mkCurationRewards false (Sample.HIVE 0)
              [("bob", ClaimInt 0); ("dave", ClaimInt 0)]%string).
Proof.
  repeat split.
Qed.

(** ** Rewards *)

Lemma Amount_add_same (a b : Amount) :
  symbol a = symbol b ->
  Amount_add a b = Return (mkAmount (amount a + amount b) (symbol a)).
Proof.
  intros H. unfold Amount_add. now rewrite H, String.eqb_refl.
Qed.

Lemma Amount_sub_same (a b : Amount) :
  symbol a = symbol b ->
  Amount_sub a b = Return (mkAmount (amount a - amount b) (symbol a)).
Proof.
  intros H. unfold Amount_sub. now rewrite H, String.eqb_refl.
Qed.

Lemma Amount_add_inv (a b c : Amount) :
  Amount_add a b = Return c ->
  amount c = amount a + amount b /\ symbol c = symbol a /\ symbol a = symbol b.
Proof.
  unfold Amount_add. destruct (String.eqb (symbol a) (symbol b)) eqn:E; [|discriminate].
  intros H. injection H as <-. apply String.eqb_eq in E. auto.
Qed.

Lemma Amount_sub_inv (a b c : Amount) :
  Amount_sub a b = Return c ->
  amount c = amount a - amount b /\ symbol c = symbol a /\ symbol a = symbol b.
Proof.
  unfold Amount_sub. destruct (String.eqb (symbol a) (symbol b)) eqn:E; [|discriminate].
  intros H. injection H as <-. apply String.eqb_eq in E. auto.
Qed.

Lemma reward_Return (s : string) (self : Comment) :
  payouts_in s self ->
  reward self
  = Return (mkAmount (amount (total_payout_value self)
                      + amount (curator_payout_value self)
                      + amount (pending_payout_value self)) s).
Proof.
  intros (Ht & Hc & Hp). unfold reward.
  rewrite Amount_add_same by congruence. cbn [bind].
  rewrite Amount_add_same by (cbn [symbol]; congruence).
  cbn [amount symbol]. now rewrite Ht.
Qed.

Section Rewards.

Variable Amount_of_string : string -> result Amount.
Variable hive : Hive.

(** Whenever [get_rewards] returns, the total is the sum of the two other
    payouts, in the pending branch and in the final one. *)
Lemma get_rewards_total_is_sum (self : Comment) (r : rewards) :
  get_rewards Amount_of_string hive self = Return r ->
  amount (total_payout r) == amount (author_payout r) + amount (curator_payout r) /\
  symbol (author_payout r) = symbol (total_payout r) /\
  symbol (curator_payout r) = symbol (total_payout r) /\
  (is_pending hive self = true ->
   total_payout r = pending_payout_value self /\
   (exists d, get_author_rewards Amount_of_string hive self = Return d /\
              getitem d "total_payout_HBD" = Return (PyAmount (author_payout r))) /\
   Amount_sub (total_payout r) (author_payout r) = Return (curator_payout r)) /\
  (is_pending hive self = false ->
   author_payout r = total_payout_value self /\
   curator_payout r = curator_payout_value self /\
   Amount_add (author_payout r) (curator_payout r) = Return (total_payout r)).
Proof.
  unfold get_rewards. destruct (is_pending hive self) eqn:P; intros H.
  - apply bind_Return_inv in H. destruct H as (d & Hd & H).
    apply bind_Return_inv in H. destruct H as (v & Hv & H).
    apply bind_Return_inv in H. destruct H as (a & Ha & H).
    apply bind_Return_inv in H. destruct H as (c & Hc & H).
    injection H as <-. cbn [total_payout author_payout curator_payout].
    destruct v as [b|a']; [discriminate|]. injection Ha as ->.
    destruct (Amount_sub_inv _ _ _ Hc) as (E1 & E2 & E3).
    split; [rewrite E1; ring|]. split; [congruence|]. split; [congruence|].
    split; [|discriminate]. intros _. split; [reflexivity|].
    split; [|exact Hc]. exists d. split; [exact Hd|exact Hv].
  - apply bind_Return_inv in H. destruct H as (t & Ht & H).
    injection H as <-. cbn [total_payout author_payout curator_payout].
    destruct (Amount_add_inv _ _ _ Ht) as (E1 & E2 & E3).
    split; [rewrite E1; ring|]. split; [congruence|]. split; [congruence|].
    split; [discriminate|]. intros _. auto.
Qed.

(** A post whose payout is final always has its rewards returned. *)
Lemma get_rewards_final (self : Comment) :
  is_pending hive self = false ->
  symbol (total_payout_value self) = symbol (curator_payout_value self) ->
  get_rewards Amount_of_string hive self =
  Return (mkRewards
            (mkAmount (amount (total_payout_value self)
                       + amount (curator_payout_value self))
                      (symbol (total_payout_value self)))
            (total_payout_value self) (curator_payout_value self)).
Proof.
  intros P Hs. unfold get_rewards. rewrite P.
  rewrite (Amount_add_same _ _ Hs). reflexivity.
Qed.

(** Without a median price history, the author rewards of a pending post
    are the partial result. *)
Lemma get_author_rewards_no_median (s : string) (self : Comment) :
  is_pending hive self = true ->
  get_current_median_history hive = None ->
  payouts_in s self ->
  exists author_tokens,
    get_author_rewards Amount_of_string hive self
    = Return [("pending_rewards", PyBool true);
              ("total_payout", PyAmount author_tokens)]%string.
Proof.
  intros P Hmed Hs. unfold get_author_rewards. rewrite P, Hmed. cbn [negb median_price_of bind].
  rewrite (reward_Return s self Hs). cbn [bind].
  rewrite Amount_sub_same by reflexivity. cbn [bind].
  assert (Hm : exists m pend,
             max_rewards_of Amount_of_string hive self false pending_payout_None
             = Return (m, pend)).
  { unfold max_rewards_of. rewrite Hmed, P. cbn [median_price_of bind negb orb].
    destruct (allow_curation_rewards self); cbn [negb orb bind]; eauto. }
  destruct Hm as (m & pend & Hm).
  rewrite (get_curation_rewards_Return _ _ _ _ _ _ _ Hm). cbn [bind].
  rewrite Amount_div_Return by discriminate. cbn [bind].
  rewrite Amount_sub_same by reflexivity. cbn [bind].
  eexists. reflexivity.
Qed.

(** C9: for a pending comment whose payout amounts are of one symbol, when
    no median price history is available, [get_author_rewards] returns a
    dictionary whose only keys are [pending_rewards] and [total_payout], and
    [get_rewards], which reads the key [total_payout_HBD] from it, raises
    [KeyError]. *)
Theorem get_rewards_KeyError (s : string) (self : Comment) :
  is_pending hive self = true ->
  get_current_median_history hive = None ->
  payouts_in s self ->
  (exists d, get_author_rewards Amount_of_string hive self = Return d /\
             dict_keys d = ["pending_rewards"; "total_payout"]%string) /\
  get_rewards Amount_of_string hive self = Raise (KeyError "total_payout_HBD").
Proof.
  intros P Hmed Hs.
  destruct (get_author_rewards_no_median s self P Hmed Hs) as (a & Ha).
  split.
  - eexists. split; [exact Ha|reflexivity].
  - unfold get_rewards. rewrite P, Ha. reflexivity.
Qed.

End Rewards.

Lemma get_rewards_KeyError_witness :
  get_rewards Sample.parse_amount Sample.hive21_no_median Sample.twice_voted_post
  = Raise (KeyError "total_payout_HBD").
Proof.
  apply (get_rewards_KeyError Sample.parse_amount Sample.hive21_no_median "HBD"
           Sample.twice_voted_post).
  - reflexivity.
  - reflexivity.
  - repeat split.
Defined.

(** C3 fails on a pending post when the node has no median price history:
    [get_author_rewards] returns its partial result and [get_rewards] ends
    in [KeyError] instead of returning the three payouts. *)
Theorem get_rewards_pending_no_median :
  is_pending Sample.hive21_no_median Sample.pending_post = true /\
  get_current_median_history Sample.hive21_no_median = None /\
  get_author_rewards Sample.parse_amount Sample.hive21_no_median Sample.pending_post
  = Return [("pending_rewards", PyBool true);
            ("total_payout",
             PyAmount (Sample.HBD ((0 + 0 + 4 - (0 + 0 + 4) * (1 # 4))
                                   - (0 + 0 + 4 - (0 + 0 + 4) * (1 # 4))
                                     * (inject_Z 500 / 100) / 100)))]%string /\
  get_rewards Sample.parse_amount Sample.hive21_no_median Sample.pending_post
  = Raise (KeyError "total_payout_HBD").
Proof.
  repeat split.
Qed.

(** ** Writes to the comment *)

Lemma list_update_length {A : Type} (i : nat) (x : A) (l : list A) :
  length (list_update i x l) = length l.
Proof.
  revert i. induction l as [|y l IH]; intros [|i]; simpl; auto.
Qed.

Lemma list_update_twice {A : Type} (i : nat) (x y : A) (l : list A) :
  list_update i y (list_update i x l) = list_update i y l.
Proof.
  revert i. induction l as [|z l IH]; intros [|i]; simpl; auto.
  now rewrite IH.
Qed.

Lemma nth_error_list_update {A : Type} (i j : nat) (x y : A) (l : list A) :
  nth_error l j = Some y ->
  nth_error (list_update i x l) j = Some (if Nat.eqb i j then x else y).
Proof.
  revert i j. induction l as [|z l IH]; intros i j; [destruct j; discriminate|].
  destruct i as [|i], j as [|j]; simpl; auto.
Qed.

Lemma store_vote_twice (self : Comment) (i : nat) (v1 v2 : Vote) :
  store_vote (store_vote self i v1) i v2 = store_vote self i v2.
Proof.
  unfold store_vote. destruct (active_votes self) as [votes|] eqn:E; simpl.
  - now rewrite list_update_twice.
  - now rewrite E.
Qed.

Lemma store_vote_same_but_votes (self : Comment) (i : nat) (v : Vote) :
  same_but_votes self (store_vote self i v).
Proof.
  unfold store_vote, same_but_votes.
  destruct (active_votes self); simpl; repeat split.
Qed.

Lemma same_but_votes_refl (self : Comment) : same_but_votes self self.
Proof.
  unfold same_but_votes. repeat split.
Qed.

Section Writes.

Variables HF6 HF20 HF21 : Z.
Variable formatTimeString : string -> result datetime.
Variable Amount_of_string : string -> result Amount.
Variable sqrt_value : Q -> Q.
Variable hive : Hive.

(** The comment [get_vote_with_curation] leaves is the comment it was
    given, or that comment with the entry of the voter's vote replaced by
    an entry of the same vote data. *)
Lemma get_vote_with_curation_leaves (self : Comment) (voter_ : option string)
    (raw_data : bool) (pending_payout_value_ : pending_payout_arg) :
  snd (get_vote_with_curation Amount_of_string hive self voter_ raw_data
         pending_payout_value_) = self \/
  (raw_data = false /\ is_pending hive self = true /\
   exists i specific_vote v',
     find_specific_vote (voter_name self voter_) (active_votes_list_of hive self) 0 None
     = Some i /\
     nth_error (active_votes_list_of hive self) i = Some specific_vote /\
     same_vote_data specific_vote v' /\
     snd (get_vote_with_curation Amount_of_string hive self voter_ raw_data
            pending_payout_value_) = store_vote self i v').
Proof.
  unfold get_vote_with_curation. fold (voter_name self voter_).
  destruct (find_specific_vote _ _ 0 None) as [i|] eqn:F; [|now left].
  destruct (nth_error _ i) as [sv|] eqn:N; [|now left].
  destruct raw_data; [now left|].
  destruct (is_pending hive self) eqn:P; [|now left]. cbn [orb negb].
  destruct (bind _ _) as [c|e]; [|now left].
  destruct (bind _ _) as [roi|e]; cbn [snd].
  - right. split; [reflexivity|]. split; [reflexivity|]. exists i, sv. eexists.
    split; [reflexivity|]. split; [exact N|].
    split; [|apply store_vote_twice]. repeat split.
  - right. split; [reflexivity|]. split; [reflexivity|]. exists i, sv. eexists.
    split; [reflexivity|]. split; [exact N|].
    split; [|reflexivity]. repeat split.
Qed.

End Writes.

(** C7 as stated fails: asked for the vote of a voter of a pending post,
    [get_vote_with_curation] writes [curation_reward] and [ROI] into the
    entry of that vote in the comment's [active_votes], and returns that
    entry. *)
Lemma get_vote_with_curation_writes :
  is_pending Sample.hive21 Sample.pending_post = true /\
  active_votes Sample.pending_post
  = Some [Sample.vote_of "bob" 300; Sample.vote_of "dave" 700] /\
  (let '(res, self') :=
     get_vote_with_curation Sample.parse_amount Sample.hive21 Sample.pending_post
       (Some "bob"%string) false pending_payout_None in
   exists v,
     res = Return (Some v) /\
     curation_reward v = Some (ClaimAmount (Sample.HBD (4 * (1 # 4) * 300 / 1000))) /\
     ROI v = Some (4 * (1 # 4) * 300 / 1000 / 1 * 100) /\
     active_votes self' = Some [v; Sample.vote_of "dave" 700] /\
     self' <> Sample.pending_post).
Proof.
  split; [reflexivity|]. split; [reflexivity|].
  cbv beta iota delta [get_vote_with_curation].
  eexists. split; [vm_compute; reflexivity|].
  split; [reflexivity|]. split; [reflexivity|]. split; [reflexivity|].
  intros H. apply (f_equal active_votes) in H. vm_compute in H. discriminate H.
Qed.

(** ** Rewards of a pending post when a median price is known *)

Lemma Price_mul_quote (p : Price) (a : Amount) :
  symbol a = symbol (quote p) ->
  Price_mul p a
  = Return (mkAmount (amount a * (amount (base p) / amount (quote p)))
                     (symbol (base p))).
Proof.
  intros H. unfold Price_mul. now rewrite H, String.eqb_refl.
Qed.

Lemma Price_as_base_of_quote (p : Price) (s : string) :
  symbol (base p) <> s -> symbol (quote p) = s ->
  Price_as_base p s = Return (mkPrice (quote p) (base p)).
Proof.
  intros Hb Hq. unfold Price_as_base.
  apply String.eqb_neq in Hb. rewrite Hb, Hq, String.eqb_refl. reflexivity.
Qed.

Lemma Price_new_Return (b q : Amount) :
  ~ amount b == 0 -> ~ amount q == 0 -> symbol b <> symbol q ->
  Price_new b q = Return (mkPrice b q).
Proof.
  intros Hb Hq Hs. unfold Price_new.
  apply Qeq_bool_false_iff in Hb. apply Qeq_bool_false_iff in Hq.
  apply String.eqb_neq in Hs. now rewrite Hb, Hq, Hs.
Qed.

Section RewardsWithMedian.

Variable Amount_of_string : string -> result Amount.
Variable hive : Hive.
Variables b q : Amount.
Variable self : Comment.

Hypothesis median : get_current_median_history hive = Some (b, q).
Hypothesis base_symbol : symbol b = hbd_symbol hive.
Hypothesis quote_symbol : symbol q = hive_symbol hive.
Hypothesis symbols_differ : hbd_symbol hive <> hive_symbol hive.
Hypothesis base_not_zero : ~ amount b == 0.
Hypothesis quote_not_zero : ~ amount q == 0.
Hypothesis pending : is_pending hive self = true.
Hypothesis payouts : payouts_in (hbd_symbol hive) self.

Lemma median_price_Return :
  median_price_of (get_current_median_history hive) = Return (Some (mkPrice b q)).
Proof.
  rewrite median. unfold median_price_of.
  rewrite Price_new_Return; auto. congruence.
Qed.

Lemma max_rewards_of_with_median :
  exists m pend,
    max_rewards_of Amount_of_string hive self false pending_payout_None
    = Return (m, pend) /\ symbol m = hive_symbol hive.
Proof.
  unfold max_rewards_of. rewrite median_price_Return, pending. cbn [bind negb].
  destruct (allow_curation_rewards self); cbn [negb orb bind].
  - rewrite Price_as_base_of_quote by (cbn [base quote]; congruence).
    cbn [bind]. destruct payouts as (_ & _ & Hp).
    rewrite Price_mul_quote by (unfold Amount_mul; simpl; congruence).
    cbn [bind]. eexists. eexists. split; [reflexivity|]. exact quote_symbol.
  - eexists. eexists. split; reflexivity.
Qed.

(** With a median price of HBD per HIVE, the author rewards of a pending
    post are returned in full, the total under the key [total_payout_HBD]. *)
Lemma get_author_rewards_with_median :
  exists vesting_hive hbd_hive author_tokens,
    get_author_rewards Amount_of_string hive self
    = Return [("pending_rewards", PyBool true);
              ("payout_HP", PyAmount vesting_hive);
              ("payout_HBD", PyAmount hbd_hive);
              ("total_payout_HBD", PyAmount author_tokens)]%string /\
    symbol author_tokens = hbd_symbol hive.
Proof.
  unfold get_author_rewards. rewrite pending, median_price_Return. cbn [negb bind].
  rewrite (reward_Return _ self payouts). cbn [bind].
  rewrite Amount_sub_same by reflexivity. cbn [bind].
  destruct max_rewards_of_with_median as (m & pend & Hm & Hsm).
  rewrite (get_curation_rewards_Return _ _ _ _ _ _ _ Hm). cbn [bind unclaimed_rewards].
  set (u := fold_left _ _ m).
  assert (Hu : symbol u = hive_symbol hive).
  { unfold u. rewrite fold_unclaimed_symbol. exact Hsm. }
  assert (tail : forall a : Amount,
             symbol a = hbd_symbol hive ->
             exists vesting_hive hbd_hive author_tokens,
               (benefactor_tokens <-
                  Amount_div (Amount_mul a (get_beneficiaries_pct self)) 100 ;;
                author_tokens <- Amount_sub a benefactor_tokens ;;
                hbd_hive <-
                  Amount_div
                    (Amount_mul author_tokens (inject_Z (percent_hive_dollars self)))
                    20000 ;;
                p <- Price_as_base (mkPrice b q) (hive_symbol hive) ;;
                rest <- Amount_sub author_tokens hbd_hive ;;
                vesting_hive <- Price_mul p rest ;;
                Return [("pending_rewards", PyBool true);
                        ("payout_HP", PyAmount vesting_hive);
                        ("payout_HBD", PyAmount hbd_hive);
                        ("total_payout_HBD", PyAmount author_tokens)]%string)
               = Return [("pending_rewards", PyBool true);
                         ("payout_HP", PyAmount vesting_hive);
                         ("payout_HBD", PyAmount hbd_hive);
                         ("total_payout_HBD", PyAmount author_tokens)]%string /\
               symbol author_tokens = hbd_symbol hive).
  { intros a Hsa.
    rewrite Amount_div_Return by discriminate. cbn [bind].
    rewrite Amount_sub_same by reflexivity. cbn [bind].
    rewrite Amount_div_Return by discriminate. cbn [bind].
    rewrite Price_as_base_of_quote by (cbn [base quote]; congruence). cbn [bind].
    rewrite Amount_sub_same by reflexivity. cbn [bind].
    rewrite Price_mul_quote by (simpl; congruence). cbn [bind].
    eexists. eexists. eexists. split; [reflexivity|]. exact Hsa. }
  destruct (20 <=? hardfork hive)%Z.
  - rewrite Price_mul_quote by (cbn [quote]; congruence). cbn [bind].
    rewrite Amount_add_same by (simpl; congruence). cbn [bind].
    apply tail. simpl. reflexivity.
  - cbn [bind]. apply tail. reflexivity.
Qed.

(** So [get_rewards] returns on such a post, with the pending payout as
    total and the author's and curators' payouts adding up to it. *)
Lemma get_rewards_with_median :
  exists r,
    get_rewards Amount_of_string hive self = Return r /\
    total_payout r = pending_payout_value self /\
    amount (total_payout r) == amount (author_payout r) + amount (curator_payout r).
Proof.
  destruct get_author_rewards_with_median as (hp & hbd & a & Hd & Hsa).
  assert (Hr : exists r, get_rewards Amount_of_string hive self = Return r).
  { unfold get_rewards. rewrite pending, Hd. cbn.
    destruct payouts as (_ & _ & Hp).
    rewrite Amount_sub_same by congruence. eexists. reflexivity. }
  destruct Hr as (r & Hr). exists r. split; [exact Hr|].
  destruct (get_rewards_total_is_sum _ _ _ _ Hr) as (Hsum & _ & _ & Hpend & _).
  destruct (Hpend pending) as (Ht & _). split; [exact Ht|exact Hsum].
Qed.

End RewardsWithMedian.

(** The sample node and the sample pending post meet these conditions. *)
Example get_rewards_with_median_sample :
  exists r,
    get_rewards Sample.parse_amount Sample.hive21 Sample.pending_post = Return r /\
    total_payout r = Sample.HBD 4 /\
    amount (total_payout r) == amount (author_payout r) + amount (curator_payout r).
Proof.
  apply (get_rewards_with_median Sample.parse_amount Sample.hive21
           (Sample.HBD (1 # 4)) (Sample.HIVE 1) Sample.pending_post);
    try reflexivity; try discriminate.
  repeat split.
Qed.

(** * Further properties of the code *)

(** ** The penalty outside the window *)

Section PenaltyShape.

Variables HF6 HF20 HF21 : Z.
Variable formatTimeString : string -> result datetime.
Variable hive : Hive.
Variable self : Comment.

(** The value of the penalty as a function of the elapsed seconds. *)
Lemma penalty_value_antitone (w e1 e2 : Q) :
  0 < w -> e1 <= e2 ->
  1 - (if Qlt_bool 1 (e2 / w) then 1 else e2 / w)
  <= 1 - (if Qlt_bool 1 (e1 / w) then 1 else e1 / w).
Proof.
  intros Hw H12.
  assert (Hm : e1 / w <= e2 / w).
  { unfold Qdiv. apply Qmult_le_compat_r; [exact H12|].
    apply Qlt_le_weak, Qinv_lt_0_compat, Hw. }
  destruct (Qlt_bool 1 (e1 / w)) eqn:E1; destruct (Qlt_bool 1 (e2 / w)) eqn:E2;
    try apply Qlt_bool_iff in E1; try apply Qlt_bool_iff in E2;
    try apply Qlt_bool_false_iff in E1; try apply Qlt_bool_false_iff in E2; lra.
Qed.

(** X1: when the selected window is positive, a vote cast when the window
    has passed (elapsed seconds at least the window) has penalty 0. *)
Theorem get_curation_penalty_after_window (vote_time : vote_time_arg) (e : Q) :
  0 < inject_Z (window_seconds HF6 HF20 HF21 (hardfork hive)) ->
  elapsed_seconds_of formatTimeString hive self vote_time = Return e ->
  inject_Z (window_seconds HF6 HF20 HF21 (hardfork hive)) <= e ->
  exists p,
    get_curation_penalty HF6 HF20 HF21 formatTimeString hive self vote_time
    = Return p /\ p == 0.
Proof.
  intros HW He Hle.
  rewrite (penalty_Return HF6 HF20 HF21 formatTimeString hive self vote_time e HW He).
  eexists. split; [reflexivity|].
  set (w := inject_Z (window_seconds HF6 HF20 HF21 (hardfork hive))) in *.
  assert (H1 : 1 <= e / w) by (apply Qle_shift_div_l; [exact HW | lra]).
  destruct (Qlt_bool 1 (e / w)) eqn:E.
  - ring.
  - apply Qlt_bool_false_iff in E. lra.
Qed.

(** X2: when the selected window is positive, the penalty never grows with
    the vote time, before the creation of the post, inside the window and
    after it alike. *)
Theorem get_curation_penalty_antitone (vt1 vt2 : vote_time_arg) (e1 e2 : Q) :
  0 < inject_Z (window_seconds HF6 HF20 HF21 (hardfork hive)) ->
  elapsed_seconds_of formatTimeString hive self vt1 = Return e1 ->
  elapsed_seconds_of formatTimeString hive self vt2 = Return e2 ->
  e1 <= e2 ->
  exists p1 p2,
    get_curation_penalty HF6 HF20 HF21 formatTimeString hive self vt1 = Return p1 /\
    get_curation_penalty HF6 HF20 HF21 formatTimeString hive self vt2 = Return p2 /\
    p2 <= p1.
Proof.
  intros HW He1 He2 H12.
  rewrite (penalty_Return HF6 HF20 HF21 formatTimeString hive self vt1 e1 HW He1).
  rewrite (penalty_Return HF6 HF20 HF21 formatTimeString hive self vt2 e2 HW He2).
  eexists. eexists. split; [reflexivity|]. split; [reflexivity|].
  now apply penalty_value_antitone.
Qed.

(** X3: [get_curation_penalty] returns exactly when the vote time stands
    for a number of elapsed seconds and the selected window is not 0; with
    a window of 0 every such vote time ends in [ZeroDivisionError]; a string
    the parser refuses ends in the parser's error; a [datetime] without
    timezone and a [date] that is not a [datetime] end in [TypeError], and a
    vote time of any other type in [ValueError], whatever the window; and
    these are the only errors the method ends in. *)
Theorem get_curation_penalty_returns_iff :
  (forall vote_time,
      returns (get_curation_penalty HF6 HF20 HF21 formatTimeString hive self vote_time)
      <-> returns (elapsed_seconds_of formatTimeString hive self vote_time) /\
          window_seconds HF6 HF20 HF21 (hardfork hive) <> 0%Z) /\
  (forall vote_time e,
      window_seconds HF6 HF20 HF21 (hardfork hive) = 0%Z ->
      elapsed_seconds_of formatTimeString hive self vote_time = Return e ->
      get_curation_penalty HF6 HF20 HF21 formatTimeString hive self vote_time
      = Raise ZeroDivisionError) /\
  (forall vote_time e,
      elapsed_seconds_of formatTimeString hive self vote_time = Raise e ->
      get_curation_penalty HF6 HF20 HF21 formatTimeString hive self vote_time
      = Raise e) /\
  (forall vote_time,
      returns (elapsed_seconds_of formatTimeString hive self vote_time) <->
      match vote_time with
      | vote_time_None | vote_time_datetime _ => True
      | vote_time_str s => returns (formatTimeString s)
      | vote_time_naive_datetime _ | vote_time_date _ | vote_time_other => False
      end) /\
  (forall s e,
      formatTimeString s = Raise e ->
      get_curation_penalty HF6 HF20 HF21 formatTimeString hive self (vote_time_str s)
      = Raise e) /\
  (forall t,
      get_curation_penalty HF6 HF20 HF21 formatTimeString hive self
        (vote_time_naive_datetime t) = Raise TypeError) /\
  (forall days,
      get_curation_penalty HF6 HF20 HF21 formatTimeString hive self
        (vote_time_date days) = Raise TypeError) /\
  get_curation_penalty HF6 HF20 HF21 formatTimeString hive self vote_time_other
  = Raise (ValueError "vote_time must be a string or a datetime") /\
  (forall vote_time e,
      get_curation_penalty HF6 HF20 HF21 formatTimeString hive self vote_time
      = Raise e ->
      (e = ZeroDivisionError /\
       window_seconds HF6 HF20 HF21 (hardfork hive) = 0%Z /\
       returns (elapsed_seconds_of formatTimeString hive self vote_time)) \/
      (exists s, vote_time = vote_time_str s /\ formatTimeString s = Raise e) \/
      (e = TypeError /\
       ((exists t, vote_time = vote_time_naive_datetime t) \/
        (exists days, vote_time = vote_time_date days))) \/
      (e = ValueError "vote_time must be a string or a datetime" /\
       vote_time = vote_time_other)).
Proof.
  assert (Z0 : forall z : Z, inject_Z z == 0 <-> z = 0%Z).
  { intros z. unfold Qeq; simpl. lia. }
  split; [|split; [|split; [|split; [|split; [|split; [|split; [|split]]]]]]].
  - intros vt. rewrite get_curation_penalty_eq. unfold returns. split.
    + intros (p & H). apply bind_Return_inv in H. destruct H as (e & He & H).
      apply bind_Return_inv in H. destruct H as (r & Hr & _).
      split; [eauto|]. intros Hz. apply Z0 in Hz.
      rewrite (float_div_Raise _ _ Hz) in Hr. discriminate.
    + intros ((e & He) & Hz). rewrite He. cbn [bind].
      rewrite float_div_Return by (rewrite Z0; exact Hz). cbn [bind]. eauto.
  - intros vt e Hz He. rewrite get_curation_penalty_eq, He. cbn [bind].
    rewrite float_div_Raise by (rewrite Z0; exact Hz). reflexivity.
  - intros vt e He. rewrite get_curation_penalty_eq, He. reflexivity.
  - intros vt. unfold returns.
    destruct vt as [|s|t|t|d|]; cbn [elapsed_seconds_of].
    + split; [auto | eauto].
    + destruct (formatTimeString s) as [t|e]; cbn [bind].
      * split; eauto.
      * split; intros (x & H); discriminate.
    + split; [auto | eauto].
    + split; [intros (x & H); discriminate | intros []].
    + split; [intros (x & H); discriminate | intros []].
    + split; [intros (x & H); discriminate | intros []].
  - intros s e Hs. rewrite get_curation_penalty_eq. cbn [elapsed_seconds_of].
    now rewrite Hs.
  - reflexivity.
  - reflexivity.
  - reflexivity.
  - intros vt e. rewrite get_curation_penalty_eq.
    destruct (elapsed_seconds_of formatTimeString hive self vt) as [x|e'] eqn:He;
      cbn [bind].
    + destruct (Z.eq_dec (window_seconds HF6 HF20 HF21 (hardfork hive)) 0)
        as [Hz|Hz].
      * rewrite float_div_Raise by (rewrite Z0; exact Hz). cbn [bind].
        intros H. injection H as <-. left. unfold returns. eauto.
      * rewrite float_div_Return by (rewrite Z0; exact Hz). discriminate.
    + intros H. injection H as ->. right.
      destruct vt as [|s|t|t|d|]; cbn [elapsed_seconds_of] in He;
        try discriminate.
      * left. exists s. split; [reflexivity|].
        destruct (formatTimeString s) as [t|e']; [discriminate|].
        cbn [bind] in He. now injection He as ->.
      * right. left. injection He as <-. eauto.
      * right. left. injection He as <-. eauto.
      * right. right. injection He as <-. auto.
Qed.

End PenaltyShape.

Lemma get_curation_penalty_returns_iff_witness :
  get_curation_penalty Sample.HF6 Sample.HF20 0 Sample.parse_time Sample.hive21
    Sample.pending_post vote_time_None = Raise ZeroDivisionError /\
  get_curation_penalty Sample.HF6 Sample.HF20 Sample.HF21 Sample.parse_time
    Sample.hive21 Sample.pending_post (vote_time_str "yesterday")
  = Raise (ValueError "unparsed") /\
  returns
    (get_curation_penalty Sample.HF6 Sample.HF20 Sample.HF21 Sample.parse_epoch
       Sample.hive21 Sample.pending_post (vote_time_str "1970-01-01T00:00:00")) /\
  get_curation_penalty Sample.HF6 Sample.HF20 Sample.HF21 Sample.parse_time
    Sample.hive21 Sample.pending_post (vote_time_date 1)
  = Raise TypeError.
Proof.
  destruct (get_curation_penalty_returns_iff Sample.HF6 Sample.HF20 0
              Sample.parse_time Sample.hive21 Sample.pending_post)
    as (_ & Hzero & _).
  destruct (get_curation_penalty_returns_iff Sample.HF6 Sample.HF20 Sample.HF21
              Sample.parse_time Sample.hive21 Sample.pending_post)
    as (_ & _ & _ & _ & Hparse & _ & Hdate & _).
  destruct (get_curation_penalty_returns_iff Sample.HF6 Sample.HF20 Sample.HF21
              Sample.parse_epoch Sample.hive21 Sample.pending_post)
    as (Hiff & _).
  split; [|split; [|split]].
  - apply (Hzero vote_time_None (total_seconds (Sample.seconds 600)));
      reflexivity.
  - apply Hparse. reflexivity.
  - apply Hiff. split; [|discriminate].
    exists (total_seconds (0 - created Sample.pending_post)%Z). reflexivity.
  - apply Hdate.
Defined.

Lemma get_curation_penalty_after_window_witness :
  exists p,
    get_curation_penalty Sample.HF6 Sample.HF20 Sample.HF21 Sample.parse_time
      Sample.hive21 Sample.pending_post vote_time_None = Return p /\ p == 0.
Proof.
  apply (get_curation_penalty_after_window Sample.HF6 Sample.HF20 Sample.HF21
           Sample.parse_time Sample.hive21 Sample.pending_post vote_time_None
           (total_seconds (Sample.seconds 600))).
  - Qdecide.
  - reflexivity.
  - Qdecide.
Defined.

Lemma get_curation_penalty_antitone_witness :
  exists p1 p2,
    get_curation_penalty Sample.HF6 Sample.HF20 Sample.HF21 Sample.parse_time
      Sample.hive21 Sample.pending_post (vote_time_datetime 0%Z) = Return p1 /\
    get_curation_penalty Sample.HF6 Sample.HF20 Sample.HF21 Sample.parse_time
      Sample.hive21 Sample.pending_post vote_time_None = Return p2 /\
    p2 <= p1.
Proof.
  apply (get_curation_penalty_antitone Sample.HF6 Sample.HF20 Sample.HF21
           Sample.parse_time Sample.hive21 Sample.pending_post
           (vote_time_datetime 0%Z) vote_time_None
           (total_seconds (0 - Sample.seconds (Sample.day - 600))%Z)
           (total_seconds (Sample.seconds 600))).
  - Qdecide.
  - reflexivity.
  - reflexivity.
  - Qdecide.
Defined.

(** ** Pending posts, main posts and comments *)

Lemma post_age_days_lt_7 (d : timedelta) :
  total_seconds d / 60 / 60 / 24 < 7 <-> (d < 604800000000)%Z.
Proof.
  unfold total_seconds, Qlt, Qdiv, Qmult, Qinv; simpl. lia.
Qed.

Lemma is_pending_true_iff (hive : Hive) (self : Comment) :
  is_pending hive self = true <->
  (utcnow hive - created self < 604800000000)%Z /\
  amount (total_payout_value self) == 0.
Proof.
  unfold is_pending, time_elapsed, Amount_float.
  rewrite andb_true_iff, Qlt_bool_iff, Qeq_bool_iff, post_age_days_lt_7.
  reflexivity.
Qed.

(** X4: a comment is pending exactly when less than seven days (604800
    seconds, in microseconds) have passed since [created] and its total
    payout is zero; a comment exactly seven days old is not pending, and one
    created in the future is pending while its total payout is zero. *)
Theorem is_pending_seven_days (hive : Hive) (self : Comment) :
  (is_pending hive self = true <->
   (utcnow hive - created self < 7 * 86400 * 1000000)%Z /\
   amount (total_payout_value self) == 0) /\
  ((utcnow hive - created self = 7 * 86400 * 1000000)%Z ->
   is_pending hive self = false) /\
  ((utcnow hive < created self)%Z -> amount (total_payout_value self) == 0 ->
   is_pending hive self = true).
Proof.
  split; [|split].
  - apply is_pending_true_iff.
  - intros H. apply not_true_is_false. rewrite is_pending_true_iff. lia.
  - intros H H0. apply is_pending_true_iff. split; [lia|exact H0].
Qed.

(** X5: a comment that is not pending stays so: if it is pending at a clock
    reading, it is pending at every earlier one. *)
Theorem is_pending_earlier (hive hive' : Hive) (self : Comment) :
  (utcnow hive' <= utcnow hive)%Z ->
  is_pending hive self = true ->
  is_pending hive' self = true.
Proof.
  intros Hle H. apply is_pending_true_iff in H. apply is_pending_true_iff.
  destruct H as [H1 H2]. split; [lia|exact H2].
Qed.

Lemma is_pending_earlier_witness :
  is_pending (Sample.hive_at 21 None (Sample.seconds (Sample.day - 300)))
    Sample.pending_post = true.
Proof.
  apply (is_pending_earlier Sample.hive21).
  - vm_compute. discriminate.
  - reflexivity.
Defined.

(** X6: [is_comment] is the negation of [is_main_post] when the comment has
    no [depth] or a depth that is not negative; with a negative depth both
    are false. *)
Theorem is_comment_not_main_post (self : Comment) :
  (match depth self with
   | Some d => (0 <= d)%Z
   | None => True
   end -> is_comment self = negb (is_main_post self)) /\
  (forall d, depth self = Some d -> (d < 0)%Z ->
             is_main_post self = false /\ is_comment self = false).
Proof.
  unfold is_comment, is_main_post. split.
  - destruct (depth self) as [d|]; [|reflexivity]. intros Hd.
    destruct (Z.eqb_spec d 0) as [->|Hne]; simpl; [reflexivity|].
    apply Z.ltb_lt. lia.
  - intros d -> Hd. split; [apply Z.eqb_neq | apply Z.ltb_ge]; lia.
Qed.

Lemma is_comment_not_main_post_witness :
  is_comment Sample.pending_post = negb (is_main_post Sample.pending_post).
Proof.
  apply (is_comment_not_main_post Sample.pending_post). simpl. lia.
Defined.

(** ** Dictionaries *)

Lemma dict_find_set {V : Type} (k k' : string) (v : V) (d : dict V) :
  dict_find k' (dict_set k v d) = if String.eqb k' k then Some v else dict_find k' d.
Proof.
  induction d as [|[k0 v0] d IH]; simpl.
  - reflexivity.
  - destruct (String.eqb k k0) eqn:E; simpl.
    + apply String.eqb_eq in E. subst k0.
      destruct (String.eqb k' k); reflexivity.
    + rewrite IH. destruct (String.eqb k' k0) eqn:E0; [|reflexivity].
      apply String.eqb_eq in E0. subst k0.
      rewrite String.eqb_sym, E. reflexivity.
Qed.

Lemma dict_set_keys_in {V : Type} (k k' : string) (v : V) (d : dict V) :
  In k' (dict_keys (dict_set k v d)) <-> k' = k \/ In k' (dict_keys d).
Proof.
  induction d as [|[k0 v0] d IH]; simpl.
  - intuition.
  - destruct (String.eqb k k0) eqn:E; simpl.
    + apply String.eqb_eq in E. subst k0. intuition.
    + rewrite IH. intuition.
Qed.

Lemma dict_set_keys_NoDup {V : Type} (k : string) (v : V) (d : dict V) :
  NoDup (dict_keys d) -> NoDup (dict_keys (dict_set k v d)).
Proof.
  induction d as [|[k0 v0] d IH]; simpl; intros Hnd.
  - constructor; [intros []|constructor].
  - inversion Hnd as [|x l Hnotin Hnd']; subst.
    destruct (String.eqb k k0) eqn:E; simpl.
    + constructor; assumption.
    + constructor; [|now apply IH].
      intros Hin. apply dict_set_keys_in in Hin. destruct Hin as [->|Hin].
      * rewrite String.eqb_refl in E. discriminate.
      * now apply Hnotin.
Qed.

Lemma dict_find_in_keys {V : Type} (k : string) (d : dict V) :
  In k (dict_keys d) <-> exists v, dict_find k d = Some v.
Proof.
  induction d as [|[k0 v0] d IH]; simpl.
  - split; [intros [] | intros (v & H); discriminate].
  - destruct (String.eqb k k0) eqn:E.
    + apply String.eqb_eq in E. subst. split; [eauto | now left].
    + rewrite <- IH. split; [|now right].
      intros [H|H]; [|exact H]. subst. rewrite String.eqb_refl in E. discriminate.
Qed.

(** ** The entries of the curation rewards *)

Section CurationEntries.

Variable max_rewards : Amount.
Variable total_vote_weight : Z.

Lemma fold_record_find (name : string) (votes : list Vote) (d : dict claim) :
  dict_find name (fold_left (record_vote max_rewards total_vote_weight) votes d) =
  match last_vote_of name votes with
  | Some v => Some (recorded_claim max_rewards total_vote_weight v)
  | None => dict_find name d
  end.
Proof.
  revert d. induction votes as [|v votes IH]; intros d; cbn [fold_left last_vote_of].
  - reflexivity.
  - rewrite IH. destruct (last_vote_of name votes); [reflexivity|].
    unfold record_vote. rewrite dict_find_set.
    destruct (String.eqb name (voter v)); reflexivity.
Qed.

Lemma fold_record_keys_NoDup (votes : list Vote) (d : dict claim) :
  NoDup (dict_keys d) ->
  NoDup (dict_keys (fold_left (record_vote max_rewards total_vote_weight) votes d)).
Proof.
  revert d. induction votes as [|v votes IH]; intros d Hd; cbn [fold_left].
  - exact Hd.
  - apply IH. unfold record_vote. now apply dict_set_keys_NoDup.
Qed.

Lemma fold_record_keys_in (name : string) (votes : list Vote) (d : dict claim) :
  In name (dict_keys (fold_left (record_vote max_rewards total_vote_weight) votes d))
  <-> In name (map voter votes) \/ In name (dict_keys d).
Proof.
  revert d. induction votes as [|v votes IH]; intros d; cbn [fold_left map].
  - simpl. intuition.
  - rewrite IH. unfold record_vote. rewrite dict_set_keys_in. simpl.
    intuition (subst; auto).
Qed.

Lemma last_vote_of_voter (name : string) (votes : list Vote) (v : Vote) :
  last_vote_of name votes = Some v -> In v votes /\ voter v = name.
Proof.
  induction votes as [|v0 votes IH]; cbn [last_vote_of]; [discriminate|].
  destruct (last_vote_of name votes) as [w|].
  - intros H. injection H as <-. destruct (IH eq_refl) as [Hin Hv].
    split; [now right|exact Hv].
  - destruct (String.eqb name (voter v0)) eqn:E; [|discriminate].
    intros H. injection H as <-. apply String.eqb_eq in E.
    split; [now left|now symmetry].
Qed.

Lemma last_vote_of_None (name : string) (votes : list Vote) :
  last_vote_of name votes = None <-> ~ In name (map voter votes).
Proof.
  induction votes as [|v0 votes IH]; cbn [last_vote_of map].
  - split; [intros _ [] | reflexivity].
  - destruct (last_vote_of name votes) as [w|].
    + split; [discriminate|]. intros H. exfalso.
      assert (Hn : ~ In name (map voter votes)) by (intros Hin; apply H; now right).
      apply IH in Hn. discriminate.
    + destruct (String.eqb name (voter v0)) eqn:E.
      * apply String.eqb_eq in E. split; [discriminate|].
        intros H. exfalso. apply H. left. now symmetry.
      * apply String.eqb_neq in E. split; [|reflexivity].
        intros _ [H|H]; [now apply E|]. now apply (proj1 IH eq_refl).
Qed.

End CurationEntries.

Lemma weight_fold_sum (votes : list Vote) (acc : Z) :
  fold_left (fun total_vote_weight vote => (total_vote_weight + weight vote)%Z)
    votes acc = (acc + weight_sum votes)%Z.
Proof.
  revert acc. induction votes as [|v votes IH]; intros acc; simpl.
  - lia.
  - rewrite IH. lia.
Qed.

Lemma positive_weight_sum_of_nonneg (votes : list Vote) :
  Forall (fun v => (0 <= weight v)%Z) votes ->
  positive_weight_sum votes = weight_sum votes.
Proof.
  induction 1 as [|v votes Hv _ IH]; simpl; [reflexivity|].
  rewrite IH. lia.
Qed.

(** What the votes claim in all, when there is something to distribute. *)
Lemma sum_claims_closed (max_rewards : Amount) (total_vote_weight : Z)
    (votes : list Vote) :
  0 <= amount max_rewards -> (0 < total_vote_weight)%Z ->
  sum_claims (map (recorded_claim max_rewards total_vote_weight) votes)
  == amount max_rewards * inject_Z (positive_weight_sum votes)
     / inject_Z total_vote_weight.
Proof.
  intros Hm Ht.
  assert (HT : 0 < inject_Z total_vote_weight) by (unfold Qlt; simpl; lia).
  assert (HT0 : ~ inject_Z total_vote_weight == 0) by lra.
  induction votes as [|v votes IH];
    cbn [map sum_claims fold_right positive_weight_sum].
  - field. exact HT0.
  - fold (sum_claims (map (recorded_claim max_rewards total_vote_weight) votes)).
    rewrite IH. rewrite inject_Z_plus.
    assert (E : claim_float (recorded_claim max_rewards total_vote_weight v)
                == amount max_rewards * inject_Z (Z.max (weight v) 0)
                   / inject_Z total_vote_weight).
    { unfold recorded_claim.
      destruct (claim_gt0 (raw_claim max_rewards total_vote_weight v)) eqn:G.
      - apply Qlt_bool_iff in G. unfold raw_claim in *.
        assert (Eb : (0 <? total_vote_weight)%Z = true) by (apply Z.ltb_lt; lia).
        rewrite Eb in *. cbn [claim_float Amount_float amount] in *.
        destruct (Z_le_gt_dec (weight v) 0) as [Hw|Hw].
        + exfalso.
          assert (Hz := recorded_zero_of_weight max_rewards total_vote_weight v Hm Hw).
          unfold recorded_claim, raw_claim in Hz. rewrite Eb in Hz.
          assert (G' : claim_gt0
                         (ClaimAmount
                            (mkAmount
                               (amount max_rewards * inject_Z (weight v)
                                / inject_Z total_vote_weight)
                               (symbol max_rewards))) = true)
            by (apply Qlt_bool_iff; exact G).
          rewrite G' in Hz. discriminate.
        + rewrite Z.max_l by lia. reflexivity.
      - apply Qlt_bool_false_iff in G. unfold raw_claim in G.
        assert (Eb : (0 <? total_vote_weight)%Z = true) by (apply Z.ltb_lt; lia).
        rewrite Eb in G. cbn [claim_float Amount_float amount] in *.
        setoid_replace (inject_Z 0) with 0 by reflexivity.
        destruct (Z_le_gt_dec (weight v) 0) as [Hw|Hw].
        + rewrite Z.max_r by lia.
          setoid_replace (inject_Z 0) with 0 by reflexivity. field. exact HT0.
        + rewrite Z.max_l by lia.
          assert (Hw' : 0 < inject_Z (weight v)) by (unfold Qlt; simpl; lia).
          assert (Hp : 0 <= amount max_rewards * inject_Z (weight v))
            by (apply Qmult_le_0_compat; lra).
          assert (Hq : 0 <= amount max_rewards * inject_Z (weight v)
                            / inject_Z total_vote_weight)
            by (apply Qle_shift_div_l; [exact HT | lra]).
          lra. }
    rewrite E. field. exact HT0.
Qed.

Lemma inject_Z_pos (z : Z) : (0 < z)%Z -> 0 < inject_Z z.
Proof.
  intros H. unfold Qlt; simpl. lia.
Qed.

Lemma inject_Z_nonneg (z : Z) : (0 <= z)%Z -> 0 <= inject_Z z.
Proof.
  intros H. unfold Qle; simpl. lia.
Qed.

Lemma recorded_claim_of_nothing (s : string) (t : Z) (v : Vote) :
  recorded_claim (mkAmount 0 s) t v = ClaimInt 0.
Proof.
  unfold recorded_claim. destruct (claim_gt0 _) eqn:G; [|reflexivity].
  exfalso. apply Qlt_bool_iff in G. unfold raw_claim in G.
  destruct (0 <? t)%Z; cbn [claim_float Amount_float amount] in G.
  - unfold Qdiv in G. rewrite !Qmult_0_l in G. exact (Qlt_irrefl _ G).
  - revert G. Qdecide.
Qed.

Lemma fold_unclaimed_not_pending (m : Amount) (t : Z) (votes : list Vote) (u : Amount) :
  fold_left (unclaimed_after m false t) votes u = u.
Proof.
  revert u. induction votes as [|v votes IH]; intros u; cbn [fold_left]; [reflexivity|].
  rewrite IH. unfold unclaimed_after. now rewrite andb_false_r.
Qed.

Section CurationShape.

Variable Amount_of_string : string -> result Amount.
Variable hive : Hive.
Variable self : Comment.
Variable pending_payout_HBD : bool.
Variable pending_payout_value_ : pending_payout_arg.

(** X7: whatever the vote list, the voters of the result are the voters of
    the list, each once, and the entry of a voter is the value recorded for
    the last vote of that voter. *)
Theorem get_curation_rewards_entries (m : Amount) (pend : bool) :
  max_rewards_of Amount_of_string hive self pending_payout_HBD pending_payout_value_
  = Return (m, pend) ->
  exists r,
    get_curation_rewards Amount_of_string hive self pending_payout_HBD
      pending_payout_value_ = Return r /\
    NoDup (dict_keys (active_votes_rewards r)) /\
    (forall name,
        In name (dict_keys (active_votes_rewards r))
        <-> In name (map voter (active_votes_list_of hive self))) /\
    (forall name,
        dict_find name (active_votes_rewards r) =
        match last_vote_of name (active_votes_list_of hive self) with
        | Some v =>
            Some (recorded_claim m
                    (total_vote_weight_of self (active_votes_list_of hive self)) v)
        | None => None
        end).
Proof.
  intros Hm. rewrite (get_curation_rewards_Return _ _ _ _ _ _ _ Hm).
  eexists. split; [reflexivity|]. cbn [active_votes_rewards].
  split; [|split].
  - apply fold_record_keys_NoDup. constructor.
  - intros name. rewrite fold_record_keys_in. simpl. intuition.
  - intros name. apply fold_record_find.
Qed.

(** X8: when [max_rewards] is not negative and the total weight is
    positive, the unclaimed rewards are [max_rewards] less the share of the
    positive weights in the total weight; they never exceed [max_rewards]. *)
Theorem get_curation_rewards_unclaimed (m : Amount) (pend : bool) :
  max_rewards_of Amount_of_string hive self pending_payout_HBD pending_payout_value_
  = Return (m, pend) ->
  0 <= amount m ->
  (0 < total_vote_weight_of self (active_votes_list_of hive self))%Z ->
  exists r,
    get_curation_rewards Amount_of_string hive self pending_payout_HBD
      pending_payout_value_ = Return r /\
    amount (unclaimed_rewards r)
    == amount m
       * (1 - inject_Z (positive_weight_sum (active_votes_list_of hive self))
              / inject_Z (total_vote_weight_of self (active_votes_list_of hive self))) /\
    amount (unclaimed_rewards r) <= amount m.
Proof.
  intros Hm Hpos Ht. rewrite (get_curation_rewards_Return _ _ _ _ _ _ _ Hm).
  eexists. split; [reflexivity|]. cbn [unclaimed_rewards].
  set (votes := active_votes_list_of hive self) in *.
  set (total := total_vote_weight_of self votes) in *.
  assert (Hp : pend = true \/ amount m == 0).
  { destruct (max_rewards_of_cases _ _ _ _ _ _ _ Hm) as [(-> & _)|(_ & -> & _)];
      [now left | right; reflexivity]. }
  pose proof (fold_unclaimed_amount m pend total votes m Hp) as Hsum.
  pose proof (sum_claims_closed m total votes Hpos Ht) as Hcl.
  assert (HT1 : 0 < inject_Z total) by exact (inject_Z_pos total Ht).
  assert (HT : ~ inject_Z total == 0) by lra.
  assert (HP : 0 <= inject_Z (positive_weight_sum votes)).
  { assert (Hz : (0 <= positive_weight_sum votes)%Z)
      by (clear; induction votes as [|v vs IH]; simpl; lia).
    exact (inject_Z_nonneg _ Hz). }
  assert (Hs : 0 <= sum_claims (map (recorded_claim m total) votes)).
  { rewrite Hcl. apply Qle_shift_div_l; [exact HT1|].
    rewrite Qmult_0_l. now apply Qmult_le_0_compat. }
  split.
  - rewrite Hcl in Hsum. 
    setoid_replace (amount m * (1 - inject_Z (positive_weight_sum votes) / inject_Z total))
      with (amount m - amount m * inject_Z (positive_weight_sum votes) / inject_Z total)
      by (field; exact HT).
    lra.
  - lra.
Qed.

(** X9: when the comment has no [total_vote_weight] of its own,
    [max_rewards] is not negative, no vote has a negative weight and some
    vote has a positive one, everything is claimed: the unclaimed rewards
    are zero. *)
Theorem get_curation_rewards_all_claimed (m : Amount) (pend : bool) :
  max_rewards_of Amount_of_string hive self pending_payout_HBD pending_payout_value_
  = Return (m, pend) ->
  0 <= amount m ->
  total_vote_weight self = None ->
  Forall (fun v => (0 <= weight v)%Z) (active_votes_list_of hive self) ->
  (0 < weight_sum (active_votes_list_of hive self))%Z ->
  exists r,
    get_curation_rewards Amount_of_string hive self pending_payout_HBD
      pending_payout_value_ = Return r /\
    amount (unclaimed_rewards r) == 0.
Proof.
  intros Hm Hpos Hnone Hall Hsum.
  rewrite (get_curation_rewards_Return _ _ _ _ _ _ _ Hm).
  eexists. split; [reflexivity|]. cbn [unclaimed_rewards].
  set (votes := active_votes_list_of hive self) in *.
  assert (Et : total_vote_weight_of self votes = weight_sum votes).
  { unfold total_vote_weight_of. rewrite Hnone, weight_fold_sum. lia. }
  rewrite Et.
  assert (Hp : pend = true \/ amount m == 0).
  { destruct (max_rewards_of_cases _ _ _ _ _ _ _ Hm) as [(-> & _)|(_ & -> & _)];
      [now left | right; reflexivity]. }
  pose proof (fold_unclaimed_amount m pend (weight_sum votes) votes m Hp) as Hs.
  pose proof (sum_claims_closed m (weight_sum votes) votes Hpos Hsum) as Hcl.
  rewrite (positive_weight_sum_of_nonneg votes Hall) in Hcl.
  assert (HT : ~ inject_Z (weight_sum votes) == 0).
  { assert (0 < inject_Z (weight_sum votes))
      by exact (inject_Z_pos _ Hsum). lra. }
  assert (Hone : amount m * inject_Z (weight_sum votes) / inject_Z (weight_sum votes)
                 == amount m) by (field; exact HT).
  rewrite Hone in Hcl. lra.
Qed.

(** X10: when curation rewards are switched off or the comment is not
    pending, and the median price (if any) is well formed, the result has
    the flag [False], zero unclaimed rewards in the HIVE symbol and 0 for
    every voter, whatever the flag and the pending payout value passed. *)
Theorem get_curation_rewards_nothing (mp : option Price) :
  median_price_of (get_current_median_history hive) = Return mp ->
  allow_curation_rewards self = false \/ is_pending hive self = false ->
  exists r,
    get_curation_rewards Amount_of_string hive self pending_payout_HBD
      pending_payout_value_ = Return r /\
    pending_rewards r = false /\
    unclaimed_rewards r = mkAmount 0 (hive_symbol hive) /\
    (forall name,
        In name (map voter (active_votes_list_of hive self)) ->
        dict_find name (active_votes_rewards r) = Some (ClaimInt 0)) /\
    (forall c, In c (dict_values (active_votes_rewards r)) -> c = ClaimInt 0).
Proof.
  intros Hmp Hoff.
  assert (Hm : max_rewards_of Amount_of_string hive self pending_payout_HBD
                 pending_payout_value_ = Return (mkAmount 0 (hive_symbol hive), false)).
  { unfold max_rewards_of. rewrite Hmp. cbn [bind].
    destruct Hoff as [->| ->]; [reflexivity|].
    destruct (allow_curation_rewards self); reflexivity. }
  rewrite (get_curation_rewards_Return _ _ _ _ _ _ _ Hm).
  eexists. split; [reflexivity|].
  cbn [pending_rewards unclaimed_rewards active_votes_rewards].
  split; [reflexivity|]. split; [apply fold_unclaimed_not_pending|]. split.
  - intros name Hin. rewrite fold_record_find.
    destruct (last_vote_of name (active_votes_list_of hive self)) eqn:L.
    + now rewrite recorded_claim_of_nothing.
    + apply last_vote_of_None in L. contradiction.
  - intros c Hc. apply fold_record_values in Hc. destruct Hc as [[]|(v & _ & ->)].
    apply recorded_claim_of_nothing.
Qed.

End CurationShape.

Lemma get_curation_rewards_entries_witness :
  exists r,
    get_curation_rewards Sample.parse_amount Sample.hive21 Sample.twice_voted_post
      true pending_payout_None = Return r /\
    dict_keys (active_votes_rewards r) = ["bob"]%string /\
    exists c, dict_find "bob" (active_votes_rewards r) = Some c /\
              claim_float c == 7 # 10.
Proof.
  assert (Hm : max_rewards_of Sample.parse_amount Sample.hive21
                 Sample.twice_voted_post true pending_payout_None
               = Return (Amount_mul (Sample.HBD 4) (1 # 4), true)) by reflexivity.
  destruct (get_curation_rewards_entries Sample.parse_amount Sample.hive21
              Sample.twice_voted_post true pending_payout_None _ _ Hm)
    as (r & Hr & _ & _ & Hfind).
  exists r. split; [exact Hr|].
  assert (Hr' := Hr). vm_compute in Hr'. injection Hr' as <-.
  split; [reflexivity|]. eexists. split; [reflexivity|]. Qdecide.
Defined.

Lemma get_curation_rewards_unclaimed_witness :
  exists r,
    get_curation_rewards Sample.parse_amount Sample.hive21 Sample.downvoted_post
      true pending_payout_None = Return r /\
    amount (unclaimed_rewards r) <= 1.
Proof.
  assert (Hm : max_rewards_of Sample.parse_amount Sample.hive21
                 Sample.downvoted_post true pending_payout_None
               = Return (Amount_mul (Sample.HBD 4) (1 # 4), true)) by reflexivity.
  destruct (get_curation_rewards_unclaimed Sample.parse_amount Sample.hive21
              Sample.downvoted_post true pending_payout_None _ _ Hm)
    as (r & Hr & _ & Hle).
  - Qdecide.
  - reflexivity.
  - exists r. split; [exact Hr|]. 
    setoid_replace 1 with (amount (Amount_mul (Sample.HBD 4) (1 # 4))) by Qdecide.
    exact Hle.
Defined.

Lemma get_curation_rewards_all_claimed_witness :
  exists r,
    get_curation_rewards Sample.parse_amount Sample.hive21 Sample.pending_post
      false pending_payout_None = Return r /\
    amount (unclaimed_rewards r) == 0.
Proof.
  assert (Hm : max_rewards_of Sample.parse_amount Sample.hive21
                 Sample.pending_post false pending_payout_None
               = Return (mkAmount (4 * (1 # 4) * (1 / (1 # 4))) "HIVE", true))
    by reflexivity.
  apply (get_curation_rewards_all_claimed Sample.parse_amount Sample.hive21
           Sample.pending_post false pending_payout_None _ _ Hm).
  - Qdecide.
  - reflexivity.
  - repeat constructor; simpl; lia.
  - reflexivity.
Defined.

Lemma get_curation_rewards_nothing_witness :
  exists r,
    get_curation_rewards Sample.parse_amount Sample.hive21 Sample.paid_post
      false (pending_payout_str "1.000 HBD") = Return r /\
    pending_rewards r = false /\
    unclaimed_rewards r = Sample.HIVE 0.
Proof.
  destruct (get_curation_rewards_nothing Sample.parse_amount Sample.hive21
              Sample.paid_post false (pending_payout_str "1.000 HBD")
              (Some (mkPrice (Sample.HBD (1 # 4)) (Sample.HIVE 1))))
    as (r & Hr & Hp & Hu & _).
  - reflexivity.
  - right. reflexivity.
  - exists r. auto.
Defined.

(** ** The vote of a voter *)

Lemma find_specific_vote_spec (name : string) (votes : list Vote) (i : nat)
    (acc : option nat) :
  match find_specific_vote name votes i acc with
  | Some j =>
      (last_vote_of name votes = None /\ acc = Some j) \/
      (exists v, last_vote_of name votes = Some v /\ (i <= j)%nat /\
                 nth_error votes (j - i) = Some v)
  | None => last_vote_of name votes = None /\ acc = None
  end.
Proof.
  revert i acc. induction votes as [|v votes IH]; intros i acc;
    cbn [find_specific_vote last_vote_of].
  - destruct acc; auto.
  - specialize (IH (S i) (if String.eqb name (voter v) then Some i else acc)).
    destruct (find_specific_vote name votes (S i) _) as [j|].
    + destruct IH as [(Hl & Ha)|(w & Hl & Hj & Hn)].
      * rewrite Hl. destruct (String.eqb name (voter v)).
        -- injection Ha as <-. right. exists v. split; [reflexivity|].
           split; [lia|]. now rewrite Nat.sub_diag.
        -- now left.
      * rewrite Hl. right. exists w. split; [reflexivity|]. split; [lia|].
        replace (j - i)%nat with (S (j - S i)) by lia. exact Hn.
    + destruct IH as (Hl & Ha). rewrite Hl.
      destruct (String.eqb name (voter v)); [discriminate|]. now split.
Qed.

Lemma find_specific_vote_last (name : string) (votes : list Vote) :
  match last_vote_of name votes with
  | Some v =>
      exists i, find_specific_vote name votes 0 None = Some i /\
                nth_error votes i = Some v
  | None => find_specific_vote name votes 0 None = None
  end.
Proof.
  pose proof (find_specific_vote_spec name votes 0 None) as H.
  destruct (find_specific_vote name votes 0 None) as [j|].
  - destruct H as [(_ & Ha)|(v & Hl & _ & Hn)]; [discriminate|].
    rewrite Hl. exists j. split; [reflexivity|].
    now rewrite Nat.sub_0_r in Hn.
  - destruct H as (Hl & _). now rewrite Hl.
Qed.

Section VoteOfVoter.

Variable Amount_of_string : string -> result Amount.
Variable hive : Hive.
Variable self : Comment.
Variable voter_ : option string.
Variable pending_payout_value_ : pending_payout_arg.

(** The steps of [get_vote_with_curation] once the vote is found and the
    curation rewards are computed. *)
Lemma get_vote_with_curation_found (i : nat) (specific_vote : Vote) (m : Amount)
    (pend : bool) :
  find_specific_vote (voter_name self voter_) (active_votes_list_of hive self) 0 None
  = Some i ->
  nth_error (active_votes_list_of hive self) i = Some specific_vote ->
  last_vote_of (voter_name self voter_) (active_votes_list_of hive self)
  = Some specific_vote ->
  is_pending hive self = true ->
  max_rewards_of Amount_of_string hive self true pending_payout_value_
  = Return (m, pend) ->
  get_vote_with_curation Amount_of_string hive self voter_ false pending_payout_value_
  = let c := recorded_claim m
               (total_vote_weight_of self (active_votes_list_of hive self))
               specific_vote in
    let v1 := set_curation_reward specific_vote c in
    match
      (q <- float_div (claim_float c)
              (get_voting_value_HBD hive (voter_name self voter_)
                 (inject_Z (percent v1) / 100)) ;;
       Return (q * 100))
    with
    | Raise e => (Raise e, store_vote self i v1)
    | Return roi =>
        (Return (Some (set_ROI v1 roi)),
         store_vote (store_vote self i v1) i (set_ROI v1 roi))
    end.
Proof.
  intros Hf Hn Hl Hp Hm. unfold get_vote_with_curation.
  fold (voter_name self voter_). rewrite Hf, Hn, Hp. cbn [orb negb].
  rewrite (get_curation_rewards_Return _ _ _ _ _ _ _ Hm).
  cbn [bind active_votes_rewards]. unfold getitem.
  rewrite fold_record_find, Hl. reflexivity.
Qed.

(** X11: [get_vote_with_curation] returns [None], and writes nothing, exactly
    when no vote in the list is by the voter looked for (the author when no
    voter is given); with [raw_data] set or on a comment that is not pending
    it returns the last vote of that voter as it is stored, and writes
    nothing. *)
Theorem get_vote_with_curation_lookup (raw_data : bool) :
  (~ In (voter_name self voter_) (map voter (active_votes_list_of hive self)) ->
   get_vote_with_curation Amount_of_string hive self voter_ raw_data
     pending_payout_value_ = (Return None, self)) /\
  (fst (get_vote_with_curation Amount_of_string hive self voter_ raw_data
          pending_payout_value_) = Return None ->
   ~ In (voter_name self voter_) (map voter (active_votes_list_of hive self))) /\
  (forall v,
      last_vote_of (voter_name self voter_) (active_votes_list_of hive self) = Some v ->
      voter v = voter_name self voter_ /\
      (raw_data = true \/ is_pending hive self = false ->
       get_vote_with_curation Amount_of_string hive self voter_ raw_data
         pending_payout_value_ = (Return (Some v), self))).
Proof.
  pose proof (find_specific_vote_last (voter_name self voter_)
                (active_votes_list_of hive self)) as L.
  split; [|split].
  - intros Hnot. apply last_vote_of_None in Hnot. rewrite Hnot in L.
    unfold get_vote_with_curation. fold (voter_name self voter_). now rewrite L.
  - intros Hres. apply last_vote_of_None.
    destruct (last_vote_of _ _) as [v|] eqn:Hl; [exfalso|reflexivity].
    destruct L as (i & Hf & Hn). revert Hres.
    unfold get_vote_with_curation. fold (voter_name self voter_). rewrite Hf, Hn.
    destruct (raw_data || negb (is_pending hive self)); [discriminate|].
    destruct (bind _ _) as [c|e]; [|discriminate].
    destruct (bind _ _) as [roi|e]; discriminate.
  - intros v Hl. rewrite Hl in L. destruct L as (i & Hf & Hn).
    split; [apply (last_vote_of_voter _ _ _ Hl)|].
    intros Hraw. unfold get_vote_with_curation. fold (voter_name self voter_).
    rewrite Hf, Hn.
    assert (E : raw_data || negb (is_pending hive self) = true)
      by (destruct Hraw as [-> | ->]; [reflexivity | apply orb_true_r]).
    now rewrite E.
Qed.

(** X12: on a pending comment, with [raw_data] unset, when the voter has a
    vote and its voting value is not 0, the vote returned carries the
    voter's entry of the curation rewards in HBD as [curation_reward] and
    that reward divided by the voting value, times 100, as [ROI]; the same
    entry is written at the vote's place in the comment. *)
Theorem get_vote_with_curation_annotates (v : Vote) (m : Amount) (pend : bool) :
  last_vote_of (voter_name self voter_) (active_votes_list_of hive self) = Some v ->
  is_pending hive self = true ->
  max_rewards_of Amount_of_string hive self true pending_payout_value_
  = Return (m, pend) ->
  ~ get_voting_value_HBD hive (voter_name self voter_) (inject_Z (percent v) / 100)
    == 0 ->
  exists i v',
    find_specific_vote (voter_name self voter_) (active_votes_list_of hive self) 0 None
    = Some i /\
    nth_error (active_votes_list_of hive self) i = Some v /\
    get_vote_with_curation Amount_of_string hive self voter_ false
      pending_payout_value_ = (Return (Some v'), store_vote self i v') /\
    same_vote_data v v' /\
    curation_reward v'
    = Some (recorded_claim m
              (total_vote_weight_of self (active_votes_list_of hive self)) v) /\
    ROI v'
    = Some (claim_float
              (recorded_claim m
                 (total_vote_weight_of self (active_votes_list_of hive self)) v)
            / get_voting_value_HBD hive (voter_name self voter_)
                (inject_Z (percent v) / 100)
            * 100).
Proof.
  intros Hl Hp Hm Hv.
  pose proof (find_specific_vote_last (voter_name self voter_)
                (active_votes_list_of hive self)) as L.
  rewrite Hl in L. destruct L as (i & Hf & Hn).
  exists i. eexists. split; [exact Hf|]. split; [exact Hn|].
  rewrite (get_vote_with_curation_found i v m pend Hf Hn Hl Hp Hm).
  cbv zeta. cbn [percent set_curation_reward].
  rewrite (float_div_Return _ _ Hv). cbn [bind].
  rewrite store_vote_twice.
  split; [reflexivity|]. split; [repeat split|]. split; reflexivity.
Qed.

(** X13: in the same situation but with a voting value of 0, the call ends
    in [ZeroDivisionError] after [curation_reward] has been written: the
    comment is left with the reward in the voter's vote and no new [ROI]. *)
Theorem get_vote_with_curation_half_written (v : Vote) (m : Amount) (pend : bool) :
  last_vote_of (voter_name self voter_) (active_votes_list_of hive self) = Some v ->
  is_pending hive self = true ->
  max_rewards_of Amount_of_string hive self true pending_payout_value_
  = Return (m, pend) ->
  get_voting_value_HBD hive (voter_name self voter_) (inject_Z (percent v) / 100)
  == 0 ->
  exists i,
    find_specific_vote (voter_name self voter_) (active_votes_list_of hive self) 0 None
    = Some i /\
    nth_error (active_votes_list_of hive self) i = Some v /\
    get_vote_with_curation Amount_of_string hive self voter_ false
      pending_payout_value_
    = (Raise ZeroDivisionError,
       store_vote self i
         (set_curation_reward v
            (recorded_claim m
               (total_vote_weight_of self (active_votes_list_of hive self)) v))) /\
    ROI (set_curation_reward v
           (recorded_claim m
              (total_vote_weight_of self (active_votes_list_of hive self)) v))
    = ROI v.
Proof.
  intros Hl Hp Hm Hv.
  pose proof (find_specific_vote_last (voter_name self voter_)
                (active_votes_list_of hive self)) as L.
  rewrite Hl in L. destruct L as (i & Hf & Hn).
  exists i. split; [exact Hf|]. split; [exact Hn|].
  rewrite (get_vote_with_curation_found i v m pend Hf Hn Hl Hp Hm).
  cbv zeta. cbn [percent set_curation_reward].
  rewrite (float_div_Raise _ _ Hv). split; reflexivity.
Qed.

End VoteOfVoter.

Lemma get_vote_with_curation_lookup_witness :
  get_vote_with_curation Sample.parse_amount Sample.hive21 Sample.pending_post
    (Some "dave"%string) true pending_payout_None
  = (Return (Some (Sample.vote_of "dave" 700)), Sample.pending_post) /\
  get_vote_with_curation Sample.parse_amount Sample.hive21 Sample.pending_post
    None false pending_payout_None
  = (Return None, Sample.pending_post).
Proof.
  destruct (get_vote_with_curation_lookup Sample.parse_amount Sample.hive21
              Sample.pending_post (Some "dave"%string) pending_payout_None true)
    as (_ & _ & Hfound).
  destruct (get_vote_with_curation_lookup Sample.parse_amount Sample.hive21
              Sample.pending_post None pending_payout_None false)
    as (Hmissing & _ & _).
  split.
  - apply (Hfound (Sample.vote_of "dave" 700) eq_refl). now left.
  - apply Hmissing. simpl. intuition discriminate.
Defined.

Lemma get_vote_with_curation_annotates_witness :
  exists i v',
    get_vote_with_curation Sample.parse_amount Sample.hive21 Sample.twice_voted_post
      (Some "bob"%string) false pending_payout_None
    = (Return (Some v'), store_vote Sample.twice_voted_post i v') /\
    i = 1%nat /\
    curation_reward v' = Some (ClaimAmount (Sample.HBD (4 * (1 # 4) * 700 / 1000))).
Proof.
  destruct (get_vote_with_curation_annotates Sample.parse_amount Sample.hive21
              Sample.twice_voted_post (Some "bob"%string) pending_payout_None
              (Sample.vote_of "bob" 700) (Amount_mul (Sample.HBD 4) (1 # 4)) true)
    as (i & v' & Hf & _ & Hcall & _ & Hc & _).
  - reflexivity.
  - reflexivity.
  - reflexivity.
  - Qdecide.
  - exists i, v'. split; [exact Hcall|]. split.
    + vm_compute in Hf. now injection Hf.
    + rewrite Hc. reflexivity.
Defined.

Lemma get_vote_with_curation_half_written_witness :
  exists i,
    get_vote_with_curation Sample.parse_amount Sample.hive21_no_value
      Sample.pending_post (Some "bob"%string) false pending_payout_None
    = (Raise ZeroDivisionError,
       store_vote Sample.pending_post i
         (set_curation_reward (Sample.vote_of "bob" 300)
            (recorded_claim (Amount_mul (Sample.HBD 4) (1 # 4)) 1000
               (Sample.vote_of "bob" 300)))).
Proof.
  destruct (get_vote_with_curation_half_written Sample.parse_amount
              Sample.hive21_no_value Sample.pending_post (Some "bob"%string)
              pending_payout_None (Sample.vote_of "bob" 300)
              (Amount_mul (Sample.HBD 4) (1 # 4)) true)
    as (i & _ & _ & Hcall & _).
  - reflexivity.
  - reflexivity.
  - reflexivity.
  - Qdecide.
  - exists i. exact Hcall.
Defined.

(** ** Asking twice for the vote of a voter *)

Lemma raw_claim_weight (m : Amount) (t : Z) (a b : Vote) :
  weight b = weight a -> raw_claim m t b = raw_claim m t a.
Proof.
  intros H. unfold raw_claim. now rewrite H.
Qed.

Lemma recorded_claim_weight (m : Amount) (t : Z) (a b : Vote) :
  weight b = weight a -> recorded_claim m t b = recorded_claim m t a.
Proof.
  intros H. unfold recorded_claim. now rewrite (raw_claim_weight m t a b H).
Qed.

Lemma same_find_specific_vote (votes votes' : list Vote) (name : string) :
  Forall2 same_vote_data votes votes' ->
  forall i acc,
    find_specific_vote name votes' i acc = find_specific_vote name votes i acc.
Proof.
  induction 1 as [|a b l l' Hab _ IH]; intros i acc;
    cbn [find_specific_vote]; [reflexivity|].
  destruct Hab as (Hv & _). rewrite Hv. apply IH.
Qed.

Lemma same_record_fold (votes votes' : list Vote) (m : Amount) (t : Z) :
  Forall2 same_vote_data votes votes' ->
  forall d, fold_left (record_vote m t) votes' d = fold_left (record_vote m t) votes d.
Proof.
  induction 1 as [|a b l l' Hab _ IH]; intros d; cbn [fold_left]; [reflexivity|].
  destruct Hab as (Hv & Hw & _). rewrite IH. unfold record_vote.
  now rewrite Hv, (recorded_claim_weight m t a b Hw).
Qed.

Lemma same_unclaimed_fold (votes votes' : list Vote) (m : Amount) (p : bool) (t : Z) :
  Forall2 same_vote_data votes votes' ->
  forall u,
    fold_left (unclaimed_after m p t) votes' u
    = fold_left (unclaimed_after m p t) votes u.
Proof.
  induction 1 as [|a b l l' Hab _ IH]; intros u; cbn [fold_left]; [reflexivity|].
  destruct Hab as (_ & Hw & _). rewrite IH. unfold unclaimed_after.
  now rewrite (raw_claim_weight m t a b Hw).
Qed.

Lemma same_weight_fold (votes votes' : list Vote) :
  Forall2 same_vote_data votes votes' ->
  forall acc,
    fold_left (fun total_vote_weight vote => (total_vote_weight + weight vote)%Z)
      votes' acc
    = fold_left (fun total_vote_weight vote => (total_vote_weight + weight vote)%Z)
        votes acc.
Proof.
  induction 1 as [|a b l l' Hab _ IH]; intros acc; cbn [fold_left]; [reflexivity|].
  destruct Hab as (_ & Hw & _). now rewrite Hw, IH.
Qed.

Lemma same_vote_data_refl (v : Vote) : same_vote_data v v.
Proof.
  repeat split.
Qed.

Lemma list_update_same (votes : list Vote) (i : nat) (v v' : Vote) :
  nth_error votes i = Some v -> same_vote_data v v' ->
  Forall2 same_vote_data votes (list_update i v' votes).
Proof.
  revert i. induction votes as [|a votes IH]; intros i Hn Hd.
  - destruct i; discriminate.
  - destruct i as [|i]; simpl in *.
    + injection Hn as ->. constructor; [exact Hd|].
      clear. induction votes; constructor; auto using same_vote_data_refl.
    + constructor; [apply same_vote_data_refl | now apply IH].
Qed.

Section VoteTwice.

Variable Amount_of_string : string -> result Amount.
Variable hive : Hive.

(** Writing into a vote of the comment, without touching its vote data,
    does not change the curation rewards. *)
Lemma get_curation_rewards_store_vote (self : Comment) (i : nat) (v v' : Vote)
    (pending_payout_HBD : bool) (pending_payout_value_ : pending_payout_arg) :
  nth_error (active_votes_list_of hive self) i = Some v ->
  same_vote_data v v' ->
  get_curation_rewards Amount_of_string hive (store_vote self i v')
    pending_payout_HBD pending_payout_value_
  = get_curation_rewards Amount_of_string hive self pending_payout_HBD
      pending_payout_value_.
Proof.
  intros Hn Hd. unfold store_vote.
  destruct (active_votes self) as [votes|] eqn:Ev; [|reflexivity].
  unfold active_votes_list_of in Hn. rewrite Ev in Hn.
  pose proof (list_update_same votes i v v' Hn Hd) as Hsame.
  unfold get_curation_rewards.
  change (max_rewards_of Amount_of_string hive
            (set_active_votes self (Some (list_update i v' votes)))
            pending_payout_HBD pending_payout_value_)
    with (max_rewards_of Amount_of_string hive self pending_payout_HBD
            pending_payout_value_).
  destruct (max_rewards_of _ _ _ _ _) as [[m pend]|e]; [|reflexivity].
  cbn [bind]. rewrite !curation_loop_Return by reflexivity. cbn [bind].
  unfold active_votes_list_of, total_vote_weight_of. rewrite Ev.
  cbn [active_votes set_active_votes total_vote_weight].
  rewrite (same_weight_fold votes (list_update i v' votes) Hsame).
  rewrite (same_record_fold votes (list_update i v' votes) m _ Hsame).
  rewrite (same_unclaimed_fold votes (list_update i v' votes) m pend _ Hsame).
  reflexivity.
Qed.

Lemma get_vote_with_curation_step (self : Comment) (voter_ : option string)
    (pending_payout_value_ : pending_payout_arg) (i : nat) (specific_vote : Vote) :
  find_specific_vote (voter_name self voter_) (active_votes_list_of hive self) 0 None
  = Some i ->
  nth_error (active_votes_list_of hive self) i = Some specific_vote ->
  is_pending hive self = true ->
  get_vote_with_curation Amount_of_string hive self voter_ false pending_payout_value_
  = match
      (curation_reward <-
         get_curation_rewards Amount_of_string hive self true pending_payout_value_ ;;
       getitem (active_votes_rewards curation_reward) (voter_name self voter_))
    with
    | Raise e => (Raise e, self)
    | Return c =>
        match
          (q <- float_div (claim_float c)
                  (get_voting_value_HBD hive (voter_name self voter_)
                     (inject_Z (percent specific_vote) / 100)) ;;
           Return (q * 100))
        with
        | Raise e => (Raise e, store_vote self i (set_curation_reward specific_vote c))
        | Return roi =>
            (Return (Some (set_ROI (set_curation_reward specific_vote c) roi)),
             store_vote self i (set_ROI (set_curation_reward specific_vote c) roi))
        end
    end.
Proof.
  intros Hf Hn Hp. unfold get_vote_with_curation. fold (voter_name self voter_).
  rewrite Hf, Hn, Hp. cbn [orb negb].
  destruct (bind _ _) as [c|e]; [|reflexivity].
  cbn [percent set_curation_reward].
  destruct (bind _ _) as [roi|e]; [|reflexivity].
  now rewrite store_vote_twice.
Qed.

(** The comment a write leaves is looked up and valued like the comment
    itself. *)
Lemma store_vote_lookup (self : Comment) (voter_ : option string) (i : nat)
    (v v' : Vote) :
  find_specific_vote (voter_name self voter_) (active_votes_list_of hive self) 0 None
  = Some i ->
  nth_error (active_votes_list_of hive self) i = Some v ->
  same_vote_data v v' ->
  active_votes self <> None ->
  voter_name (store_vote self i v') voter_ = voter_name self voter_ /\
  find_specific_vote (voter_name self voter_)
    (active_votes_list_of hive (store_vote self i v')) 0 None = Some i /\
  nth_error (active_votes_list_of hive (store_vote self i v')) i = Some v' /\
  is_pending hive (store_vote self i v') = is_pending hive self.
Proof.
  intros Hf Hn Hd Hown. unfold store_vote, active_votes_list_of in *.
  destruct (active_votes self) as [votes|] eqn:Ev; [|contradiction].
  cbn [active_votes set_active_votes].
  split; [destruct voter_; reflexivity|]. split; [|split; [|reflexivity]].
  - rewrite (same_find_specific_vote votes _ _ (list_update_same votes i v v' Hn Hd)).
    exact Hf.
  - rewrite (nth_error_list_update i i v' v votes Hn). now rewrite Nat.eqb_refl.
Qed.

(** X14: asking again changes nothing: a second call of
    [get_vote_with_curation] with the same arguments, on the comment the
    first call left, has the result of the first call and leaves that
    comment as it is. *)
Theorem get_vote_with_curation_twice (self : Comment) (voter_ : option string)
    (raw_data : bool) (pending_payout_value_ : pending_payout_arg) :
  get_vote_with_curation Amount_of_string hive
    (snd (get_vote_with_curation Amount_of_string hive self voter_ raw_data
            pending_payout_value_))
    voter_ raw_data pending_payout_value_
  = get_vote_with_curation Amount_of_string hive self voter_ raw_data
      pending_payout_value_.
Proof.
  destruct (get_vote_with_curation_leaves Amount_of_string hive self voter_ raw_data
              pending_payout_value_)
    as [Hs|(-> & Hp & i & sv & v' & Hf & Hn & Hd & Hs)].
  - now rewrite Hs.
  - destruct (active_votes self) as [votes|] eqn:Ev.
    2: { rewrite Hs. unfold store_vote. now rewrite Ev. }
    assert (Hown : active_votes self <> None) by (rewrite Ev; discriminate).
    clear Hs Hd v'.
    rewrite (get_vote_with_curation_step self voter_ pending_payout_value_ i sv
               Hf Hn Hp).
    destruct (curation_reward <-
                get_curation_rewards Amount_of_string hive self true
                  pending_payout_value_ ;;
              getitem (active_votes_rewards curation_reward)
                (voter_name self voter_)) as [c|e] eqn:Hc.
    2: { cbn [snd].
         now rewrite (get_vote_with_curation_step self voter_ pending_payout_value_
                        i sv Hf Hn Hp), Hc. }
    destruct (q <- float_div (claim_float c)
                     (get_voting_value_HBD hive (voter_name self voter_)
                        (inject_Z (percent sv) / 100)) ;;
              Return (q * 100)) as [roi|e] eqn:Hroi; cbn [snd].
    + set (v2 := set_ROI (set_curation_reward sv c) roi) in *.
      assert (Hd2 : same_vote_data sv v2) by (repeat split).
      destruct (store_vote_lookup self voter_ i sv v2 Hf Hn Hd2 Hown)
        as (En & Ef & Enth & Epend).
      rewrite <- En in Ef.
      rewrite (get_vote_with_curation_step (store_vote self i v2) voter_
                 pending_payout_value_ i v2 Ef Enth (eq_trans Epend Hp)).
      rewrite (get_curation_rewards_store_vote self i sv v2 _ _ Hn Hd2), En, Hc.
      change (percent v2) with (percent sv). rewrite Hroi.
      change (set_ROI (set_curation_reward v2 c) roi) with v2.
      now rewrite store_vote_twice.
    + set (v1 := set_curation_reward sv c) in *.
      assert (Hd1 : same_vote_data sv v1) by (repeat split).
      destruct (store_vote_lookup self voter_ i sv v1 Hf Hn Hd1 Hown)
        as (En & Ef & Enth & Epend).
      rewrite <- En in Ef.
      rewrite (get_vote_with_curation_step (store_vote self i v1) voter_
                 pending_payout_value_ i v1 Ef Enth (eq_trans Epend Hp)).
      rewrite (get_curation_rewards_store_vote self i sv v1 _ _ Hn Hd1), En, Hc.
      change (percent v1) with (percent sv). rewrite Hroi.
      change (set_curation_reward v1 c) with v1.
      now rewrite store_vote_twice.
Qed.

End VoteTwice.

(** ** The author rewards in closed form *)

(** The end of [get_author_rewards] when a median price is known: the
    beneficiaries' part is taken off [author_tokens], and the rest is split
    into HBD and HIVE. *)
Lemma author_rewards_split (pct : Q) (percent_hbd : Z) (hive_sym : string)
    (b q a : Amount) :
  symbol b <> hive_sym -> symbol q = hive_sym -> symbol a = symbol b ->
  (benefactor_tokens <- Amount_div (Amount_mul a pct) 100 ;;
   author_tokens <- Amount_sub a benefactor_tokens ;;
   hbd_hive <- Amount_div (Amount_mul author_tokens (inject_Z percent_hbd)) 20000 ;;
   p <- Price_as_base (mkPrice b q) hive_sym ;;
   rest <- Amount_sub author_tokens hbd_hive ;;
   vesting_hive <- Price_mul p rest ;;
   Return [("pending_rewards", PyBool true);
           ("payout_HP", PyAmount vesting_hive);
           ("payout_HBD", PyAmount hbd_hive);
           ("total_payout_HBD", PyAmount author_tokens)]%string)
  = Return [("pending_rewards", PyBool true);
            ("payout_HP",
             PyAmount
               (mkAmount
                  ((amount a - amount a * pct / 100
                    - (amount a - amount a * pct / 100) * inject_Z percent_hbd / 20000)
                   * (amount q / amount b))
                  (symbol q)));
            ("payout_HBD",
             PyAmount
               (mkAmount
                  ((amount a - amount a * pct / 100) * inject_Z percent_hbd / 20000)
                  (symbol a)));
            ("total_payout_HBD",
             PyAmount (mkAmount (amount a - amount a * pct / 100) (symbol a)))]%string.
Proof.
  intros Hb Hq Ha.
  rewrite Amount_div_Return by discriminate. cbn [bind].
  rewrite Amount_sub_same by reflexivity. cbn [bind].
  rewrite Amount_div_Return by discriminate. cbn [bind].
  rewrite Price_as_base_of_quote by (cbn [base quote]; assumption). cbn [bind].
  rewrite Amount_sub_same by reflexivity. cbn [bind].
  rewrite Price_mul_quote by (simpl; congruence). reflexivity.
Qed.

Section AuthorRewards.

Variable Amount_of_string : string -> result Amount.
Variable hive : Hive.
Variable self : Comment.

(** X15: for a pending comment whose payout amounts are of one symbol, when
    no median price history is available, the partial result of
    [get_author_rewards] holds, under [total_payout], three quarters of the
    total reward less the beneficiaries' share (the sum of their weights
    out of 10000). *)
Theorem get_author_rewards_partial (s : string) :
  is_pending hive self = true ->
  get_current_median_history hive = None ->
  payouts_in s self ->
  exists author_tokens,
    get_author_rewards Amount_of_string hive self
    = Return [("pending_rewards", PyBool true);
              ("total_payout", PyAmount author_tokens)]%string /\
    symbol author_tokens = s /\
    amount author_tokens
    == (3 # 4)
       * (amount (total_payout_value self) + amount (curator_payout_value self)
          + amount (pending_payout_value self))
       * (1 - inject_Z (sum_of_weights (beneficiaries self)) / 10000).
Proof.
  intros P Hmed Hs. unfold get_author_rewards.
  rewrite P, Hmed. cbn [negb median_price_of bind].
  rewrite (reward_Return s self Hs). cbn [bind].
  rewrite Amount_sub_same by reflexivity. cbn [bind].
  assert (Hm : exists m pend,
             max_rewards_of Amount_of_string hive self false pending_payout_None
             = Return (m, pend)).
  { unfold max_rewards_of. rewrite Hmed, P. cbn [median_price_of bind negb orb].
    destruct (allow_curation_rewards self); cbn [negb orb bind]; eauto. }
  destruct Hm as (m & pend & Hm).
  rewrite (get_curation_rewards_Return _ _ _ _ _ _ _ Hm). cbn [bind].
  rewrite Amount_div_Return by discriminate. cbn [bind].
  rewrite Amount_sub_same by reflexivity. cbn [bind].
  eexists. split; [reflexivity|]. split; [reflexivity|].
  cbn [amount symbol Amount_mul]. unfold get_beneficiaries_pct.
  rewrite fold_weights_acc. cbn [Z.add]. field.
Qed.

(** X16: for a pending comment with payout amounts in HBD and a median
    price of HBD per HIVE, [get_author_rewards] returns the full result:
    [payout_HBD] is the share [percent_hive_dollars / 20000] of
    [total_payout_HBD], and [payout_HP], valued at the median price, is the
    rest, so that the two payouts add up to the total. *)
Theorem get_author_rewards_split (b q : Amount) :
  is_pending hive self = true ->
  get_current_median_history hive = Some (b, q) ->
  symbol b = hbd_symbol hive -> symbol q = hive_symbol hive ->
  hbd_symbol hive <> hive_symbol hive ->
  ~ amount b == 0 -> ~ amount q == 0 ->
  payouts_in (hbd_symbol hive) self ->
  exists vesting_hive hbd_hive author_tokens,
    get_author_rewards Amount_of_string hive self
    = Return [("pending_rewards", PyBool true);
              ("payout_HP", PyAmount vesting_hive);
              ("payout_HBD", PyAmount hbd_hive);
              ("total_payout_HBD", PyAmount author_tokens)]%string /\
    symbol vesting_hive = hive_symbol hive /\
    symbol hbd_hive = hbd_symbol hive /\
    symbol author_tokens = hbd_symbol hive /\
    amount hbd_hive
    == amount author_tokens * inject_Z (percent_hive_dollars self) / 20000 /\
    amount hbd_hive + amount vesting_hive * (amount b / amount q)
    == amount author_tokens.
Proof.
  intros P Hmed Hb Hq Hne Hb0 Hq0 Hs.
  pose proof (median_price_Return hive b q Hmed Hb Hq Hne Hb0 Hq0) as Hmp.
  unfold get_author_rewards. rewrite P, Hmp. cbn [negb bind].
  rewrite (reward_Return _ self Hs). cbn [bind].
  rewrite Amount_sub_same by reflexivity. cbn [bind].
  destruct (max_rewards_of_with_median Amount_of_string hive b q self
              Hmed Hb Hq Hne Hb0 Hq0 P Hs) as (m & pend & Hm & Hsm).
  rewrite (get_curation_rewards_Return _ _ _ _ _ _ _ Hm). cbn [bind unclaimed_rewards].
  set (u := fold_left _ _ m).
  assert (Hu : symbol u = hive_symbol hive).
  { unfold u. rewrite fold_unclaimed_symbol. exact Hsm. }
  assert (split_ok : forall a : Amount,
             symbol a = symbol b ->
             exists vesting_hive hbd_hive author_tokens,
               (benefactor_tokens <-
                  Amount_div (Amount_mul a (get_beneficiaries_pct self)) 100 ;;
                author_tokens <- Amount_sub a benefactor_tokens ;;
                hbd_hive <-
                  Amount_div
                    (Amount_mul author_tokens (inject_Z (percent_hive_dollars self)))
                    20000 ;;
                p <- Price_as_base (mkPrice b q) (hive_symbol hive) ;;
                rest <- Amount_sub author_tokens hbd_hive ;;
                vesting_hive <- Price_mul p rest ;;
                Return [("pending_rewards", PyBool true);
                        ("payout_HP", PyAmount vesting_hive);
                        ("payout_HBD", PyAmount hbd_hive);
                        ("total_payout_HBD", PyAmount author_tokens)]%string)
               = Return [("pending_rewards", PyBool true);
                         ("payout_HP", PyAmount vesting_hive);
                         ("payout_HBD", PyAmount hbd_hive);
                         ("total_payout_HBD", PyAmount author_tokens)]%string /\
               symbol vesting_hive = hive_symbol hive /\
               symbol hbd_hive = hbd_symbol hive /\
               symbol author_tokens = hbd_symbol hive /\
               amount hbd_hive
               == amount author_tokens * inject_Z (percent_hive_dollars self) / 20000 /\
               amount hbd_hive + amount vesting_hive * (amount b / amount q)
               == amount author_tokens).
  { intros a Ha.
    rewrite (author_rewards_split (get_beneficiaries_pct self)
               (percent_hive_dollars self) (hive_symbol hive) b q a)
      by congruence.
    eexists. eexists. eexists. split; [reflexivity|]. cbn [symbol amount].
    split; [exact Hq|]. split; [congruence|]. split; [congruence|].
    split; [reflexivity|]. field. split; assumption. }
  destruct (20 <=? hardfork hive)%Z.
  - rewrite Price_mul_quote by (cbn [quote]; congruence). cbn [bind].
    rewrite Amount_add_same by (simpl; congruence). cbn [bind].
    apply split_ok. simpl. congruence.
  - cbn [bind]. apply split_ok. simpl. congruence.
Qed.

(** X17: whenever [get_rewards] returns, its total is the sum of the
    author's and the curators' payouts; for a pending comment the total is
    the pending payout and the curators get what the author does not, for
    a comment that is not pending the author gets the total payout value and
    the curators the curator payout value. *)
Theorem get_rewards_adds_up (r : rewards) :
  get_rewards Amount_of_string hive self = Return r ->
  amount (total_payout r) == amount (author_payout r) + amount (curator_payout r) /\
  (is_pending hive self = true ->
   total_payout r = pending_payout_value self /\
   amount (curator_payout r)
   == amount (pending_payout_value self) - amount (author_payout r)) /\
  (is_pending hive self = false ->
   author_payout r = total_payout_value self /\
   curator_payout r = curator_payout_value self).
Proof.
  intros H.
  destruct (get_rewards_total_is_sum Amount_of_string hive self r H)
    as (Hsum & _ & _ & Hpend & Hfin).
  split; [exact Hsum|]. split.
  - intros P. destruct (Hpend P) as (Ht & _ & Hc). split; [exact Ht|].
    destruct (Amount_sub_inv _ _ _ Hc) as (E & _). rewrite E, Ht. reflexivity.
  - intros P. destruct (Hfin P) as (Ha & Hc & _). auto.
Qed.

(** X18: for a pending comment with payout amounts in HBD and a median
    price of HBD per HIVE, [get_rewards] returns, with the pending payout
    as total. *)
Theorem get_rewards_pending_returns (b q : Amount) :
  is_pending hive self = true ->
  get_current_median_history hive = Some (b, q) ->
  symbol b = hbd_symbol hive -> symbol q = hive_symbol hive ->
  hbd_symbol hive <> hive_symbol hive ->
  ~ amount b == 0 -> ~ amount q == 0 ->
  payouts_in (hbd_symbol hive) self ->
  exists r,
    get_rewards Amount_of_string hive self = Return r /\
    total_payout r = pending_payout_value self /\
    symbol (author_payout r) = hbd_symbol hive /\
    symbol (curator_payout r) = hbd_symbol hive.
Proof.
  intros P Hmed Hb Hq Hne Hb0 Hq0 Hs.
  destruct (get_author_rewards_with_median Amount_of_string hive b q self
              Hmed Hb Hq Hne Hb0 Hq0 P Hs) as (hp & hbd & a & Hd & Hsa).
  unfold get_rewards. rewrite P, Hd. cbn.
  destruct Hs as (_ & _ & Hp).
  rewrite Amount_sub_same by congruence. eexists. split; [reflexivity|].
  cbn. repeat split; congruence.
Qed.

End AuthorRewards.

Lemma get_author_rewards_partial_witness :
  exists author_tokens,
    get_author_rewards Sample.parse_amount Sample.hive21_no_median Sample.pending_post
    = Return [("pending_rewards", PyBool true);
              ("total_payout", PyAmount author_tokens)]%string /\
    amount author_tokens == 285 # 100.
Proof.
  destruct (get_author_rewards_partial Sample.parse_amount Sample.hive21_no_median
              Sample.pending_post "HBD") as (a & Ha & _ & Hv).
  - reflexivity.
  - reflexivity.
  - repeat split.
  - exists a. split; [exact Ha|]. rewrite Hv. Qdecide.
Defined.

Lemma get_author_rewards_split_witness :
  exists vesting_hive hbd_hive author_tokens,
    get_author_rewards Sample.parse_amount Sample.hive21 Sample.pending_post
    = Return [("pending_rewards", PyBool true);
              ("payout_HP", PyAmount vesting_hive);
              ("payout_HBD", PyAmount hbd_hive);
              ("total_payout_HBD", PyAmount author_tokens)]%string /\
    amount hbd_hive + amount vesting_hive * ((1 # 4) / 1) == amount author_tokens.
Proof.
  destruct (get_author_rewards_split Sample.parse_amount Sample.hive21
              Sample.pending_post (Sample.HBD (1 # 4)) (Sample.HIVE 1))
    as (hp & hbd & a & Hd & _ & _ & _ & _ & Hsum);
    try reflexivity; try discriminate.
  - repeat split.
  - exists hp, hbd, a. split; [exact Hd|exact Hsum].
Defined.

Lemma get_rewards_adds_up_witness :
  exists r,
    get_rewards Sample.parse_amount Sample.hive21 Sample.paid_post = Return r /\
    amount (total_payout r) == 13 /\
    author_payout r = Sample.HBD 10 /\ curator_payout r = Sample.HBD 3.
Proof.
  eexists. split; [reflexivity|].
  destruct (get_rewards_adds_up Sample.parse_amount Sample.hive21 Sample.paid_post
              _ eq_refl) as (Hsum & _ & Hfin).
  destruct (Hfin eq_refl) as (Ha & Hc).
  split; [|split; [exact Ha|exact Hc]].
  rewrite Hsum. reflexivity.
Defined.

Lemma get_rewards_pending_returns_witness :
  exists r,
    get_rewards Sample.parse_amount Sample.hive21 Sample.pending_post = Return r /\
    total_payout r = Sample.HBD 4.
Proof.
  destruct (get_rewards_pending_returns Sample.parse_amount Sample.hive21
              Sample.pending_post (Sample.HBD (1 # 4)) (Sample.HIVE 1))
    as (r & Hr & Ht & _);
    try reflexivity; try discriminate.
  - repeat split.
  - exists r. split; [exact Hr|exact Ht].
Defined.

(** ** The estimate and the compensation in closed form *)

Section EstimateShape.

Variables HF6 HF20 HF21 : Z.
Variable formatTimeString : string -> result datetime.
Variable sqrt_value : Q -> Q.
Variable hive : Hive.

Lemma vote_share_bounds (v r : Q) :
  0 < v -> 0 <= r ->
  ~ v + r == 0 /\ 0 < v / (v + r) /\ v / (v + r) <= 1.
Proof.
  intros Hv Hr. assert (Hs : 0 < v + r) by lra.
  split; [lra|]. split.
  - apply Qlt_shift_div_l; [exact Hs | lra].
  - apply Qle_shift_div_r; [exact Hs | lra].
Qed.

(** The steps of [estimate_curation_HBD] after the penalty, for a positive
    vote value and a total reward that is not negative. *)
Lemma estimate_steps (v r p est : Q) :
  0 < v -> 0 <= r ->
  (k <- float_div v (v + r) ;;
   s <- math_sqrt sqrt_value (1 - k) ;;
   K <- float_div ((1 - s) / 4) k ;;
   s' <- math_sqrt sqrt_value est ;;
   Return (K * v * (1 - p) * s'))
  = (s' <- math_sqrt sqrt_value est ;;
     Return ((1 - sqrt_value (1 - v / (v + r))) / 4 / (v / (v + r))
             * v * (1 - p) * s')).
Proof.
  intros Hv Hr. destruct (vote_share_bounds v r Hv Hr) as (H0 & Hk0 & Hk1).
  rewrite (float_div_Return _ _ H0). cbn [bind].
  unfold math_sqrt at 1.
  assert (S0 : Qlt_bool (1 - v / (v + r)) 0 = false)
    by (apply Qlt_bool_false_iff; lra).
  rewrite S0. cbn [bind].
  rewrite float_div_Return by lra. reflexivity.
Qed.

Lemma estimate_returns (self self' : Comment) (r : Amount)
    (p vote_value : Q) (estimated_value : option Q) :
  refresh hive self = Return self' ->
  reward self' = Return r ->
  get_curation_penalty HF6 HF20 HF21 formatTimeString hive self' vote_time_None
  = Return p ->
  0 < vote_value -> 0 <= Amount_float r ->
  (forall x, estimated_value = Some x -> 0 <= x) ->
  fst (estimate_curation_HBD HF6 HF20 HF21 formatTimeString sqrt_value hive self
         vote_value estimated_value)
  = Return ((1 - sqrt_value (1 - vote_value / (vote_value + Amount_float r))) / 4
            / (vote_value / (vote_value + Amount_float r))
            * vote_value * (1 - p)
            * sqrt_value match estimated_value with
                         | Some x => x
                         | None => Amount_float r
                         end).
Proof.
  intros Href Hrew Hpen Hv Hr Hest.
  rewrite (estimate_after_refresh HF6 HF20 HF21 formatTimeString sqrt_value hive
             self self' vote_value estimated_value Href).
  rewrite Hrew, Hpen. cbn [fst].
  assert (Hx : 0 <= match estimated_value with
                    | Some x => x
                    | None => Amount_float r
                    end)
    by (destruct estimated_value as [x|]; [now apply Hest | exact Hr]).
  assert (S0 : math_sqrt sqrt_value
                 match estimated_value with
                 | Some x => x
                 | None => Amount_float r
                 end
               = Return (sqrt_value match estimated_value with
                                    | Some x => x
                                    | None => Amount_float r
                                    end)).
  { unfold math_sqrt.
    assert (E : Qlt_bool match estimated_value with
                         | Some x => x
                         | None => Amount_float r
                         end 0 = false) by (apply Qlt_bool_false_iff; exact Hx).
    now rewrite E. }
  destruct estimated_value as [x|]; cbn [bind];
    rewrite (estimate_steps _ _ p _ Hv Hr), S0; reflexivity.
Qed.

(** X19: on the comment [refresh] leaves, with a total reward [r] that is
    not negative and a computed penalty [p], a call with a positive vote
    value and an estimated value that is not negative returns
    [K * vote_value * (1 - p) * sqrt(estimated_value)], where
    [K = (1 - sqrt(1 - k)) / 4 / k] and [k = vote_value / (vote_value + r)];
    without an estimated value, the total reward is used. *)
Theorem estimate_curation_HBD_value (self self' : Comment) (r : Amount)
    (p vote_value : Q) (estimated_value : option Q) :
  refresh hive self = Return self' ->
  reward self' = Return r ->
  get_curation_penalty HF6 HF20 HF21 formatTimeString hive self' vote_time_None
  = Return p ->
  0 < vote_value -> 0 <= Amount_float r ->
  (forall x, estimated_value = Some x -> 0 <= x) ->
  fst (estimate_curation_HBD HF6 HF20 HF21 formatTimeString sqrt_value hive self
         vote_value estimated_value)
  = Return ((1 - sqrt_value (1 - vote_value / (vote_value + Amount_float r))) / 4
            / (vote_value / (vote_value + Amount_float r))
            * vote_value * (1 - p)
            * sqrt_value match estimated_value with
                         | Some x => x
                         | None => Amount_float r
                         end).
Proof.
  apply estimate_returns.
Qed.

(** X20: in the same situation, an estimated value that is negative ends
    the call in the [ValueError] of [math.sqrt]. *)
Theorem estimate_curation_HBD_negative_estimate (self self' : Comment) (r : Amount)
    (p vote_value x : Q) :
  refresh hive self = Return self' ->
  reward self' = Return r ->
  get_curation_penalty HF6 HF20 HF21 formatTimeString hive self' vote_time_None
  = Return p ->
  0 < vote_value -> 0 <= Amount_float r -> x < 0 ->
  fst (estimate_curation_HBD HF6 HF20 HF21 formatTimeString sqrt_value hive self
         vote_value (Some x))
  = Raise (ValueError "math domain error").
Proof.
  intros Href Hrew Hpen Hv Hr Hx.
  rewrite (estimate_after_refresh HF6 HF20 HF21 formatTimeString sqrt_value hive
             self self' vote_value (Some x) Href).
  rewrite Hrew, Hpen. cbn [fst bind].
  rewrite (estimate_steps _ _ p _ Hv Hr). unfold math_sqrt.
  apply Qlt_bool_iff in Hx. now rewrite Hx.
Qed.

(** X21: a vote at the very instant of creation earns nothing: when the
    selected window is positive and no time has elapsed, the estimate
    returned is 0. *)
Theorem estimate_curation_HBD_at_creation (self self' : Comment) (r : Amount)
    (vote_value : Q) (estimated_value : option Q) :
  refresh hive self = Return self' ->
  reward self' = Return r ->
  0 < inject_Z (window_seconds HF6 HF20 HF21 (hardfork hive)) ->
  utcnow hive = created self' ->
  0 < vote_value -> 0 <= Amount_float r ->
  (forall x, estimated_value = Some x -> 0 <= x) ->
  exists x,
    fst (estimate_curation_HBD HF6 HF20 HF21 formatTimeString sqrt_value hive self
           vote_value estimated_value) = Return x /\ x == 0.
Proof.
  intros Href Hrew HW Hnow Hv Hr Hest.
  assert (He : elapsed_seconds_of formatTimeString hive self' vote_time_None
               = Return (total_seconds 0%Z)).
  { unfold elapsed_seconds_of, time_elapsed. rewrite Hnow, Z.sub_diag. reflexivity. }
  pose proof (penalty_Return HF6 HF20 HF21 formatTimeString hive self'
                vote_time_None (total_seconds 0%Z) HW He) as Hpen.
  rewrite (estimate_returns self self' r _ vote_value estimated_value
             Href Hrew Hpen Hv Hr Hest).
  eexists. split; [reflexivity|].
  set (w := inject_Z (window_seconds HF6 HF20 HF21 (hardfork hive))) in *.
  assert (Hz : total_seconds 0%Z / w == 0).
  { setoid_replace (total_seconds 0%Z) with 0 by reflexivity.
    unfold Qdiv. apply Qmult_0_l. }
  assert (Ht : 1 - (1 - (if Qlt_bool 1 (total_seconds 0%Z / w)
                         then 1 else total_seconds 0%Z / w)) == 0).
  { destruct (Qlt_bool 1 (total_seconds 0%Z / w)) eqn:E.
    - apply Qlt_bool_iff in E. lra.
    - lra. }
  rewrite Ht. ring.
Qed.

(** X22: on the comment [refresh] leaves, whose total reward is [r], the
    compensation is returned for every elapsed time that is not zero, a
    negative one (a comment created in the future) included, and is not
    negative when neither the reward nor the window is. *)
Theorem curation_penalty_compensation_HBD_nonzero (self self' : Comment) (r : Amount) :
  refresh hive self = Return self' ->
  reward self' = Return r ->
  ~ total_seconds (time_elapsed hive self') == 0 ->
  exists c,
    fst (curation_penalty_compensation_HBD HF6 HF20 HF21 hive self) = Return c /\
    symbol c = symbol r /\
    amount c
    == amount r * inject_Z (window_seconds HF6 HF20 HF21 (hardfork hive))
       * 3600 / (total_seconds (time_elapsed hive self') ^ 2) /\
    (0 <= amount r ->
     (0 <= window_seconds HF6 HF20 HF21 (hardfork hive))%Z -> 0 <= amount c).
Proof.
  intros Href Hrew He.
  rewrite (compensation_after_refresh HF6 HF20 HF21 hive self self' Href), Hrew.
  cbn [fst bind].
  assert (Hsq : ~ (total_seconds (time_elapsed hive self') / 60) ^ 2 == 0).
  { intros Hz. apply He. exact (proj1 (square_of_minutes_zero _) Hz). }
  rewrite (Amount_div_Return _ _ Hsq). eexists. split; [reflexivity|].
  cbn [symbol amount Amount_mul]. split; [reflexivity|].
  set (e := total_seconds (time_elapsed hive self')) in *.
  set (w := inject_Z (window_seconds HF6 HF20 HF21 (hardfork hive))).
  assert (Hee : ~ e * e == 0).
  { intros Hz. destruct (Qmult_integral _ _ Hz); contradiction. }
  split.
  - simpl. field; repeat split; assumption.
  - intros Hr Hw'.
    assert (Hw : 0 <= w) by (apply inject_Z_nonneg; exact Hw').
    assert (Hpos : 0 < (e / 60) ^ 2).
    { simpl. assert (Hq : ~ e / 60 == 0).
      { intros Hz. apply He. setoid_replace e with (e / 60 * 60) by field.
        rewrite Hz. ring. }
      destruct (Qlt_le_dec 0 (e / 60)) as [Hp|Hn].
      - apply Qmult_lt_0_compat; exact Hp.
      - assert (Hn' : 0 < - (e / 60)) by lra.
        setoid_replace (e / 60 * (e / 60)) with ((- (e / 60)) * (- (e / 60))) by ring.
        apply Qmult_lt_0_compat; exact Hn'. }
    apply Qle_shift_div_l; [exact Hpos|]. rewrite Qmult_0_l.
    now apply Qmult_le_0_compat.
Qed.

End EstimateShape.

Lemma estimate_curation_HBD_value_witness :
  fst (estimate_curation_HBD Sample.HF6 Sample.HF20 Sample.HF21 Sample.parse_time
         Sample.sqrt_stub Sample.hive21 Sample.pending_post 1 (Some 9))
  = Return ((1 - Sample.sqrt_stub (1 - 1 / (1 + (0 + 0 + 4)))) / 4
            / (1 / (1 + (0 + 0 + 4))) * 1 * (1 - (1 - 1)) * Sample.sqrt_stub 9).
Proof.
  apply (estimate_curation_HBD_value Sample.HF6 Sample.HF20 Sample.HF21
           Sample.parse_time Sample.sqrt_stub Sample.hive21 Sample.pending_post
           Sample.pending_post (Sample.HBD (0 + 0 + 4)) (1 - 1) 1 (Some 9)).
  - reflexivity.
  - reflexivity.
  - reflexivity.
  - Qdecide.
  - Qdecide.
  - intros x H. injection H as <-. Qdecide.
Defined.

Lemma estimate_curation_HBD_negative_estimate_witness :
  fst (estimate_curation_HBD Sample.HF6 Sample.HF20 Sample.HF21 Sample.parse_time
         Sample.sqrt_stub Sample.hive21 Sample.pending_post 1 (Some (-1)))
  = Raise (ValueError "math domain error").
Proof.
  apply (estimate_curation_HBD_negative_estimate Sample.HF6 Sample.HF20 Sample.HF21
           Sample.parse_time Sample.sqrt_stub Sample.hive21 Sample.pending_post
           Sample.pending_post (Sample.HBD (0 + 0 + 4)) (1 - 1) 1 (-1)).
  - reflexivity.
  - reflexivity.
  - reflexivity.
  - Qdecide.
  - Qdecide.
  - Qdecide.
Defined.

Lemma estimate_curation_HBD_at_creation_witness :
  exists x,
    fst (estimate_curation_HBD Sample.HF6 Sample.HF20 Sample.HF21 Sample.parse_time
           Sample.sqrt_stub Sample.hive21 Sample.new_post 1 None) = Return x /\
    x == 0.
Proof.
  apply (estimate_curation_HBD_at_creation Sample.HF6 Sample.HF20 Sample.HF21
           Sample.parse_time Sample.sqrt_stub Sample.hive21 Sample.new_post
           Sample.new_post (Sample.HBD (0 + 0 + 4)) 1 None).
  - reflexivity.
  - reflexivity.
  - Qdecide.
  - reflexivity.
  - Qdecide.
  - Qdecide.
  - intros x H. discriminate H.
Defined.

Lemma curation_penalty_compensation_HBD_nonzero_witness :
  exists c,
    fst (curation_penalty_compensation_HBD Sample.HF6 Sample.HF20 Sample.HF21
           Sample.hive21 Sample.future_post) = Return c /\
    amount c == 1200.
Proof.
  destruct (curation_penalty_compensation_HBD_nonzero Sample.HF6 Sample.HF20
              Sample.HF21 Sample.hive21 Sample.future_post Sample.future_post
              (Sample.HBD (0 + 0 + 4)))
    as (c & Hc & _ & Hv & _).
  - reflexivity.
  - reflexivity.
  - Qdecide.
  - exists c. split; [exact Hc|]. rewrite Hv. Qdecide.
Defined.


(** ** Voting *)

Section Voting.

Variable construct_authorperm : string -> string -> string.
Variable formatToTimeStamp : datetime -> Z.

(** X24: [upvote] and [downvote] hand over a vote only for a weight
    argument that is not negative and a comment that is not archived (no
    [last_payout], or one whose timestamp is not positive); the vote is for
    the comment itself, with the weight given for [upvote] and its opposite,
    so never a positive weight, for [downvote].  A negative weight argument
    ends both in [ValueError], also on an archived comment; otherwise an
    archived comment ends both in [VotingInvalidOnArchivedPost]. *)
Theorem upvote_downvote_guarded (self : Post) (weight : Q) (voter_ : option string) :
  (forall r,
      upvote construct_authorperm formatToTimeStamp self weight voter_ = Sent r ->
      0 <= weight /\
      r = VoteRequest weight
            (construct_authorperm (author (comment self)) (permlink (comment self)))
            voter_ /\
      forall t, last_payout self = Some t -> (formatToTimeStamp t <= 0)%Z) /\
  (forall r,
      downvote construct_authorperm formatToTimeStamp self weight voter_ = Sent r ->
      - weight <= 0 /\
      r = VoteRequest (- weight)
            (construct_authorperm (author (comment self)) (permlink (comment self)))
            voter_ /\
      forall t, last_payout self = Some t -> (formatToTimeStamp t <= 0)%Z) /\
  (weight < 0 ->
   upvote construct_authorperm formatToTimeStamp self weight voter_
   = Raised (PyException (ValueError "Weight must be >= 0.")) /\
   downvote construct_authorperm formatToTimeStamp self weight voter_
   = Raised (PyException (ValueError "Weight must be >= 0."))) /\
  (0 <= weight ->
   forall t, last_payout self = Some t -> (0 < formatToTimeStamp t)%Z ->
   upvote construct_authorperm formatToTimeStamp self weight voter_
   = Raised VotingInvalidOnArchivedPost /\
   downvote construct_authorperm formatToTimeStamp self weight voter_
   = Raised VotingInvalidOnArchivedPost).
Proof.
  unfold upvote, downvote, vote.
  destruct (Qlt_bool weight 0) eqn:W.
  - apply Qlt_bool_iff in W. repeat split; try discriminate; lra.
  - apply Qlt_bool_false_iff in W.
    destruct (last_payout self) as [t|].
    + destruct (0 <? formatToTimeStamp t)%Z eqn:A.
      * apply Z.ltb_lt in A. split; [discriminate|]. split; [discriminate|].
        split; [lra|]. intros _ t' Ht _. split; reflexivity.
      * apply Z.ltb_ge in A. split; [|split; [|split]].
        -- intros r H. injection H as <-. split; [exact W|]. split; [reflexivity|].
           intros t' Ht. injection Ht as <-. exact A.
        -- intros r H. injection H as <-. split; [lra|]. split; [reflexivity|].
           intros t' Ht. injection Ht as <-. exact A.
        -- lra.
        -- intros _ t' Ht Hpos. injection Ht as <-. lia.
    + split; [|split; [|split]].
      * intros r H. injection H as <-. split; [exact W|]. split; [reflexivity|].
        discriminate.
      * intros r H. injection H as <-. split; [lra|]. split; [reflexivity|].
        discriminate.
      * lra.
      * discriminate.
Qed.

End Voting.

(** ** Editing *)

Lemma update_keys_find (meta : dict string) (k : string) (ks : list string)
    (d : dict string) :
  (forall key, In key ks -> In key (dict_keys meta)) ->
  dict_find k
    (fold_left
       (fun new_meta key =>
          match dict_find key meta with
          | Some v => dict_set key v new_meta
          | None => new_meta
          end) ks d)
  = if existsb (String.eqb k) ks then dict_find k meta else dict_find k d.
Proof.
  revert d. induction ks as [|key ks IH]; intros d Hin; cbn [fold_left existsb].
  - reflexivity.
  - rewrite IH by (intros key' H; apply Hin; now right).
    destruct (existsb (String.eqb k) ks); [now rewrite orb_true_r|].
    rewrite orb_false_r.
    assert (Hk : In key (dict_keys meta)) by (apply Hin; now left).
    apply dict_find_in_keys in Hk. destruct Hk as (v & Hv). rewrite Hv.
    rewrite dict_find_set. destruct (String.eqb k key) eqn:E; [|reflexivity].
    apply String.eqb_eq in E. subst. now symmetry.
Qed.

Lemma update_from_find (meta d : dict string) (k : string) :
  dict_find k (update_from meta d) =
  match dict_find k meta with
  | Some v => Some v
  | None => dict_find k d
  end.
Proof.
  unfold update_from. rewrite update_keys_find by auto.
  destruct (existsb (String.eqb k) (dict_keys meta)) eqn:E.
  - apply existsb_exists in E. destruct E as (key & Hin & Hk).
    apply String.eqb_eq in Hk. subst key.
    apply dict_find_in_keys in Hin. destruct Hin as (v & Hv). now rewrite Hv.
  - destruct (dict_find k meta) as [v|] eqn:Hv; [|reflexivity].
    exfalso. assert (Hin : In k (dict_keys meta))
      by (apply dict_find_in_keys; eauto).
    assert (Ht : existsb (String.eqb k) (dict_keys meta) = true).
    { apply existsb_exists. exists k. split; [exact Hin|apply String.eqb_refl]. }
    congruence.
Qed.

Section Editing.

Variable construct_authorperm : string -> string -> string.
Variable make_patch : string -> string -> string.

(** X25: when the comment has metadata and there is something to post (the
    body replaces the old one, or the patch is not empty), [edit] posts
    under the comment's own title, author and permlink, as a reply to its
    parent, a metadata dictionary in which every key of [meta] has the value
    [meta] gives it and every other key the value the comment had; and that
    dictionary is left in the comment itself, whose other keys are as
    before. *)
Theorem edit_merges_metadata (self : Post) (body_ newbody : string)
    (meta : option (dict string)) (replace : bool) :
  json_metadata self <> [] ->
  (replace = true /\ newbody = body_) \/
  (replace = false /\ newbody = make_patch (body self) body_ /\ newbody <> ""%string) ->
  exists new_meta,
    edit construct_authorperm make_patch self body_ meta replace
    = (Sent (PostRequest (title self) newbody
               (construct_authorperm (parent_author (comment self))
                  (parent_permlink self))
               (author (comment self)) (permlink (comment self)) new_meta),
       set_json_metadata self new_meta) /\
    forall k,
      dict_find k new_meta =
      match dict_find k match meta with
                        | Some m => m
                        | None => []
                        end with
      | Some v => Some v
      | None => dict_find k (json_metadata self)
      end.
Proof.
  intros Hmeta Hbody.
  exists (update_from match meta with
                      | Some ((_ :: _) as m) => m
                      | _ => []
                      end (json_metadata self)).
  split.
  - unfold edit.
    assert (Hn : (if replace then Some body_
                  else if String.eqb (make_patch (body self) body_) ""
                       then None else Some (make_patch (body self) body_))
                 = Some newbody).
    { destruct Hbody as [(-> & ->)|(-> & -> & Hne)]; [reflexivity|].
      apply String.eqb_neq in Hne. now rewrite Hne. }
    rewrite Hn. destruct (json_metadata self) as [|x l]; [contradiction|].
    reflexivity.
  - intros k. rewrite update_from_find.
    destruct meta as [[|x l]|]; reflexivity.
Qed.

End Editing.

(** ** The parent post *)

Section Parent.

Variable construct_authorperm : string -> string -> string.
Variable Comment_of_identifier : string -> result Post.

(** X26: in a thread with consistent depths, where [n] parent links lead
    from a comment to [root], [get_parent] returns [root] as soon as it may
    read [n] comments from the node and has not ended before; [root] is a
    main post and [n] is the depth of the comment. *)
Theorem get_parent_reaches_root (c root : Post) (n : nat) :
  thread_up construct_authorperm Comment_of_identifier c n root ->
  (forall fuel, (n <= fuel)%nat ->
     get_parent construct_authorperm Comment_of_identifier fuel c
     = Some (Return root)) /\
  (forall fuel, (fuel < n)%nat ->
     get_parent construct_authorperm Comment_of_identifier fuel c = None) /\
  is_main_post (comment root) = true /\
  depth (comment c) = Some (Z.of_nat n).
Proof.
  induction 1 as [c Hd | c parent root d n Hd Hpos Hfetch Hpd _ IH].
  - split; [|split; [|split]].
    + intros fuel _. destruct fuel; simpl; now rewrite Hd.
    + intros fuel Hlt. lia.
    + unfold is_main_post. now rewrite Hd.
    + exact Hd.
  - destruct IH as (Henough & Hshort & Hmain & Hdepth).
    assert (Hb : (0 <? d)%Z = true) by (apply Z.ltb_lt; exact Hpos).
    split; [|split; [|split]].
    + intros fuel Hle. destruct fuel as [|fuel]; [lia|].
      simpl. rewrite Hd, Hb, Hfetch. apply Henough. lia.
    + intros fuel Hlt. destruct fuel as [|fuel]; simpl; rewrite Hd, Hb.
      * reflexivity.
      * rewrite Hfetch. apply Hshort. lia.
    + exact Hmain.
    + rewrite Hd. f_equal. rewrite Hpd in Hdepth. injection Hdepth as Hdepth. lia.
Qed.

End Parent.

(** ** Recent replies *)

Lemma recent_replies_loop_spec (author_ : string) (skip_own : bool)
    (content : dict Comment) (replies : list string) :
  forall comments out,
    recent_replies_loop author_ skip_own content replies comments = Return out ->
    exists posts,
      Forall2 (fun reply post => dict_find reply content = Some post) replies posts /\
      out = comments
            ++ filter (fun post => negb (skip_own && String.eqb (author post) author_))
                 posts.
Proof.
  induction replies as [|reply replies IH]; intros comments out H;
    cbn [recent_replies_loop] in H.
  - injection H as <-. exists []. split; [constructor|]. now rewrite app_nil_r.
  - unfold getitem in H. destruct (dict_find reply content) as [post|] eqn:F;
      [|discriminate]. cbn [bind] in H.
    destruct (skip_own && String.eqb (author post) author_) eqn:E.
    + destruct (IH _ _ H) as (posts & Hall & ->).
      exists (post :: posts). split; [now constructor|].
      cbn [filter]. now rewrite E.
    + destruct (IH _ _ H) as (posts & Hall & ->).
      exists (post :: posts). split; [now constructor|].
      cbn [filter]. rewrite E. cbn [negb]. now rewrite <- app_assoc.
Qed.

Lemma recent_replies_loop_total (author_ : string) (skip_own : bool)
    (content : dict Comment) (replies : list string) :
  (forall reply, In reply replies -> In reply (dict_keys content)) ->
  forall comments,
    returns (recent_replies_loop author_ skip_own content replies comments).
Proof.
  induction replies as [|reply replies IH]; intros Hin comments;
    cbn [recent_replies_loop].
  - eexists. reflexivity.
  - assert (Hk : In reply (dict_keys content)) by (apply Hin; now left).
    apply dict_find_in_keys in Hk. destruct Hk as (post & Hp).
    unfold getitem. rewrite Hp. cbn [bind].
    destruct (skip_own && String.eqb (author post) author_);
      apply IH; intros r Hr; apply Hin; now right.
Qed.

(** X27: on a connected node, the list [RecentReplies] is initialised with
    holds, in the order of the account's [recent_replies], the contents the
    node's state has for them, without those written by the author when
    [skip_own] is set and all of them otherwise; it is built whenever the
    account is in the state and every listed reply has a content.  Without
    a connection the list is empty. *)
Theorem RecentReplies_filters (hive : Hive) (get_state : string -> node_state)
    (author_ : string) (skip_own : bool) :
  (is_connected hive = false ->
   RecentReplies hive get_state author_ skip_own = Return []) /\
  (is_connected hive = true ->
   forall a,
     dict_find author_
       (state_accounts (get_state ("/@" ++ author_ ++ "/recent-replies")%string))
     = Some a ->
     (forall comments,
         RecentReplies hive get_state author_ skip_own = Return comments ->
         exists posts,
           Forall2
             (fun reply post =>
                dict_find reply
                  (state_content
                     (get_state ("/@" ++ author_ ++ "/recent-replies")%string))
                = Some post)
             match recent_replies a with
             | Some replies => replies
             | None => []
             end posts /\
           comments
           = filter (fun post => negb (skip_own && String.eqb (author post) author_))
               posts /\
           (skip_own = true -> Forall (fun c => author c <> author_) comments) /\
           (skip_own = false -> comments = posts)) /\
     ((forall reply,
          In reply match recent_replies a with
                   | Some replies => replies
                   | None => []
                   end ->
          In reply
            (dict_keys
               (state_content
                  (get_state ("/@" ++ author_ ++ "/recent-replies")%string)))) ->
      returns (RecentReplies hive get_state author_ skip_own))).
Proof.
  unfold RecentReplies. split.
  - intros ->. reflexivity.
  - intros -> a Ha. cbn [negb]. unfold getitem. rewrite Ha. cbn [bind].
    split.
    + intros comments H.
      destruct (recent_replies_loop_spec _ _ _ _ _ _ H) as (posts & Hall & Hc).
      cbn [app] in Hc. exists posts. split; [exact Hall|]. split; [exact Hc|].
      split.
      * intros ->. rewrite Hc. apply Forall_forall. intros c Hin.
        apply filter_In in Hin. destruct Hin as (_ & Hf). cbn [andb] in Hf.
        apply negb_true_iff, String.eqb_neq in Hf. exact Hf.
      * intros ->. rewrite Hc. cbn [andb negb].
        clear. induction posts as [|p posts IH]; cbn [filter]; [reflexivity|].
        now rewrite <- IH at 2.
    + intros Hin. now apply recent_replies_loop_total.
Qed.

Lemma upvote_downvote_guarded_witness :
  upvote Sample.authorperm Sample.timestamp Sample.archived_post 100 None
  = Raised VotingInvalidOnArchivedPost /\
  downvote Sample.authorperm Sample.timestamp Sample.root_post 100 None
  = Sent (VoteRequest (- (100)) "@alice/a-post" None).
Proof.
  destruct (upvote_downvote_guarded Sample.authorperm Sample.timestamp
              Sample.archived_post 100 None) as (_ & _ & _ & Harchived).
  split.
  - apply (Harchived ltac:(Qdecide) (Sample.seconds Sample.day) eq_refl).
    reflexivity.
  - destruct (upvote_downvote_guarded Sample.authorperm Sample.timestamp
                Sample.root_post 100 None) as (_ & Hdown & _).
    destruct (Hdown _ eq_refl) as (_ & Hr & _). reflexivity.
Defined.

Lemma edit_merges_metadata_witness :
  exists new_meta,
    edit Sample.authorperm Sample.patch Sample.root_post "new body"
      (Some [("format", "html"); ("tags", "news")]%string) false
    = (Sent (PostRequest "A post" "new body" "@/" "alice" "a-post" new_meta),
       set_json_metadata Sample.root_post new_meta) /\
    dict_find "app" new_meta = Some "bhive"%string /\
    dict_find "format" new_meta = Some "html"%string /\
    dict_find "tags" new_meta = Some "news"%string.
Proof.
  destruct (edit_merges_metadata Sample.authorperm Sample.patch Sample.root_post
              "new body" "new body"
              (Some [("format", "html"); ("tags", "news")]%string) false)
    as (new_meta & Hedit & Hfind).
  - discriminate.
  - right. split; [reflexivity|]. split; [reflexivity|discriminate].
  - exists new_meta. split; [exact Hedit|].
    rewrite !Hfind. repeat split.
Defined.

Lemma get_parent_reaches_root_witness :
  get_parent Sample.authorperm Sample.node_comment 5 Sample.reply_post
  = Some (Return Sample.root_post) /\
  get_parent Sample.authorperm Sample.node_comment 0 Sample.reply_post = None.
Proof.
  assert (T : thread_up Sample.authorperm Sample.node_comment Sample.reply_post 1
                Sample.root_post).
  { apply (thread_reply Sample.authorperm Sample.node_comment Sample.reply_post
             Sample.root_post Sample.root_post 1 0); try reflexivity.
    apply thread_root. reflexivity. }
  destruct (get_parent_reaches_root Sample.authorperm Sample.node_comment
              Sample.reply_post Sample.root_post 1 T) as (Henough & Hshort & _).
  split; [apply Henough | apply Hshort]; lia.
Defined.

Lemma RecentReplies_filters_witness :
  exists comments,
    RecentReplies Sample.hive21_connected Sample.replies_state "bob" true
    = Return comments /\
    Forall (fun c => author c <> "bob"%string) comments.
Proof.
  destruct (RecentReplies_filters Sample.hive21_connected Sample.replies_state
              "bob" true) as (_ & Hon).
  destruct (Hon eq_refl _ eq_refl) as (Hres & Hret).
  destruct Hret as (comments & Hc).
  - simpl. intuition.
  - exists comments. split; [exact Hc|].
    destruct (Hres comments Hc) as (posts & _ & _ & Hskip & _). now apply Hskip.
Defined.

(** ** The reading methods write nothing *)

(** One step of a method: a key read, a returned value, a computation
    that may raise, and a call whose outcome and final comment are known. *)
Lemma step_getkey {A B : Type} (key : Comment -> A) (k : A -> method B)
    (self : Comment) :
  method_bind (getkey key) k self = k (key self) self.
Proof. reflexivity. Qed.

Lemma step_return {A B : Type} (a : A) (k : A -> method B) (self : Comment) :
  method_bind (method_return a) k self = k a self.
Proof. reflexivity. Qed.

Lemma step_compute {A B : Type} (r : result A) (k : A -> method B) (self : Comment) :
  method_bind (compute r) k self
  = match r with
    | Return a => k a self
    | Raise e => (Raise e, self)
    end.
Proof. reflexivity. Qed.

Lemma step_call {A B : Type} (m : method A) (k : A -> method B) (r : result A)
    (self : Comment) :
  m self = (r, self) ->
  method_bind m k self
  = match r with
    | Return a => k a self
    | Raise e => (Raise e, self)
    end.
Proof. intros H. unfold method_bind. now rewrite H. Qed.

Lemma step_assoc {A B C : Type} (m : method A) (k : A -> method B)
    (k' : B -> method C) (self : Comment) :
  method_bind (method_bind m k) k' self
  = method_bind m (fun a => method_bind (k a) k') self.
Proof.
  unfold method_bind. destruct (m self) as [[a|e] self']; reflexivity.
Qed.

(** Runs the leading key reads, returns and computations of a method. *)
Ltac read_steps :=
  repeat (cbv beta;
          first [ rewrite step_assoc | rewrite step_getkey | rewrite step_return
                | rewrite step_compute ]).

(** Splits on the outcome of every computation that may raise. *)
Ltac split_results :=
  repeat (read_steps; cbn [bind fst snd];
          match goal with
          | |- context [bind ?r _] =>
              lazymatch r with
              | bind _ _ => fail
              | Return _ => fail
              | Raise _ => fail
              | _ => destruct r
              end
          | |- context [match ?r with Return _ => _ | Raise _ => _ end] =>
              destruct r
          | |- context [let (_, _) := ?p in _] => destruct p
          end);
  read_steps; cbn [bind fst snd].

Section CallsRead.

Variables HF6 HF20 HF21 : Z.
Variable formatTimeString : string -> result datetime.
Variable Amount_of_string : string -> result Amount.
Variable hive : Hive.
Variable self : Comment.

Lemma call_is_pending_reads :
  call_is_pending hive self = (Return (is_pending hive self), self).
Proof. reflexivity. Qed.

Lemma call_get_votes_reads :
  call_get_votes hive self = (Return (get_votes hive self), self).
Proof. reflexivity. Qed.

Lemma call_reward_reads : call_reward self = (reward self, self).
Proof. reflexivity. Qed.

Lemma call_get_beneficiaries_pct_reads :
  call_get_beneficiaries_pct self = (Return (get_beneficiaries_pct self), self).
Proof. reflexivity. Qed.

Lemma call_get_curation_penalty_reads (vote_time : vote_time_arg) :
  call_get_curation_penalty HF6 HF20 HF21 formatTimeString hive vote_time self
  = (get_curation_penalty HF6 HF20 HF21 formatTimeString hive self vote_time, self).
Proof.
  unfold call_get_curation_penalty, get_curation_penalty, elapsed_seconds_of,
    call_time_elapsed, time_elapsed.
  destruct vote_time as [|s|t|t|d|]; read_steps; try reflexivity.
  destruct (formatTimeString s); reflexivity.
Qed.

Lemma call_get_curation_rewards_reads (pending_payout_HBD : bool)
    (pending_payout_value_ : pending_payout_arg) :
  call_get_curation_rewards Amount_of_string hive pending_payout_HBD
    pending_payout_value_ self
  = (get_curation_rewards Amount_of_string hive self pending_payout_HBD
       pending_payout_value_, self).
Proof.
  unfold call_get_curation_rewards, get_curation_rewards, max_rewards_of,
    active_votes_list_of, total_vote_weight_of.
  read_steps.
  destruct (median_price_of (get_current_median_history hive)) as [mp|e];
    [|reflexivity].
  read_steps. cbn [bind].
  destruct (active_votes self) as [votes|];
    [|rewrite (step_call _ _ _ _ call_get_votes_reads)]; read_steps;
    (destruct (allow_curation_rewards self); cbv iota;
     [rewrite (step_call _ _ _ _ call_is_pending_reads);
      destruct (is_pending hive self)| ]);
    cbn [negb orb]; read_steps; cbn [bind fst snd].
  all: try destruct pending_payout_value_ as [|x|s|a];
    try destruct mp as [mp|]; try destruct pending_payout_HBD.
  all: split_results; reflexivity.
Qed.

(** Runs a leading call of a method already known to write nothing. *)
Ltac call_step :=
  first [ rewrite (step_call _ _ _ _ call_is_pending_reads)
        | rewrite (step_call _ _ _ _ call_get_beneficiaries_pct_reads)
        | rewrite (step_call _ _ _ _ call_reward_reads)
        | rewrite (step_call _ _ _ _ (call_get_curation_rewards_reads _ _)) ].

(** Splits on the computation the next step of the method waits for. *)
Ltac split_scrutinee r :=
  lazymatch r with
  | match ?x with Return _ => _ | Raise _ => _ end => split_scrutinee x
  | match ?x with Some _ => _ | None => _ end => split_scrutinee x
  | if ?x then _ else _ => split_scrutinee x
  | bind ?x _ => split_scrutinee x
  | _ => destruct r eqn:?
  end.

(** Runs a method step by step beside the function of the same name. *)
Ltac reads_loop :=
  repeat
    first
      [ progress (cbv beta iota zeta; cbn [bind fst snd negb orb])
      | rewrite step_assoc
      | rewrite step_getkey
      | rewrite step_return
      | rewrite step_compute
      | call_step
      | match goal with
        | H : ?t = _ |- context [?t] => rewrite H
        end
      | match goal with
        | |- ?lhs = _ =>
            lazymatch lhs with
            | match ?r with Return _ => _ | Raise _ => _ end => split_scrutinee r
            | (if ?b then _ else _) _ => split_scrutinee b
            | (match ?o with Some _ => _ | None => _ end) _ => split_scrutinee o
            end
        end ].

Lemma call_get_author_rewards_reads :
  call_get_author_rewards Amount_of_string hive self
  = (get_author_rewards Amount_of_string hive self, self).
Proof.
  unfold call_get_author_rewards, get_author_rewards.
  reads_loop; reflexivity.
Qed.

Lemma call_get_rewards_reads :
  call_get_rewards Amount_of_string hive self
  = (get_rewards Amount_of_string hive self, self).
Proof.
  unfold call_get_rewards, get_rewards.
  rewrite (step_call _ _ _ _ call_is_pending_reads).
  destruct (is_pending hive self); read_steps.
  - rewrite (step_call _ _ _ _ call_get_author_rewards_reads).
    destruct (get_author_rewards Amount_of_string hive self); reflexivity.
  - reflexivity.
Qed.

End CallsRead.

(** ** What the reward methods leave of the comment *)

Section Frame.

Variables HF6 HF20 HF21 : Z.
Variable formatTimeString : string -> result datetime.
Variable Amount_of_string : string -> result Amount.
Variable sqrt_value : Q -> Q.
Variable hive : Hive.

Lemma get_vote_with_curation_no_rewards (self : Comment) (voter_ : option string)
    (raw_data : bool) (pending_payout_value_ : pending_payout_arg) (e : exception) :
  max_rewards_of Amount_of_string hive self true pending_payout_value_ = Raise e ->
  snd (get_vote_with_curation Amount_of_string hive self voter_ raw_data
         pending_payout_value_) = self.
Proof.
  intros Hm. unfold get_vote_with_curation.
  destruct (find_specific_vote _ _ 0 None) as [i|]; [|reflexivity].
  destruct (nth_error _ i) as [sv|]; [|reflexivity].
  destruct (raw_data || negb (is_pending hive self)); [reflexivity|].
  unfold get_curation_rewards. rewrite Hm. reflexivity.
Qed.

(** C7 (as amended): [get_rewards], [get_author_rewards],
    [get_curation_rewards] and [get_curation_penalty], run as methods on the
    comment, leave the comment they were given and return what the functions
    of the same names compute.  [get_vote_with_curation] leaves every key of
    the comment but [active_votes] as it was; it leaves the whole comment as
    it was when [raw_data] is set, when the comment is not pending, when the
    voter has no vote, when the comment has no [active_votes] key, or when
    the curation rewards cannot be computed; the vote list keeps its length
    and the vote data of every entry, and only the entry of the voter's vote
    may differ.  On a pending comment with its own [active_votes], with
    [raw_data] unset, a vote of the voter and computed curation rewards, the
    entry of the voter's last vote is replaced: when the voting value is not
    0 the new entry carries the voter's curation reward as [curation_reward]
    and that reward divided by the voting value, times 100, as [ROI], and the
    vote returned is the entry now stored at that place; when the voting
    value is 0 the call ends in [ZeroDivisionError] with [curation_reward]
    already written.  [curation_penalty_compensation_HBD] and
    [estimate_curation_HBD] leave the comment [refresh] fetched, which is the
    comment they were given when the node is not connected or [refresh]
    fails. *)
Theorem reward_methods_frame (self : Comment) :
  (call_get_rewards Amount_of_string hive self
   = (get_rewards Amount_of_string hive self, self) /\
   call_get_author_rewards Amount_of_string hive self
   = (get_author_rewards Amount_of_string hive self, self) /\
   (forall pending_payout_HBD pending_payout_value_,
       call_get_curation_rewards Amount_of_string hive pending_payout_HBD
         pending_payout_value_ self
       = (get_curation_rewards Amount_of_string hive self pending_payout_HBD
            pending_payout_value_, self)) /\
   (forall vote_time,
       call_get_curation_penalty HF6 HF20 HF21 formatTimeString hive vote_time self
       = (get_curation_penalty HF6 HF20 HF21 formatTimeString hive self vote_time,
          self))) /\
  (forall voter_ raw_data pending_payout_value_,
      same_but_votes self
        (snd (get_vote_with_curation Amount_of_string hive self voter_ raw_data
                pending_payout_value_)) /\
      (raw_data = true \/ is_pending hive self = false \/
       find_specific_vote (voter_name self voter_) (active_votes_list_of hive self)
         0 None = None \/
       active_votes self = None \/
       (exists e,
           max_rewards_of Amount_of_string hive self true pending_payout_value_
           = Raise e) ->
       snd (get_vote_with_curation Amount_of_string hive self voter_ raw_data
              pending_payout_value_) = self) /\
      (forall votes,
          active_votes self = Some votes ->
          exists votes',
            active_votes
              (snd (get_vote_with_curation Amount_of_string hive self voter_
                      raw_data pending_payout_value_)) = Some votes' /\
            length votes' = length votes /\
            forall i v,
              nth_error votes i = Some v ->
              exists v',
                nth_error votes' i = Some v' /\ same_vote_data v v' /\
                (find_specific_vote (voter_name self voter_) votes 0 None <> Some i ->
                 v' = v))) /\
  (forall voter_ pending_payout_value_ votes v m pend,
      active_votes self = Some votes ->
      last_vote_of (voter_name self voter_) votes = Some v ->
      is_pending hive self = true ->
      max_rewards_of Amount_of_string hive self true pending_payout_value_
      = Return (m, pend) ->
      exists i,
        find_specific_vote (voter_name self voter_) votes 0 None = Some i /\
        nth_error votes i = Some v /\
        (~ get_voting_value_HBD hive (voter_name self voter_)
             (inject_Z (percent v) / 100) == 0 ->
         exists v',
           get_vote_with_curation Amount_of_string hive self voter_ false
             pending_payout_value_
           = (Return (Some v'),
              set_active_votes self (Some (list_update i v' votes))) /\
           nth_error (list_update i v' votes) i = Some v' /\
           same_vote_data v v' /\
           curation_reward v'
           = Some (recorded_claim m (total_vote_weight_of self votes) v) /\
           ROI v'
           = Some (claim_float (recorded_claim m (total_vote_weight_of self votes) v)
                   / get_voting_value_HBD hive (voter_name self voter_)
                       (inject_Z (percent v) / 100)
                   * 100)) /\
        (get_voting_value_HBD hive (voter_name self voter_)
           (inject_Z (percent v) / 100) == 0 ->
         get_vote_with_curation Amount_of_string hive self voter_ false
           pending_payout_value_
         = (Raise ZeroDivisionError,
            set_active_votes self
              (Some (list_update i
                       (set_curation_reward v
                          (recorded_claim m (total_vote_weight_of self votes) v))
                       votes))))) /\
  (forall self',
      refresh hive self = Return self' ->
      snd (curation_penalty_compensation_HBD HF6 HF20 HF21 hive self) = self' /\
      forall vote_value estimated_value,
        snd (estimate_curation_HBD HF6 HF20 HF21 formatTimeString sqrt_value hive
               self vote_value estimated_value) = self') /\
  (is_connected hive = false \/ (exists e, refresh hive self = Raise e) ->
   snd (curation_penalty_compensation_HBD HF6 HF20 HF21 hive self) = self /\
   forall vote_value estimated_value,
     snd (estimate_curation_HBD HF6 HF20 HF21 formatTimeString sqrt_value hive
            self vote_value estimated_value) = self).
Proof.
  split; [|split; [|split; [|split]]].
  - split; [apply call_get_rewards_reads|].
    split; [apply call_get_author_rewards_reads|].
    split; [apply call_get_curation_rewards_reads|].
    apply call_get_curation_penalty_reads.
  - intros voter_ raw_data ppv.
    pose proof (get_vote_with_curation_leaves Amount_of_string hive self voter_
                  raw_data ppv) as L.
    pose proof (get_vote_with_curation_no_rewards self voter_ raw_data ppv) as R.
    set (self' := snd (get_vote_with_curation Amount_of_string hive self voter_
                         raw_data ppv)) in *.
    split; [|split].
    + destruct L as [->|(_ & _ & i & sv & v' & _ & _ & _ & ->)];
        [apply same_but_votes_refl | apply store_vote_same_but_votes].
    + intros H. destruct L as [L|(Hraw & Hp & i & sv & v' & Hf & _ & _ & L)];
        [exact L|].
      destruct H as [H|[H|[H|[H|(e & H)]]]]; try congruence.
      * rewrite L. unfold store_vote. now rewrite H.
      * exact (R e H).
    + intros votes Hv.
      destruct L as [->|(_ & _ & i & sv & v' & Hf & Hn & Hd & ->)].
      * exists votes. split; [exact Hv|]. split; [reflexivity|].
        intros i v Hi. exists v. split; [exact Hi|].
        split; [repeat split | reflexivity].
      * unfold active_votes_list_of in Hf, Hn. rewrite Hv in Hf, Hn.
        unfold store_vote. rewrite Hv. cbn [active_votes set_active_votes].
        eexists. split; [reflexivity|]. split; [apply list_update_length|].
        intros j v Hj. rewrite (nth_error_list_update i j v' v votes Hj).
        eexists. split; [reflexivity|].
        destruct (Nat.eqb i j) eqn:E.
        -- apply Nat.eqb_eq in E. subst j. split.
           ++ assert (v = sv) by congruence. subst. exact Hd.
           ++ intros Hne. exfalso. apply Hne. exact Hf.
        -- split; [repeat split | reflexivity].
  - intros voter_ ppv votes v m pend Hv Hl Hp Hm.
    assert (Ha : active_votes_list_of hive self = votes)
      by (unfold active_votes_list_of; now rewrite Hv).
    pose proof (find_specific_vote_last (voter_name self voter_) votes) as L.
    rewrite Hl in L. destruct L as (i & Hf & Hn).
    pose proof (get_vote_with_curation_found Amount_of_string hive self voter_ ppv
                  i v m pend) as G.
    rewrite Ha in G. specialize (G Hf Hn Hl Hp Hm).
    cbv zeta in G. cbn [percent set_curation_reward] in G.
    exists i. split; [exact Hf|]. split; [exact Hn|]. split.
    + intros Hz. rewrite (float_div_Return _ _ Hz) in G. cbn [bind] in G.
      rewrite store_vote_twice in G. unfold store_vote in G. rewrite Hv in G.
      eexists. split; [exact G|].
      split.
      * rewrite (nth_error_list_update i i _ v votes Hn).
        now rewrite Nat.eqb_refl.
      * split; [repeat split|]. split; reflexivity.
    + intros Hz. rewrite (float_div_Raise _ _ Hz) in G.
      unfold store_vote in G. rewrite Hv in G. exact G.
  - intros self' Hr.
    unfold curation_penalty_compensation_HBD, estimate_curation_HBD.
    rewrite Hr. split; reflexivity.
  - intros H.
    assert (R : refresh hive self = Return self \/ exists e, refresh hive self = Raise e).
    { destruct H as [H|H]; [left|now right].
      unfold refresh. rewrite H. cbn [negb].
      destruct (String.eqb (identifier self) ""); reflexivity. }
    unfold curation_penalty_compensation_HBD, estimate_curation_HBD.
    destruct R as [->|(e & ->)]; split; reflexivity.
Qed.

End Frame.

Lemma reward_methods_frame_witness :
  snd (call_get_rewards Sample.parse_amount Sample.hive21 Sample.pending_post)
  = Sample.pending_post /\
  snd (get_vote_with_curation Sample.parse_amount Sample.hive21 Sample.pending_post
         (Some "bob"%string) true pending_payout_None) = Sample.pending_post /\
  (exists i v',
      get_vote_with_curation Sample.parse_amount Sample.hive21 Sample.pending_post
        (Some "dave"%string) false pending_payout_None
      = (Return (Some v'),
         set_active_votes Sample.pending_post
           (Some (list_update i v'
                    [Sample.vote_of "bob" 300; Sample.vote_of "dave" 700]))) /\
      nth_error
        (list_update i v' [Sample.vote_of "bob" 300; Sample.vote_of "dave" 700]) i
      = Some v' /\
      curation_reward v'
      = Some (recorded_claim (Sample.HBD (4 * (1 # 4))) 1000
                (Sample.vote_of "dave" 700))) /\
  (exists i,
      get_vote_with_curation Sample.parse_amount Sample.hive21_no_value
        Sample.pending_post (Some "dave"%string) false pending_payout_None
      = (Raise ZeroDivisionError,
         set_active_votes Sample.pending_post
           (Some (list_update i
                    (set_curation_reward (Sample.vote_of "dave" 700)
                       (recorded_claim (Sample.HBD (4 * (1 # 4))) 1000
                          (Sample.vote_of "dave" 700)))
                    [Sample.vote_of "bob" 300; Sample.vote_of "dave" 700])))) /\
  snd (curation_penalty_compensation_HBD Sample.HF6 Sample.HF20 Sample.HF21
         Sample.hive21 Sample.pending_post) = Sample.pending_post.
Proof.
  destruct (reward_methods_frame Sample.HF6 Sample.HF20 Sample.HF21 Sample.parse_time
              Sample.parse_amount Sample.sqrt_stub Sample.hive21 Sample.pending_post)
    as ((Hg & _) & Hv & Hw & _ & Hr).
  destruct (reward_methods_frame Sample.HF6 Sample.HF20 Sample.HF21 Sample.parse_time
              Sample.parse_amount Sample.sqrt_stub Sample.hive21_no_value
              Sample.pending_post)
    as (_ & _ & Hz & _).
  split; [|split; [|split; [|split]]].
  - rewrite Hg. reflexivity.
  - destruct (Hv (Some "bob"%string) true pending_payout_None) as (_ & H & _).
    apply H. now left.
  - destruct (Hw (Some "dave"%string) pending_payout_None
                [Sample.vote_of "bob" 300; Sample.vote_of "dave" 700]
                (Sample.vote_of "dave" 700) (Sample.HBD (4 * (1 # 4))) true)
      as (i & _ & _ & H & _);
      [reflexivity | reflexivity | reflexivity | reflexivity |].
    destruct H as (v' & Hg' & Hn & _ & Hc & _); [Qdecide|].
    exists i, v'. split; [exact Hg'|]. split; [exact Hn | exact Hc].
  - destruct (Hz (Some "dave"%string) pending_payout_None
                [Sample.vote_of "bob" 300; Sample.vote_of "dave" 700]
                (Sample.vote_of "dave" 700) (Sample.HBD (4 * (1 # 4))) true)
      as (i & _ & _ & _ & H);
      [reflexivity | reflexivity | reflexivity | reflexivity |].
    exists i. apply H. Qdecide.
  - destruct Hr as [H _]; [now left | exact H].
Defined.
